(** * youtube_downloader.py: formatter, progress hook, summary and probe

    A shallow embedding of the Python module [youtube_downloader.py]:
    the two formatters [format_size] and [format_duration], the progress
    hook [EnhancedProgressHook.__call__], the summary printer
    [display_content_info], the probe [get_content_info], the menu
    [select_format], the directory name built by [download_content], and
    [main] with the top-level exception handlers.

    Python objects are modelled by the inductive [value]; Python [float]s
    are IEEE binary64 numbers ([spec_float] at precision 53); strings are
    kept as UTF-8; exceptions are explicit ([result]); [print] and the
    calls into yt-dlp append to a trace of events. *)

From Stdlib Require Import ZArith Lia List String Ascii Bool.
From Stdlib Require Import Floats.SpecFloat Numbers.DecimalString.
Import ListNotations.

Set Warnings "-register-all".

Open Scope string_scope.
Open Scope Z_scope.

(* ================================================================== *)
(** * The Python runtime the module relies on *)
(* ================================================================== *)

(** ** Exceptions and fallible computations *)

Inductive exn : Type :=
| TypeError
| AttributeError
| OverflowError
| ValueError
| ZeroDivisionError
| IndexError
| EOFError
| KeyError
| ExtractorError (msg : string)
| DownloadError (msg : string)
| KeyboardInterrupt
| SystemExit (code : Z)
| OtherException (msg : string).

Inductive result (A : Type) : Type :=
| Ok (a : A)
| Raise (e : exn).
Arguments Ok {A} a.
Arguments Raise {A} e.

Definition rbind {A B} (r : result A) (k : A -> result B) : result B :=
  match r with
  | Ok a => k a
  | Raise e => Raise e
  end.

Notation "x <- r ;; k" := (rbind r (fun x => k))
  (at level 61, r at next level, right associativity).

(** ** Binary64 floats *)

Definition prec : Z := 53.
Definition emax : Z := 1024.

Definition float : Type := spec_float.

Definition fadd : float -> float -> float := SFadd prec emax.
Definition fsub : float -> float -> float := SFsub prec emax.
Definition fmul : float -> float -> float := SFmul prec emax.
Definition fdiv : float -> float -> float := SFdiv prec emax.
Definition fleb : float -> float -> bool := SFleb.
Definition fltb : float -> float -> bool := SFltb.

(** The double nearest to an integer (ties to even); an infinity when the
    integer is out of range. *)
Definition Z2F (n : Z) : float := binary_normalize prec emax n 0 false.

Definition is_zero (x : float) : bool :=
  match x with S754_zero _ => true | _ => false end.

Definition is_neg (x : float) : bool :=
  match x with
  | S754_zero s | S754_infinity s | S754_finite s _ _ => s
  | S754_nan => false
  end.

(** [float(n)] for a Python int: [OverflowError] beyond the double range. *)
Definition float_of_int (n : Z) : result float :=
  match Z2F n with
  | S754_infinity _ => Raise OverflowError
  | x => Ok x
  end.

(** [a / b] for two Python ints, [b <> 0]: the correctly rounded quotient.
    The quotient is computed with at least 55 significant bits and a
    sticky bit, then rounded once. *)
Definition div_int_int (a b : Z) : result float :=
  let neg := xorb (a <? 0) (b <? 0) in
  if b =? 0 then Raise ZeroDivisionError
  else if a =? 0 then Ok (S754_zero neg)
  else
    let A := Z.abs a in
    let B := Z.abs b in
    let k := Z.max 0 (55 + Zdigits2 B - Zdigits2 A) in
    let (q, r) := Z.div_eucl (A * 2 ^ k) B in
    let m := 2 * q + (if r =? 0 then 0 else 1) in
    match binary_normalize prec emax (if neg then - m else m) (- (k + 1)) neg with
    | S754_infinity _ => Raise OverflowError
    | x => Ok x
    end.

(** [x / y] for two Python floats. *)
Definition div_float_float (x y : float) : result float :=
  if is_zero y then Raise ZeroDivisionError else Ok (fdiv x y).

(** C's [fmod]: the exact remainder of the truncated division, with the
    sign of the dividend. *)
Definition fmod (x y : float) : float :=
  match x, y with
  | S754_nan, _ | _, S754_nan => S754_nan
  | S754_infinity _, _ => S754_nan
  | _, S754_zero _ => S754_nan
  | _, S754_infinity _ => x
  | S754_zero _, _ => x
  | S754_finite sx mx ex, S754_finite _ my ey =>
      let e0 := Z.min ex ey in
      let X := Zpos mx * 2 ^ (ex - e0) in
      let Y := Zpos my * 2 ^ (ey - e0) in
      let R := X mod Y in
      binary_normalize prec emax (if sx then - R else R) e0 sx
  end.

(** C's [floor]. *)
Definition ffloor (x : float) : float :=
  match x with
  | S754_finite s m e =>
      if 0 <=? e then x
      else binary_normalize prec emax
             ((if s then Zneg m else Zpos m) / 2 ^ (- e)) 0 false
  | _ => x
  end.

Definition copysign_zero (y : float) : float := S754_zero (is_neg y).

Definition fone : float := Z2F 1.
Definition fhalf : float := fdiv (Z2F 1) (Z2F 2).

(** CPython's [float_rem]: [x % y] for floats, [y] not zero. *)
Definition float_rem (x y : float) : float :=
  let md := fmod x y in
  if negb (is_zero md) then
    if negb (Bool.eqb (fltb y (Z2F 0)) (fltb md (Z2F 0))) then fadd md y else md
  else copysign_zero y.

(** CPython's [_float_div_mod], quotient part: [x // y] for floats,
    [y] not zero. *)
Definition float_floor_div (x y : float) : float :=
  let md := fmod x y in
  let dv := fdiv (fsub x md) y in
  let dv :=
    if negb (is_zero md) then
      if negb (Bool.eqb (fltb y (Z2F 0)) (fltb md (Z2F 0))) then fsub dv fone else dv
    else dv in
  if negb (is_zero dv) then
    let fl := ffloor dv in
    if fltb fhalf (fsub dv fl) then fadd fl fone else fl
  else copysign_zero (fdiv x y).

(** [int(x)] for a Python float: truncation toward zero. *)
Definition int_of_float (x : float) : result Z :=
  match x with
  | S754_nan => Raise ValueError
  | S754_infinity _ => Raise OverflowError
  | S754_zero _ => Ok 0
  | S754_finite s m e =>
      let a := if 0 <=? e then Zpos m * 2 ^ e else Zpos m / 2 ^ (- e) in
      Ok (if s then - a else a)
  end.

(** ** Rendering numbers *)

(** The decimal digits of an int, with its sign. *)
Definition dec (n : Z) : string := NilZero.string_of_int (Z.to_int n).

(** CPython converts an int to decimal text only when it has at most
    [sys.int_info.default_max_str_digits] digits, and raises [ValueError]
    otherwise; the limit applies to [str(n)], to an f-string field and
    to [format(n, "02d")] alike. *)
Definition max_str_digits : Z := 4300.

Definition str_limit : Z := 10 ^ max_str_digits.
Arguments str_limit : simpl never.

(** [str(n)] for an int. *)
Definition int_str (n : Z) : result string :=
  if Z.abs n <? str_limit then Ok (dec n) else Raise ValueError.

Fixpoint repeat_string (s : string) (n : nat) : string :=
  match n with
  | O => ""
  | S k => s ++ repeat_string s k
  end.

Definition pad_left (fill : string) (width : nat) (s : string) : string :=
  repeat_string fill (width - String.length s) ++ s.

(** The layout of [format(n, "02d")]: the sign, then the digits
    zero-filled so that the whole field has at least two characters. *)
Definition format_02d (n : Z) : string :=
  if n <? 0 then "-" ++ pad_left "0" 1 (dec (- n))
  else pad_left "0" 2 (dec n).

(** [format(n, "02d")]: the digits are produced first, under the limit
    of [int_str], then laid out. *)
Definition py_format_02d (n : Z) : result string :=
  _ <- int_str n ;; Ok (format_02d n).

(** The integer nearest to [num / den], ties to even ([0 < den]). *)
Definition round_half_even (num den : Z) : Z :=
  let q := num / den in
  let r := num mod den in
  match 2 * r ?= den with
  | Lt => q
  | Gt => q + 1
  | Eq => if Z.even q then q else q + 1
  end.

(** The magnitude of a finite float in tenths, correctly rounded. *)
Definition tenths (m : positive) (e : Z) : Z :=
  if 0 <=? e then 10 * (Zpos m * 2 ^ e)
  else round_half_even (10 * Zpos m) (2 ^ (- e)).

Definition sign_string (s : bool) : string := if s then "-" else "".

(** [format(x, ".1f")]. *)
Definition format_1f (x : float) : string :=
  match x with
  | S754_nan => "nan"
  | S754_infinity s => sign_string s ++ "inf"
  | S754_zero s => sign_string s ++ "0.0"
  | S754_finite s m e =>
      let t := tenths m e in
      sign_string s ++ dec (t / 10) ++ "." ++ dec (t mod 10)
  end.

(** [format(x, "5.1f")]: right-aligned in a field of five characters. *)
Definition format_5_1f (x : float) : string :=
  pad_left " " 5 (format_1f x).

(** ** Python objects *)

Inductive value : Type :=
| VNone
| VBool (b : bool)
| VInt (n : Z)
| VFloat (x : float)
| VStr (s : string)
| VList (l : list value)
| VDict (d : list (string * value)).

(** A [dict] with string keys, in insertion order. *)
Definition dict : Type := list (string * value).

Fixpoint lookup (d : dict) (k : string) : option value :=
  match d with
  | [] => None
  | (k', v) :: d' => if String.eqb k' k then Some v else lookup d' k
  end.

(** [d.get(k, default)] on a dict. *)
Definition dict_get (d : dict) (k : string) (default : value) : value :=
  match lookup d k with
  | Some v => v
  | None => default
  end.

(** [o.get(k, default)] on an arbitrary object: only dicts have [get]. *)
Definition py_get (o : value) (k : string) (default : value) : result value :=
  match o with
  | VDict d => Ok (dict_get d k default)
  | _ => Raise AttributeError
  end.

(** Truth value of an object ([if o], [not o], [a or b]). *)
Definition truthy (v : value) : bool :=
  match v with
  | VNone => false
  | VBool b => b
  | VInt n => negb (n =? 0)
  | VFloat x => negb (is_zero x)
  | VStr s => negb (String.eqb s "")
  | VList l => match l with [] => false | _ => true end
  | VDict d => match d with [] => false | _ => true end
  end.

Definition py_or (a b : value) : value := if truthy a then a else b.

(** [v == s] for a string literal [s]. *)
Definition eq_str (v : value) (s : string) : bool :=
  match v with
  | VStr s' => String.eqb s' s
  | _ => false
  end.

(** Numbers: the instances of [(int, float)]; [bool] is a subclass of
    [int]. *)
Inductive num : Type :=
| NInt (n : Z)
| NFloat (x : float).

Definition as_number (v : value) : option num :=
  match v with
  | VBool b => Some (NInt (if b then 1 else 0))
  | VInt n => Some (NInt n)
  | VFloat x => Some (NFloat x)
  | _ => None
  end.

(** [n <= 0]. *)
Definition num_le_zero (n : num) : bool :=
  match n with
  | NInt n => n <=? 0
  | NFloat x => fleb x (Z2F 0)
  end.

(** [float(n)]. *)
Definition num_float (n : num) : result float :=
  match n with
  | NInt n => float_of_int n
  | NFloat x => Ok x
  end.

(** [int(n)]. *)
Definition num_int (n : num) : result Z :=
  match n with
  | NInt n => Ok n
  | NFloat x => int_of_float x
  end.

(** [n // k] and [n % k] for a positive int literal [k]. *)
Definition num_floordiv (n : num) (k : Z) : num :=
  match n with
  | NInt n => NInt (n / k)
  | NFloat x => NFloat (float_floor_div x (Z2F k))
  end.

Definition num_mod (n : num) (k : Z) : num :=
  match n with
  | NInt n => NInt (n mod k)
  | NFloat x => NFloat (float_rem x (Z2F k))
  end.

(** [a / b]: true division. *)
Definition py_truediv (a b : value) : result float :=
  match as_number a, as_number b with
  | Some (NInt x), Some (NInt y) => div_int_int x y
  | Some x, Some y =>
      fx <- num_float x ;;
      fy <- num_float y ;;
      div_float_float fx fy
  | _, _ => Raise TypeError
  end.

(** ** Strings and paths *)

(** Strings are kept as UTF-8; a continuation byte is [10xxxxxx]. *)
Definition is_continuation (c : ascii) : bool :=
  let n := nat_of_ascii c in
  ((128 <=? n) && (n <? 192))%nat.

(** [s[:n]]: the first [n] code points. *)
Fixpoint take_chars (n : nat) (s : string) : string :=
  match s with
  | EmptyString => EmptyString
  | String c r =>
      if is_continuation c then String c (take_chars n r)
      else match n with
           | O => EmptyString
           | S k => String c (take_chars k r)
           end
  end.

(** [s.split("/")]. *)
Fixpoint split_slash (s : string) : list string :=
  match s with
  | EmptyString => [EmptyString]
  | String c r =>
      if Ascii.eqb c "/" then EmptyString :: split_slash r
      else match split_slash r with
           | [] => [String c EmptyString]
           | w :: ws => String c w :: ws
           end
  end.

Definition is_path_part (w : string) : bool :=
  negb (String.eqb w "") && negb (String.eqb w ".").

(** [PurePosixPath(s).name]: the last component that is neither empty nor
    a dot; the empty string when there is none. *)
Definition path_name (s : string) : string :=
  last (filter is_path_part (split_slash s)) "".

(** [Path(v).name]: only a [str] is accepted. *)
Definition py_path_name (v : value) : result string :=
  match v with
  | VStr s => Ok (path_name s)
  | _ => Raise TypeError
  end.

(** [str(v)], as used by an f-string field without format spec.  The
    text of floats and containers, or the exception raised while it is
    built, is [py_repr], supplied by the runtime. *)
Definition py_str (py_repr : value -> result string) (v : value) : result string :=
  match v with
  | VNone => Ok "None"
  | VBool b => Ok (if b then "True" else "False")
  | VInt n => int_str n
  | VStr s => Ok s
  | _ => py_repr v
  end.

(** [k in o] for a string literal [k]. *)
Definition py_contains (k : string) (o : value) : result bool :=
  match o with
  | VDict d => Ok (match lookup d k with Some _ => true | None => false end)
  | VList l => Ok (existsb (fun v => eq_str v k) l)
  | VStr s => Ok (match String.index 0 k s with Some _ => true | None => false end)
  | _ => Raise TypeError
  end.

(** [o[k]] for a string literal [k]; used only where [k in o] holds. *)
Definition py_getitem (o : value) (k : string) : result value :=
  match o with
  | VDict d => match lookup d k with
               | Some v => Ok v
               | None => Raise KeyError
               end
  | _ => Raise TypeError
  end.

(** The code points of a UTF-8 string: each lead byte with the
    continuation bytes that follow it. *)
Fixpoint code_point_list (s : string) : list string :=
  match s with
  | EmptyString => []
  | String c r =>
      let rest := code_point_list r in
      match r, rest with
      | String c' _, w :: ws =>
          if is_continuation c' then String c w :: ws
          else String c EmptyString :: rest
      | _, _ => String c EmptyString :: rest
      end
  end.

(** Iterating over an object ([for e in o]); a [str] yields its code
    points. *)
Definition chars (s : string) : list value := map VStr (code_point_list s).

Definition py_iter (o : value) : result (list value) :=
  match o with
  | VList l => Ok l
  | VDict d => Ok (map (fun kv => VStr (fst kv)) d)
  | VStr s => Ok (chars s)
  | _ => Raise TypeError
  end.

Definition newline : string := String (ascii_of_nat 10) EmptyString.
Definition carriage_return : string := String (ascii_of_nat 13) EmptyString.

(* ================================================================== *)
(** * The module *)
(* ================================================================== *)

(** ** Colours and library hooks

    [Colors] holds the colorama escape sequences, or empty strings when
    colorama is missing (the [DummyColorama] fallback). *)

Record Colors : Type := {
  RED : string; GREEN : string; YELLOW : string; BLUE : string;
  CYAN : string; WHITE : string; BOLD : string; END_ : string
}.

Definition DummyColorama : Colors :=
  {| RED := ""; GREEN := ""; YELLOW := ""; BLUE := "";
     CYAN := ""; WHITE := ""; BOLD := ""; END_ := "" |}.

(** What the surrounding libraries decide: the colours, the [repr] of
    floats and containers (or the exception it raises), and the text
    [str(e)] of an exception (yt-dlp decorates the message an
    [ExtractorError] is built from). *)
Class Runtime : Type := {
  C : Colors;
  py_repr : value -> result string;
  exception_text : exn -> string
}.

(** ** Utility functions *)

Definition units : list string := ["B"; "KB"; "MB"; "GB"; "TB"].

(** The loop [while size >= 1024 and i < len(units) - 1]; [fuel] bounds
    the number of iterations. *)
Fixpoint scale (fuel : nat) (size : float) (i : nat) : float * nat :=
  match fuel with
  | O => (size, i)
  | S fuel' =>
      if fleb (Z2F 1024) size && (i <? List.length units - 1)%nat
      then scale fuel' (fdiv size (Z2F 1024)) (S i)
      else (size, i)
  end.

Definition unit_at (i : nat) : result string :=
  match nth_error units i with
  | Some u => Ok u
  | None => Raise IndexError
  end.

Definition format_size (size_bytes : value) : result string :=
  match as_number size_bytes with
  | None => Ok "N/A"
  | Some n =>
      if num_le_zero n then Ok "N/A"
      else
        size <- num_float n ;;
        let '(size, i) := scale (List.length units) size 0 in
        u <- unit_at i ;;
        Ok (format_1f size ++ " " ++ u)
  end.

Definition format_duration (seconds : value) : result string :=
  match as_number seconds with
  | None => Ok "N/A"
  | Some sec =>
      if num_le_zero sec then Ok "N/A"
      else
        h <- num_int (num_floordiv sec 3600) ;;
        m <- num_int (num_floordiv (num_mod sec 3600) 60) ;;
        s <- num_int (num_mod sec 60) ;;
        if 0 <? h
        then (hh <- py_format_02d h ;;
              mm <- py_format_02d m ;;
              ss <- py_format_02d s ;;
              Ok (hh ++ ":" ++ mm ++ ":" ++ ss))
        else (mm <- py_format_02d m ;;
              ss <- py_format_02d s ;;
              Ok (mm ++ ":" ++ ss))
  end.

(** ** Effects: state, printed text, exceptions *)

Inductive event : Type :=
| Print (text : string)
| LogError (msg : string)
| LogCritical (msg : string)
| ExtractInfo (url : string) (cookies_from : option string)
| SelectFormat (has_ffmpeg : bool)
| DownloadContent (url format_id : string).

Record run (S A : Type) : Type := {
  final : S;
  trace : list event;
  outcome : result A
}.
Arguments final {S A} r.
Arguments trace {S A} r.
Arguments outcome {S A} r.

Definition prog (S A : Type) : Type := S -> run S A.

Definition ret {S A} (a : A) : prog S A :=
  fun s => {| final := s; trace := []; outcome := Ok a |}.

Definition bind {S A B} (m : prog S A) (k : A -> prog S B) : prog S B :=
  fun s =>
    let r := m s in
    match outcome r with
    | Ok a =>
        let r' := k a (final r) in
        {| final := final r'; trace := trace r ++ trace r'; outcome := outcome r' |}
    | Raise e => {| final := final r; trace := trace r; outcome := Raise e |}
    end.

Definition lift {S A} (r : result A) : prog S A :=
  fun s => {| final := s; trace := []; outcome := r |}.

Definition emit {S} (e : event) : prog S unit :=
  fun s => {| final := s; trace := [e]; outcome := Ok tt |}.

Definition get {S} : prog S S :=
  fun s => {| final := s; trace := []; outcome := Ok s |}.

Definition put {S} (s : S) : prog S unit :=
  fun _ => {| final := s; trace := []; outcome := Ok tt |}.

(** [print(text)] and [print(text, end="")]. *)
Definition print {S} (text : string) : prog S unit := emit (Print (text ++ newline)).
Definition print_noend {S} (text : string) : prog S unit := emit (Print text).

Declare Scope prog_scope.
Delimit Scope prog_scope with prog.
Notation "x <~ m ; k" := (bind m (fun x => k))
  (at level 61, m at next level, right associativity) : prog_scope.
Notation "m ;; k" := (bind m (fun _ => k))
  (at level 61, right associativity) : prog_scope.

Definition when {S} (b : bool) (m : prog S unit) : prog S unit :=
  if b then m else ret tt.

(** [try: m  except (ExtractorError, DownloadError) as e: h e]. *)
Definition try_except_extraction {S A} (m : prog S A) (h : exn -> prog S A)
  : prog S A :=
  fun s =>
    let r := m s in
    match outcome r with
    | Raise (ExtractorError msg) =>
        let r' := h (ExtractorError msg) (final r) in
        {| final := final r'; trace := trace r ++ trace r'; outcome := outcome r' |}
    | Raise (DownloadError msg) =>
        let r' := h (DownloadError msg) (final r) in
        {| final := final r'; trace := trace r ++ trace r'; outcome := outcome r' |}
    | _ => r
    end.

(** ** class EnhancedProgressHook *)

Record EnhancedProgressHook : Type := {
  last_update_time : float;
  current_video_info : string
}.

(** [__init__]. *)
Definition hook_init : EnhancedProgressHook :=
  {| last_update_time := Z2F 0; current_video_info := "" |}.

Definition set_last_update_time (self : EnhancedProgressHook) (t : float) :=
  {| last_update_time := t; current_video_info := current_video_info self |}.

Definition set_current_video_info (self : EnhancedProgressHook) (s : string) :=
  {| last_update_time := last_update_time self; current_video_info := s |}.

(** The three fields of the status line that [__call__] prepares:
    [speed_str], [percent_str] and [eta_str]. *)
Definition speed_str (speed : value) : result string :=
  if truthy speed
  then (s <- format_size speed ;; Ok (s ++ "/s"))
  else Ok "N/A".

Definition percent_str (downloaded total : value) : result string :=
  if truthy total
  then (q <- py_truediv downloaded total ;;
        Ok (format_5_1f (fmul q (Z2F 100)) ++ "%"))
  else Ok "---.-%".

Definition eta_str (eta_seconds : value) : result string :=
  if truthy eta_seconds
  then (s <- format_duration eta_seconds ;; Ok ("ETA: " ++ s))
  else Ok "".

Section Program.
Context {RT : Runtime}.

Local Open Scope prog_scope.

(** [__call__(self, d)]; [current_time] is what [time.time()] returns. *)
Definition hook_call (current_time : float) (d : dict)
  : prog EnhancedProgressHook unit :=
  let status := dict_get d "status" VNone in
  if eq_str status "downloading" then
    self <~ get ;
    if fltb (fsub current_time (last_update_time self)) fhalf then ret tt
    else
      put (set_last_update_time self current_time) ;;
      let info_dict := dict_get d "info_dict" (VDict []) in
      playlist_index <~ lift (py_get info_dict "playlist_index" VNone) ;
      playlist_count <~ lift (py_get info_dict "playlist_count" VNone) ;
      when (truthy playlist_index && truthy playlist_count)
        (index_text <~ lift (py_str py_repr playlist_index) ;
         count_text <~ lift (py_str py_repr playlist_count) ;
         self <~ get ;
         put (set_current_video_info self
                ("[" ++ index_text ++ "/" ++ count_text ++ "] "))) ;;
      name <~ lift (py_path_name (dict_get d "filename" (VStr "..."))) ;
      let filename := take_chars 40 name in
      let downloaded := dict_get d "downloaded_bytes" (VInt 0) in
      let total := py_or (dict_get d "total_bytes" VNone)
                         (dict_get d "total_bytes_estimate" VNone) in
      let speed := dict_get d "speed" VNone in
      speed_text <~ lift (speed_str speed) ;
      percent_text <~ lift (percent_str downloaded total) ;
      let eta_seconds := dict_get d "eta" (VInt 0) in
      eta_text <~ lift (eta_str eta_seconds) ;
      self <~ get ;
      size_done <~ lift (format_size downloaded) ;
      size_total <~ lift (format_size total) ;
      print_noend
        (carriage_return ++ CYAN C ++ current_video_info self ++ "⬇️  "
           ++ percent_text ++ " | "
           ++ size_done ++ "/" ++ size_total ++ " @ " ++ speed_text ++ " | "
           ++ eta_text ++ " | " ++ filename ++ END_ C)
  else if eq_str status "finished" then
    filepath <~ lift (py_get (dict_get d "info_dict" (VDict [])) "filepath" (VStr "file")) ;
    filename <~ lift (py_path_name filepath) ;
    self <~ get ;
    print (newline ++ GREEN C ++ "✅ " ++ current_video_info self
             ++ "Completed: " ++ filename ++ END_ C)
  else if eq_str status "error" then
    ret tt
  else ret tt.

(** ** check_dependencies

    [ffmpeg_found] is whether running [ffmpeg -version] succeeded. *)
Definition check_dependencies (ffmpeg_found : bool) : prog unit bool :=
  print (BLUE C ++ "🔎 Checking for dependencies..." ++ END_ C) ;;
  (if ffmpeg_found
   then print (GREEN C ++ "   - FFmpeg found (required for audio conversion)." ++ END_ C)
   else print (YELLOW C ++ "   - ⚠️ FFmpeg not found. Audio-only downloads (e.g., MP3) will fail." ++ END_ C)) ;;
  ret ffmpeg_found.

(** ** get_content_info

    [extracted] is what [ydl.extract_info(url, download=False)] does:
    the object it returns or the exception it raises. *)
Definition no_valid_videos : string :=
  "No valid videos found at the URL. The content may be private or deleted.".

(** [not info or ('entries' in info and not info['entries'])]. *)
Definition is_empty_result (info : value) : result bool :=
  if negb (truthy info) then Ok true
  else
    has <- py_contains "entries" info ;;
    if has : bool
    then (entries <- py_getitem info "entries" ;; Ok (negb (truthy entries)))
    else Ok false.

Definition option_truthy (o : option string) : bool :=
  match o with
  | Some s => negb (String.eqb s "")
  | None => false
  end.

Definition get_content_info (url : string) (cookies_from : option string)
    (extracted : result value) : prog unit value :=
  print (BLUE C ++ "🔍 Extracting content information..." ++ END_ C) ;;
  when (option_truthy cookies_from)
    (print (CYAN C ++ "   - Using cookies from "
              ++ match cookies_from with Some s => s | None => "None" end
              ++ "..." ++ END_ C)) ;;
  try_except_extraction
    (emit (ExtractInfo url cookies_from) ;;
     info <~ lift extracted ;
     empty <~ lift (is_empty_result info) ;
     if empty : bool
     then lift (Raise (ExtractorError no_valid_videos))
     else ret info)
    (fun e =>
       print (RED C ++ "❌ Failed to extract info: " ++ exception_text e ++ END_ C) ;;
       emit (LogError ("ExtractorError for URL '" ++ url ++ "': " ++ exception_text e)) ;;
       ret VNone).

(** ** display_content_info

    The number of kept entries is the length of a list, below 2^63 in
    CPython, so its text is always produced. *)
Definition display_content_info (info : dict) : prog unit unit :=
  let content_type := dict_get info "_type" (VStr "video") in
  print (newline ++ WHITE C ++ BOLD C ++ "📊 Content Information:" ++ END_ C) ;;
  if eq_str content_type "playlist" || eq_str content_type "multi_video" then
    let title := dict_get info "title" (VStr "Unknown Playlist") in
    let uploader := dict_get info "uploader" (VStr "Unknown Creator") in
    entries <~ lift (py_iter (dict_get info "entries" (VList []))) ;
    let valid_entries := filter truthy entries in
    print ("   📋 Type:    " ++ CYAN C ++ "Playlist" ++ END_ C) ;;
    title_text <~ lift (py_str py_repr title) ;
    print ("   📋 Title:   " ++ CYAN C ++ title_text ++ END_ C) ;;
    uploader_text <~ lift (py_str py_repr uploader) ;
    print ("   👤 Creator: " ++ GREEN C ++ uploader_text ++ END_ C) ;;
    print ("   🎬 Videos:  " ++ YELLOW C
             ++ dec (Z.of_nat (List.length valid_entries)) ++ END_ C)
  else
    let title := dict_get info "title" (VStr "Unknown Video") in
    let uploader := dict_get info "uploader" (VStr "Unknown Channel") in
    let duration := dict_get info "duration" (VInt 0) in
    print ("   🎬 Type:     " ++ CYAN C ++ "Single Video" ++ END_ C) ;;
    title_text <~ lift (py_str py_repr title) ;
    print ("   📺 Title:    " ++ CYAN C ++ title_text ++ END_ C) ;;
    uploader_text <~ lift (py_str py_repr uploader) ;
    print ("   👤 Channel:  " ++ GREEN C ++ uploader_text ++ END_ C) ;;
    shown <~ lift (format_duration duration) ;
    print ("   ⏱️ Duration: " ++ YELLOW C ++ shown ++ END_ C).

(** ** main

    What the outside world contributes to one session: the parsed
    arguments, whether ffmpeg runs, what the probe does, what the
    interactive menu [select_format] returns, and what the call of
    [download_content] does.  The menu and the download are traced as
    single events. *)
Record Args : Type := {
  url : string;
  output : string;
  max_downloads : option Z;
  cookies_from_browser : option string;
  debug : bool
}.

Record World : Type := {
  ffmpeg_found : bool;
  extracted : result value;
  selected : result (option string);
  downloaded : result unit
}.

Definition sys_exit {A} (code : Z) : prog unit A := lift (Raise (SystemExit code)).

Definition main (args : Args) (w : World) : prog unit unit :=
  print (BOLD C ++ BLUE C ++ "🎥 Welcome to the Enhanced YouTube Downloader" ++ END_ C) ;;
  print (BLUE C ++ repeat_string "=" 50 ++ END_ C) ;;
  has_ffmpeg <~ check_dependencies (ffmpeg_found w) ;
  info <~ get_content_info (url args) (cookies_from_browser args) (extracted w) ;
  when (negb (truthy info)) (sys_exit 1) ;;
  info_dict <~ lift (match info with VDict d => Ok d | _ => Raise AttributeError end) ;
  display_content_info info_dict ;;
  emit (SelectFormat has_ffmpeg) ;;
  format_id <~ lift (selected w) ;
  when (negb (option_truthy format_id))
    (print (YELLOW C ++ "👋 No format selected. Exiting." ++ END_ C) ;; sys_exit 0) ;;
  emit (DownloadContent (url args)
          match format_id with Some f => f | None => "" end) ;;
  lift (downloaded w).

(** The [if __name__ == '__main__'] block: the exit status of the process. *)
Definition script (args : Args) (w : World) : run unit Z :=
  let r := main args w tt in
  match outcome r with
  | Ok _ => {| final := tt; trace := trace r; outcome := Ok 0 |}
  | Raise (SystemExit code) => {| final := tt; trace := trace r; outcome := Ok code |}
  | Raise KeyboardInterrupt =>
      {| final := tt;
         trace := trace r ++ [Print (newline ++ YELLOW C
                     ++ "👋 Download cancelled by user. Goodbye!" ++ END_ C ++ newline)];
         outcome := Ok 0 |}
  | Raise e =>
      {| final := tt;
         trace := trace r
                  ++ [Print (RED C ++ "❌ A fatal, unexpected error occurred: "
                              ++ exception_text e ++ END_ C ++ newline);
                      LogCritical ("Fatal error in main execution: " ++ exception_text e)];
         outcome := Ok 1 |}
  end.

End Program.

(* ================================================================== *)
(** * Further functions of the module, vocabulary of the properties *)
(* ================================================================== *)

(** The index into [units] that [format_size] ends with for a positive
    int; [None] when [float(n)] raises. *)
Definition chosen_unit (n : Z) : option nat :=
  match float_of_int n with
  | Ok x => Some (snd (scale (List.length units) x 0))
  | Raise _ => None
  end.

(** [sub] occurs in [s]. *)
Definition contains (s sub : string) : Prop :=
  exists a b : string, s = a ++ sub ++ b.

(** ** Events the hook handles

    The values each formatter accepts without raising, and the
    [downloading] and [finished] events on which the hook as a whole
    does not raise. *)
Definition is_ok {A : Type} (r : result A) : bool :=
  match r with Ok _ => true | Raise _ => false end.

Definition is_none (v : value) : bool :=
  match v with VNone => true | _ => false end.

Definition is_str (v : value) : bool :=
  match v with VStr _ => true | _ => false end.

(** A number with which [float()] and the true division succeed: a
    bool, a float, or an int of fewer than 1024 bits. *)
Definition is_amount (v : value) : bool :=
  match v with
  | VInt n => Z.abs n <? 2 ^ 1023
  | VBool _ | VFloat _ => true
  | _ => false
  end.

(** What [format_size] renders: everything except an int of 1024 bits
    or more. *)
Definition size_ok (v : value) : bool :=
  match v with
  | VInt n => n <? 2 ^ 1023
  | _ => true
  end.

(** A finite float below 2^1000 in magnitude. *)
Definition moderate (x : float) : bool :=
  match x with
  | S754_zero _ => true
  | S754_finite _ m e => Zpos (digits2_pos m) + e <=? 1000
  | _ => false
  end.

(** [x] is zero, or finite with a magnitude below [2^k]. *)
Definition below (k : Z) (x : float) : Prop :=
  match x with
  | S754_zero _ => True
  | S754_finite _ m e => Zdigits2 (Zpos m) + e <= k
  | _ => False
  end.

(** What [format_duration] renders: everything except an int whose
    hours have more digits than [int_str] converts, and a float that is
    positive and NaN, infinite or beyond 2^1000. *)
Definition duration_ok (v : value) : bool :=
  match v with
  | VInt n => n / 3600 <? str_limit
  | VFloat x => fleb x (Z2F 0) || moderate x
  | _ => true
  end.


(** The item label can be built: the index and the count are not both
    truthy, or both have a text. *)
Definition label_ok {RT : Runtime} (info_dict : value) : bool :=
  match info_dict with
  | VDict i =>
      let index := dict_get i "playlist_index" VNone in
      let count := dict_get i "playlist_count" VNone in
      negb (truthy index && truthy count)
      || is_ok (py_str py_repr index) && is_ok (py_str py_repr count)
  | _ => false
  end.

(** A [downloading] event the hook renders: [info_dict] a dict whose
    label can be built, [filename] a string, the speed and the ETA
    values their formatters render; with a known total, the byte count
    and the total numbers that can be divided, and with an unknown total
    a byte count that [format_size] renders.  Absent fields take the
    defaults of the hook. *)
Definition well_formed_downloading {RT : Runtime} (d : dict) : bool :=
  let downloaded := dict_get d "downloaded_bytes" (VInt 0) in
  let total := py_or (dict_get d "total_bytes" VNone)
                     (dict_get d "total_bytes_estimate" VNone) in
  eq_str (dict_get d "status" VNone) "downloading"
  && label_ok (dict_get d "info_dict" (VDict []))
  && is_str (dict_get d "filename" (VStr "..."))
  && (if truthy total then is_amount downloaded && is_amount total
      else size_ok downloaded)
  && size_ok (dict_get d "speed" VNone)
  && duration_ok (dict_get d "eta" (VInt 0)).


(** ** The state of the hook across one call *)

(** The item label after a [downloading] event that passes the
    throttle: rebuilt from the playlist index and count when both are
    truthy, kept otherwise. *)
Definition next_label {RT : Runtime} (self : EnhancedProgressHook) (i : dict)
  : result string :=
  let index := dict_get i "playlist_index" VNone in
  let count := dict_get i "playlist_count" VNone in
  if truthy index && truthy count
  then (a <- py_str py_repr index ;;
        b <- py_str py_repr count ;;
        Ok ("[" ++ a ++ "/" ++ b ++ "] "))
  else Ok (current_video_info self).


(** The double nearest to [n / 10] seconds. *)
Definition tenths_of_second (n : Z) : float := fdiv (Z2F n) (Z2F 10).

(** A runtime without colorama (the module's own fallback). *)
Definition plain_runtime : Runtime :=
  {| C := DummyColorama;
     py_repr := fun _ => Ok "";
     exception_text := fun e =>
       match e with
       | ExtractorError msg | DownloadError msg | OtherException msg => msg
       | _ => ""
       end |}.

(** ** Printed blocks, entry counts, download events *)


(** The entries of a collection that are not [None]. *)
Definition non_null_count (entries : list value) : nat :=
  List.length (filter (fun e => negb (is_none e)) entries).

(** Events that belong to the download phase of a session. *)
Definition after_probe (e : event) : bool :=
  match e with
  | SelectFormat _ | DownloadContent _ _ => true
  | _ => false
  end.

(** [content_type in ['playlist', 'multi_video']]. *)
Definition is_collection (info : dict) : bool :=
  eq_str (dict_get info "_type" (VStr "video")) "playlist"
  || eq_str (dict_get info "_type" (VStr "video")) "multi_video".

(** ** What the probe prints *)

Definition is_extraction_error (e : exn) : bool :=
  match e with
  | ExtractorError _ | DownloadError _ => true
  | _ => false
  end.

Definition probe_prefix {RT : Runtime} (url : string) (cookies_from : option string)
  : list event :=
  Print ((BLUE C ++ "🔍 Extracting content information..." ++ END_ C) ++ newline)
  :: (if option_truthy cookies_from
      then [Print ((CYAN C ++ "   - Using cookies from "
                      ++ match cookies_from with Some s => s | None => "None" end
                      ++ "..." ++ END_ C) ++ newline)]
      else [])
  ++ [ExtractInfo url cookies_from].

Definition probe_failure_lines {RT : Runtime} (url : string) (e : exn) : list event :=
  [Print ((RED C ++ "❌ Failed to extract info: " ++ exception_text e ++ END_ C) ++ newline);
   LogError ("ExtractorError for URL '" ++ url ++ "': " ++ exception_text e)].

(** The probe fails with [e]: the extraction raises [e], or it returns an
    empty result and [e] is the error the module raises for that. *)
Definition probe_fails_with (extracted : result value) (e : exn) : Prop :=
  is_extraction_error e = true /\
  (extracted = Raise e \/
   exists info, extracted = Ok info /\ is_empty_result info = Ok true /\
                e = ExtractorError no_valid_videos).


(** ** Concrete events and descriptors *)

Definition sample_downloading : dict :=
  [("status", VStr "downloading"); ("downloaded_bytes", VInt 1536);
   ("total_bytes", VInt 4096)].

Definition sample_finished : dict :=
  [("status", VStr "finished");
   ("info_dict", VDict [("filepath", VStr "/tmp/dl/clip.mp4")])].




Definition sample_args : Args :=
  {| url := "https://example.com/v"; output := "./YouTube_Downloads";
     max_downloads := None; cookies_from_browser := None; debug := false |}.

Definition sample_world : World :=
  {| ffmpeg_found := true; extracted := Ok VNone;
     selected := Ok (Some "bestvideo+bestaudio/best"); downloaded := Ok tt |}.

(** ** Further concrete events and descriptors *)

Definition sample_huge_speed : dict :=
  [("status", VStr "downloading"); ("speed", VInt (2 ^ 1024))].

Definition sample_huge_eta : dict :=
  [("status", VStr "downloading"); ("downloaded_bytes", VInt 1536);
   ("total_bytes", VInt 4096); ("eta", VInt (3600 * 10 ^ 4300))].

Definition sample_labelled : EnhancedProgressHook :=
  {| last_update_time := tenths_of_second 17000000000;
     current_video_info := "[2/7] " |}.

Definition sample_long_video : dict :=
  [("title", VStr "T"); ("uploader", VStr "U");
   ("duration", VInt (3600 * 10 ^ 4300))].

Definition sample_empty_entry : dict :=
  [("_type", VStr "playlist"); ("title", VStr "X"); ("uploader", VStr "Y");
   ("entries", VList [VDict []; VNone])].


(** ** Characters of a string *)

Fixpoint has_char (c : ascii) (s : string) : bool :=
  match s with
  | EmptyString => false
  | String c' r => Ascii.eqb c' c || has_char c r
  end.

(** The number of code points of a UTF-8 string: its bytes that are not
    continuation bytes. *)
Fixpoint code_points (s : string) : nat :=
  match s with
  | EmptyString => O
  | String c r => if is_continuation c then code_points r else S (code_points r)
  end.

(** ** A stream of events

    yt-dlp calls the hook once per progress event, in order; [hook_run]
    feeds it the events with the clock reading of each call. *)
Fixpoint hook_run {RT : Runtime} (events : list (float * dict))
  : prog EnhancedProgressHook unit :=
  match events with
  | [] => ret tt
  | (t, d) :: rest => bind (hook_call t d) (fun _ => hook_run rest)
  end.

(** ** What a session prints before the probe *)
Definition session_prefix {RT : Runtime} (w : World) : list event :=
  [Print ((BOLD C ++ BLUE C ++ "🎥 Welcome to the Enhanced YouTube Downloader" ++ END_ C)
            ++ newline);
   Print ((BLUE C ++ repeat_string "=" 50 ++ END_ C) ++ newline);
   Print ((BLUE C ++ "🔎 Checking for dependencies..." ++ END_ C) ++ newline);
   Print ((if ffmpeg_found w
           then GREEN C ++ "   - FFmpeg found (required for audio conversion)." ++ END_ C
           else YELLOW C ++ "   - ⚠️ FFmpeg not found. Audio-only downloads (e.g., MP3) will fail." ++ END_ C)
          ++ newline)].

Definition sample_interrupted : World :=
  {| ffmpeg_found := false; extracted := Raise KeyboardInterrupt;
     selected := Ok None; downloaded := Ok tt |}.

Definition sample_video : dict :=
  [("title", VStr "T"); ("uploader", VStr "U"); ("duration", VInt 125)].

Definition sample_success : World :=
  {| ffmpeg_found := true; extracted := Ok (VDict sample_video);
     selected := Ok (Some "bestvideo+bestaudio/best"); downloaded := Ok tt |}.

(** ** download_content: the directory of a collection

    The title, with every character of the class (less-than,
    greater-than, colon, double quote, slash, backslash, bar, question
    mark, star) replaced by an underscore by [re.sub], cut to its first
    60 code points.  [re.sub] accepts only a string. *)
Definition is_forbidden (c : ascii) : bool :=
  existsb (Ascii.eqb c)
    ["<"%char; ">"%char; ":"%char; ascii_of_nat 34; "/"%char; "\"%char;
     "|"%char; "?"%char; "*"%char].

Fixpoint replace_forbidden (s : string) : string :=
  match s with
  | EmptyString => EmptyString
  | String c r => String (if is_forbidden c then "_"%char else c) (replace_forbidden r)
  end.

Definition playlist_title (info : dict) : result string :=
  match dict_get info "title" (VStr "YouTube Playlist") with
  | VStr t => Ok (take_chars 60 (replace_forbidden t))
  | _ => Raise TypeError
  end.

(** ** select_format

    [str.strip()] removes the code points for which [str.isspace()]
    holds from both ends; in UTF-8 they are ten single bytes and nineteen
    sequences of two or three bytes. *)
Definition is_space1 (c : ascii) : bool :=
  let n := nat_of_ascii c in
  ((9 <=? n) && (n <=? 13) || (28 <=? n) && (n <=? 32))%nat.

Definition is_space2 (c1 c2 : ascii) : bool :=
  let a := nat_of_ascii c1 in
  let b := nat_of_ascii c2 in
  ((a =? 194) && ((b =? 133) || (b =? 160)))%nat.

Definition is_space3 (c1 c2 c3 : ascii) : bool :=
  let a := nat_of_ascii c1 in
  let b := nat_of_ascii c2 in
  let c := nat_of_ascii c3 in
  ((a =? 225) && (b =? 154) && (c =? 128)
   || (a =? 226) && (b =? 128)
      && ((128 <=? c) && (c <=? 138) || (c =? 168) || (c =? 169) || (c =? 175))
   || (a =? 226) && (b =? 129) && (c =? 159)
   || (a =? 227) && (b =? 128) && (c =? 128))%nat.

Fixpoint lstrip (s : string) : string :=
  match s with
  | EmptyString => s
  | String c1 r1 =>
      if is_space1 c1 then lstrip r1
      else
        match r1 with
        | EmptyString => s
        | String c2 r2 =>
            if is_space2 c1 c2 then lstrip r2
            else
              match r2 with
              | EmptyString => s
              | String c3 r3 => if is_space3 c1 c2 c3 then lstrip r3 else s
              end
        end
  end.

Fixpoint rev_string (s acc : string) : string :=
  match s with
  | EmptyString => acc
  | String c r => rev_string r (String c acc)
  end.

(** [lstrip] on the reversed string: the bytes of a sequence come last
    byte first. *)
Fixpoint lstrip_reversed (s : string) : string :=
  match s with
  | EmptyString => s
  | String c1 r1 =>
      if is_space1 c1 then lstrip_reversed r1
      else
        match r1 with
        | EmptyString => s
        | String c2 r2 =>
            if is_space2 c2 c1 then lstrip_reversed r2
            else
              match r2 with
              | EmptyString => s
              | String c3 r3 =>
                  if is_space3 c3 c2 c1 then lstrip_reversed r3 else s
              end
        end
  end.

Definition py_strip (s : string) : string :=
  rev_string (lstrip_reversed (rev_string (lstrip s) "")) "".

(** [choice.lower() in ['q', 'quit']]: the only code points whose
    lowercase consists of letters of these words are the ASCII letters
    themselves, so the test compares the ASCII lowercase. *)
Definition lower_byte (c : ascii) : ascii :=
  let n := nat_of_ascii c in
  if ((65 <=? n) && (n <=? 90))%nat then ascii_of_nat (n + 32) else c.

Fixpoint lower_ascii (s : string) : string :=
  match s with
  | EmptyString => EmptyString
  | String c r => String (lower_byte c) (lower_ascii r)
  end.

Definition is_quit (choice : string) : bool :=
  String.eqb (lower_ascii choice) "q" || String.eqb (lower_ascii choice) "quit".

Record FormatOption : Type := {
  option_key : string;
  option_label : string;
  option_format : string
}.

Definition format_options (has_ffmpeg : bool) : list FormatOption :=
  [ {| option_key := "1";
       option_label := "🏆 Best Available Quality (up to 4K/8K, WEBM/MP4)";
       option_format := "bestvideo+bestaudio/best" |};
    {| option_key := "2";
       option_label := "💎 Full HD (1080p MP4)";
       option_format := "bestvideo[height<=1080][ext=mp4]+bestaudio[ext=m4a]/best[height<=1080]" |};
    {| option_key := "3";
       option_label := "📱 Good Quality (720p MP4)";
       option_format := "bestvideo[height<=720][ext=mp4]+bestaudio[ext=m4a]/best[height<=720]" |} ]
  ++ (if has_ffmpeg
      then [ {| option_key := "4";
                option_label := "🎵 Audio Only (Best Quality MP3)";
                option_format := "bestaudio/best" |} ]
      else []).

Fixpoint find_option (options : list FormatOption) (key : string) : option FormatOption :=
  match options with
  | [] => None
  | o :: rest => if String.eqb (option_key o) key then Some o else find_option rest key
  end.

Fixpoint print_options {RT : Runtime} (options : list FormatOption) : prog unit unit :=
  match options with
  | [] => ret tt
  | o :: rest =>
      bind (print ("   [" ++ option_key o ++ "] " ++ option_label o))
           (fun _ => print_options rest)
  end.

(** The [while True] loop; each turn reads one line of [inputs], the
    lines the user types.  [input] prints its prompt and raises
    [EOFError] when no line is left. *)
Fixpoint choose_format {RT : Runtime} (options : list FormatOption)
    (inputs : list string) : prog unit (option string) :=
  bind (print_noend (newline ++ BOLD C ++ "Choose an option [1-"
                       ++ dec (Z.of_nat (List.length options))
                       ++ "] or 'q' to quit: " ++ END_ C))
    (fun _ =>
       match inputs with
       | [] => lift (Raise EOFError)
       | line :: rest =>
           let choice := py_strip line in
           if is_quit choice then ret None
           else
             match find_option options choice with
             | Some o =>
                 bind (print (GREEN C ++ "✅ Selected: " ++ option_label o ++ END_ C))
                      (fun _ => ret (Some (option_format o)))
             | None =>
                 bind (print (RED C ++ "❌ Invalid choice. Please try again." ++ END_ C))
                      (fun _ => choose_format options rest)
             end
       end).

Definition select_format {RT : Runtime} (has_ffmpeg : bool) (inputs : list string)
  : prog unit (option string) :=
  bind (print (newline ++ WHITE C ++ BOLD C ++ "⚙️ Select Download Quality:" ++ END_ C))
    (fun _ =>
       bind (print_options (format_options has_ffmpeg))
         (fun _ => choose_format (format_options has_ffmpeg) inputs)).



(* ================================================================== *)
(** * Facts about binary64 rounding *)
(* ================================================================== *)

(** ** Number of bits of a mantissa *)

Lemma digits2_pos_size (p : positive) : digits2_pos p = Pos.size p.
Proof. induction p; simpl; congruence. Qed.

Lemma digits2_pos_log2 (p : positive) : Zpos (digits2_pos p) = Z.log2 (Zpos p) + 1.
Proof.
  rewrite digits2_pos_size.
  destruct p; simpl; lia.
Qed.

Lemma Zdigits2_log2 (m : Z) : 0 < m -> Zdigits2 m = Z.log2 m + 1.
Proof.
  destruct m; try lia. intros _. simpl. apply digits2_pos_log2.
Qed.

Lemma Zdigits2_bounds (m : Z) :
  0 < m -> 2 ^ (Zdigits2 m - 1) <= m < 2 ^ Zdigits2 m.
Proof.
  intros H. rewrite Zdigits2_log2 by assumption.
  replace (Z.log2 m + 1 - 1) with (Z.log2 m) by lia.
  apply (Z.log2_spec m H).
Qed.

Lemma Zdigits2_unique (m k : Z) :
  2 ^ (k - 1) <= m < 2 ^ k -> 0 < k -> Zdigits2 m = k.
Proof.
  intros H Hk.
  assert (0 < m) by (pose proof (Z.pow_pos_nonneg 2 (k - 1)); lia).
  rewrite Zdigits2_log2 by assumption.
  rewrite (Z.log2_unique m (k - 1)); try lia.
  replace (Z.succ (k - 1)) with k by lia. assumption.
Qed.

Lemma Zdigits2_nonneg (m : Z) : 0 <= Zdigits2 m.
Proof. destruct m; simpl; lia. Qed.

Lemma shr_m_shr_1 (mrs : shr_record) :
  0 <= shr_m mrs -> shr_m (shr_1 mrs) = shr_m mrs / 2.
Proof.
  destruct mrs as [m r s]. simpl. intros H.
  destruct m as [|p|p]; try lia; [reflexivity|].
  destruct p; simpl.
  - rewrite Pos2Z.inj_xI. apply Z.div_unique with (r := 1); lia.
  - rewrite Pos2Z.inj_xO. apply Z.div_unique with (r := 0); lia.
  - reflexivity.
Qed.

Lemma pow2_xO (k : positive) : 2 ^ Zpos k~0 = 2 ^ Zpos k * 2 ^ Zpos k.
Proof. rewrite <- Z.pow_add_r by lia. f_equal. lia. Qed.

Lemma pow2_xI (k : positive) : 2 ^ Zpos k~1 = 2 * (2 ^ Zpos k * 2 ^ Zpos k).
Proof.
  rewrite <- Z.pow_add_r by lia.
  replace (Zpos k~1) with (1 + (Zpos k + Zpos k)) by lia.
  rewrite Z.pow_add_r by lia. reflexivity.
Qed.

Lemma shr_m_iter_pos (k : positive) : forall mrs,
  0 <= shr_m mrs ->
  shr_m (iter_pos shr_1 k mrs) = shr_m mrs / 2 ^ Zpos k.
Proof.
  induction k as [k IH|k IH|]; intros mrs H; simpl iter_pos.
  - assert (H1 : 0 <= shr_m (shr_1 mrs)).
    { rewrite shr_m_shr_1 by assumption. apply Z.div_pos; lia. }
    assert (H2 : 0 <= shr_m (iter_pos shr_1 k (shr_1 mrs))).
    { rewrite IH by assumption. apply Z.div_pos; [assumption|]. apply Z.pow_pos_nonneg; lia. }
    rewrite IH by assumption. rewrite IH by assumption.
    rewrite shr_m_shr_1 by assumption.
    rewrite !Z.div_div by (try apply Z.pow_pos_nonneg; lia).
    f_equal. symmetry. apply pow2_xI.
  - assert (H2 : 0 <= shr_m (iter_pos shr_1 k mrs)).
    { rewrite IH by assumption. apply Z.div_pos; [assumption|]. apply Z.pow_pos_nonneg; lia. }
    rewrite IH by assumption. rewrite IH by assumption.
    rewrite !Z.div_div by (try apply Z.pow_pos_nonneg; lia).
    f_equal. symmetry. apply pow2_xO.
  - rewrite shr_m_shr_1 by assumption. reflexivity.
Qed.

Lemma shr_m_of_loc (m : Z) (l : location) : shr_m (shr_record_of_loc m l) = m.
Proof. destruct l as [|[]]; reflexivity. Qed.

Lemma shr_fexp_spec (prec emax m e : Z) (l : location) :
  0 <= m ->
  let n := Z.max 0 (fexp prec emax (Zdigits2 m + e) - e) in
  shr_m (fst (shr_fexp prec emax m e l)) = m / 2 ^ n /\
  snd (shr_fexp prec emax m e l) = e + n.
Proof.
  intros H n. unfold shr_fexp, shr. subst n.
  destruct (fexp prec emax (Zdigits2 m + e) - e) as [|p|p] eqn:E; simpl fst; simpl snd.
  - rewrite shr_m_of_loc. simpl. rewrite Z.div_1_r. lia.
  - rewrite shr_m_iter_pos by (rewrite shr_m_of_loc; assumption).
    rewrite shr_m_of_loc. rewrite Z.max_r by lia. split; reflexivity.
  - rewrite shr_m_of_loc. rewrite Z.max_l by lia. simpl. rewrite Z.div_1_r. lia.
Qed.

Lemma round_nearest_even_bounds (m : Z) (l : location) :
  m <= round_nearest_even m l <= m + 1.
Proof.
  unfold round_nearest_even. destruct l as [|[]]; try lia.
  destruct (Z.even m); lia.
Qed.

(** ** Rounding to the binary64 format *)

Lemma fexp_eq (e : Z) : fexp prec emax e = Z.max (e - 53) (-1074).
Proof. reflexivity. Qed.

Lemma Zdigits2_le (m k : Z) : 0 < m -> m < 2 ^ k -> 0 <= k -> Zdigits2 m <= k.
Proof.
  intros Hm H Hk.
  destruct (Z_le_gt_dec (Zdigits2 m) k) as [|Hgt]; [assumption|exfalso].
  pose proof (Zdigits2_bounds m Hm) as [Hlo _].
  assert (2 ^ k <= 2 ^ (Zdigits2 m - 1)) by (apply Z.pow_le_mono_r; lia).
  lia.
Qed.

Lemma Zdigits2_ge (m k : Z) : 2 ^ (k - 1) <= m -> 0 < k -> k <= Zdigits2 m.
Proof.
  intros H Hk.
  assert (Hm : 0 < m) by (pose proof (Z.pow_pos_nonneg 2 (k - 1)); lia).
  destruct (Z_le_gt_dec k (Zdigits2 m)) as [|Hgt]; [assumption|exfalso].
  pose proof (Zdigits2_bounds m Hm) as [_ Hhi].
  assert (2 ^ Zdigits2 m <= 2 ^ (k - 1)) by (apply Z.pow_le_mono_r; lia).
  lia.
Qed.

Lemma div_pow2_lt (m a b : Z) :
  0 <= a -> 0 <= b -> 0 <= m -> m < 2 ^ (a + b) -> m / 2 ^ a < 2 ^ b.
Proof.
  intros Ha Hb Hm H. apply Z.div_lt_upper_bound.
  - apply Z.pow_pos_nonneg; lia.
  - rewrite <- Z.pow_add_r by lia. assumption.
Qed.

Lemma div_pow2_ge (m a b : Z) :
  0 <= a -> 0 <= b -> 2 ^ (a + b) <= m -> 2 ^ b <= m / 2 ^ a.
Proof.
  intros Ha Hb H. apply Z.div_le_lower_bound.
  - apply Z.pow_pos_nonneg; lia.
  - rewrite <- Z.pow_add_r by lia. assumption.
Qed.

Lemma binary_round_aux_spec (s : bool) (mx ex : Z) (lx : location) :
  0 < mx ->
  ex <= Z.max (Zdigits2 mx + ex - 53) (-1074) ->
  match binary_round_aux prec emax s mx ex lx with
  | S754_zero s' => s' = s /\ Zdigits2 mx + ex <= -1074
  | S754_infinity s' => s' = s /\ 1024 <= Zdigits2 mx + ex
  | S754_finite s' m e =>
      s' = s /\ Z.max (Zdigits2 mx + ex - 53) (-1074) <= e <= 971 /\
      Zpos (digits2_pos m) <= 53 /\
      (-1074 <= Zdigits2 mx + ex - 53 -> Zpos (digits2_pos m) = 53) /\
      e <= Z.max (Zdigits2 mx + ex - 53) (-1074) + 1
  | S754_nan => False
  end.
Proof.
  intros Hmx Hex.
  set (d := Zdigits2 mx) in *. set (f := Z.max (d + ex - 53) (-1074)) in *.
  assert (Hd : 0 < d) by (pose proof (Zdigits2_bounds mx Hmx); unfold d;
                           destruct mx; simpl in *; lia).
  pose proof (Zdigits2_bounds mx Hmx) as [Hlo Hhi]. fold d in Hlo, Hhi.
  unfold binary_round_aux.
  pose proof (shr_fexp_spec prec emax mx ex lx (Z.lt_le_incl _ _ Hmx)) as [Hm' He'].
  destruct (shr_fexp prec emax mx ex lx) as [mrs' e']. simpl in Hm', He'.
  rewrite fexp_eq in Hm', He'. fold d in Hm', He'. fold f in Hm', He'.
  rewrite Z.max_r in Hm', He' by lia.
  replace (ex + (f - ex)) with f in He' by lia. subst e'.
  set (m' := shr_m mrs') in *.
  assert (Hm'lt : 0 <= m' < 2 ^ 53).
  { rewrite Hm'. split.
    - apply Z.div_pos; [lia|]. apply Z.pow_pos_nonneg; lia.
    - apply div_pow2_lt; try lia.
      assert (2 ^ d <= 2 ^ (f - ex + 53)) by (apply Z.pow_le_mono_r; lia). lia. }
  pose proof (round_nearest_even_bounds m' (loc_of_shr_record mrs')) as Hm1.
  set (m1 := round_nearest_even m' (loc_of_shr_record mrs')) in *.
  assert (Hm1nn : 0 <= m1) by lia.
  pose proof (shr_fexp_spec prec emax m1 f loc_Exact Hm1nn) as [Hm'' He''].
  destruct (shr_fexp prec emax m1 f loc_Exact) as [mrs'' e'']. simpl in Hm'', He''.
  rewrite fexp_eq in Hm'', He''.
  assert (Hnormal : -1074 <= d + ex - 53 -> 2 ^ 52 <= m').
  { intros Hn. rewrite Hm'. apply div_pow2_ge; try lia.
    assert (f = d + ex - 53) by lia.
    replace (f - ex + 52) with (d - 1) by lia. assumption. }
  destruct (Z.eq_dec m1 0) as [Hz|Hnz].
  - (* rounds to zero *)
    rewrite Hz in Hm''. rewrite Z.div_0_l in Hm''
      by (apply Z.pow_nonzero; [lia|apply Z.le_max_l]).
    rewrite Hm''. split; [reflexivity|].
    assert (Hm'0 : m' = 0) by lia.
    destruct (Z_le_gt_dec (d + ex) (-1074)) as [|Hgt]; [assumption|exfalso].
    assert (2 ^ 0 <= mx / 2 ^ (f - ex)).
    { apply div_pow2_ge; try lia.
      assert (2 ^ (f - ex + 0) <= 2 ^ (d - 1)) by (apply Z.pow_le_mono_r; lia). lia. }
    change (2 ^ 0) with 1 in *. lia.
  - destruct (Z_lt_ge_dec m1 (2 ^ 53)) as [Hlt|Hge].
    + (* no carry *)
      assert (Hd1 : Zdigits2 m1 <= 53) by (apply Zdigits2_le; lia).
      pose proof (Zdigits2_nonneg m1).
      rewrite Z.max_l in Hm'', He'' by lia.
      change (2 ^ 0) with 1 in Hm''. rewrite Z.div_1_r in Hm''.
      replace (f + 0) with f in He'' by lia. subst e''.
      rewrite Hm''. destruct m1 as [|p|p] eqn:Ep; try lia.
      destruct (f <=? emax - prec) eqn:Ef; unfold emax, prec in Ef.
      * apply Z.leb_le in Ef. repeat split; try lia.
        -- exact Hd1.
        -- intros Hn. specialize (Hnormal Hn).
           change (Zpos (digits2_pos p)) with (Zdigits2 (Zpos p)).
           apply Zdigits2_unique; lia.
      * apply Z.leb_gt in Ef. split; [reflexivity|]. lia.
    + (* carry into the next binade *)
      assert (Hm1e : m1 = 2 ^ 53) by lia.
      assert (Hd1 : Zdigits2 m1 = 54).
      { rewrite Hm1e. reflexivity. }
      rewrite Hd1 in Hm'', He''.
      replace (Z.max 0 (Z.max (54 + f - 53) (-1074) - f)) with 1 in Hm'', He'' by lia.
      rewrite Hm1e in Hm''. change (2 ^ 53 / 2 ^ 1) with (2 ^ 52) in Hm''.
      subst e''. rewrite Hm''. simpl.
      assert (Hbig : 2 ^ 52 <= m') by lia.
      assert (Hdd : 53 + (f - ex) <= d).
      { destruct (Z_le_gt_dec (53 + (f - ex)) d) as [|Hgt]; [assumption|exfalso].
        assert (mx / 2 ^ (f - ex) < 2 ^ 52).
        { apply div_pow2_lt; try lia.
          assert (2 ^ d <= 2 ^ (f - ex + 52)) by (apply Z.pow_le_mono_r; lia). lia. }
        lia. }
      destruct (f + 1 <=? 971) eqn:Ef.
      * apply Z.leb_le in Ef. repeat split; try lia.
        vm_compute; congruence.
      * apply Z.leb_gt in Ef. split; [reflexivity|]. lia.
Qed.

Lemma iter_xO (k : positive) : forall p, Zpos (Pos.iter xO p k) = Zpos p * 2 ^ Zpos k.
Proof.
  induction k as [|k IH] using Pos.peano_ind; intros p.
  - simpl. lia.
  - rewrite Pos.iter_succ. rewrite Pos2Z.inj_xO, IH.
    rewrite Pos2Z.inj_succ. rewrite Z.pow_succ_r by lia. lia.
Qed.

Lemma Zdigits2_mul_pow2 (m k : Z) :
  0 < m -> 0 <= k -> Zdigits2 (m * 2 ^ k) = Zdigits2 m + k.
Proof.
  intros Hm Hk. pose proof (Zdigits2_bounds m Hm) as [Hlo Hhi].
  assert (0 < Zdigits2 m) by (destruct m; simpl; lia).
  assert (0 < 2 ^ k) by (apply Z.pow_pos_nonneg; lia).
  apply Zdigits2_unique; [|lia].
  replace (Zdigits2 m + k - 1) with (Zdigits2 m - 1 + k) by lia.
  rewrite !Z.pow_add_r by lia. nia.
Qed.

(** Rounding a positive integer mantissa [p * 2^e]. *)
Lemma binary_round_spec (s : bool) (p : positive) (e : Z) :
  match binary_round prec emax s p e with
  | S754_zero s' => s' = s /\ Zdigits2 (Zpos p) + e <= -1074
  | S754_infinity s' => s' = s /\ 1024 <= Zdigits2 (Zpos p) + e
  | S754_finite s' m e' =>
      s' = s /\ Z.max (Zdigits2 (Zpos p) + e - 53) (-1074) <= e' <= 971 /\
      Zpos (digits2_pos m) <= 53 /\
      (-1074 <= Zdigits2 (Zpos p) + e - 53 -> Zpos (digits2_pos m) = 53) /\
      e' <= Z.max (Zdigits2 (Zpos p) + e - 53) (-1074) + 1
  | S754_nan => False
  end.
Proof.
  unfold binary_round, shl_align. rewrite fexp_eq.
  change (Zpos (digits2_pos p)) with (Zdigits2 (Zpos p)).
  set (d := Zdigits2 (Zpos p)).
  destruct (Z.max (d + e - 53) (-1074) - e) as [|k|k] eqn:E.
  - pose proof (binary_round_aux_spec s (Zpos p) e loc_Exact) as H.
    fold d in H. apply H; lia.
  - pose proof (binary_round_aux_spec s (Zpos p) e loc_Exact) as H.
    fold d in H. apply H; lia.
  - pose proof (binary_round_aux_spec s (Zpos (Pos.iter xO p k))
                  (Z.max (d + e - 53) (-1074)) loc_Exact) as H.
    rewrite iter_xO in H. rewrite Zdigits2_mul_pow2 in H by lia. fold d in H.
    assert (Hk : Zpos k = e - Z.max (d + e - 53) (-1074)) by lia.
    rewrite Hk in H.
    replace (d + (e - Z.max (d + e - 53) (-1074)) + Z.max (d + e - 53) (-1074))
      with (d + e) in H by lia.
    rewrite <- Hk in H. rewrite <- iter_xO in H.
    apply H; lia.
Qed.

(** ** Exact conversions, comparison with 1024 and division by 1024 *)

Lemma binary_round_aux_exact (s : bool) (m : positive) (e : Z) :
  Zpos (digits2_pos m) = 53 -> -1074 <= e <= 971 ->
  binary_round_aux prec emax s (Zpos m) e loc_Exact = S754_finite s m e.
Proof.
  intros Hd He.
  unfold binary_round_aux, shr_fexp, shr. rewrite fexp_eq.
  cbn [Zdigits2]. rewrite Hd.
  replace (Z.max (53 + e - 53) (-1074) - e) with 0 by lia.
  cbn [shr_record_of_loc shr_m loc_of_shr_record round_nearest_even Zdigits2].
  rewrite fexp_eq, Hd.
  replace (Z.max (53 + e - 53) (-1074) - e) with 0 by lia.
  cbn [shr_record_of_loc shr_m].
  replace (e <=? emax - prec) with true; [reflexivity|].
  symmetry. apply Z.leb_le. unfold emax, prec. lia.
Qed.

Lemma Z2F_exact (n : Z) :
  0 < n < 2 ^ 53 ->
  exists m : positive,
    Z2F n = S754_finite false m (Zdigits2 n - 53) /\
    Zpos (digits2_pos m) = 53 /\
    Zpos m = n * 2 ^ (53 - Zdigits2 n).
Proof.
  intros [Hpos Hlt]. destruct n as [|p|p]; try lia.
  assert (Hd : Zdigits2 (Zpos p) <= 53) by (apply Zdigits2_le; lia).
  assert (Hd0 : 0 < Zdigits2 (Zpos p)) by (simpl; lia).
  unfold Z2F, binary_normalize, binary_round, shl_align. rewrite fexp_eq.
  change (Zpos (digits2_pos p)) with (Zdigits2 (Zpos p)).
  set (d := Zdigits2 (Zpos p)) in *.
  destruct (Z.max (d + 0 - 53) (-1074) - 0) as [|k|k] eqn:E; try lia.
  - assert (d = 53) by lia. exists p. rewrite binary_round_aux_exact; try lia.
    + repeat split; try (f_equal; lia).
      * exact H.
      * replace (53 - d) with 0 by lia. simpl. lia.
    + exact H.
  - assert (Hk : Zpos k = 53 - d) by lia.
    assert (Hdig : Zpos (digits2_pos (Pos.iter xO p k)) = 53).
    { change (Zdigits2 (Zpos (Pos.iter xO p k)) = 53).
      rewrite iter_xO, Zdigits2_mul_pow2 by lia. fold d. lia. }
    exists (Pos.iter xO p k). rewrite binary_round_aux_exact; try lia; try assumption.
    repeat split; try (f_equal; lia).
    rewrite iter_xO, Hk. reflexivity.
Qed.

Lemma Z2F_large (n : Z) :
  2 ^ 53 <= n ->
  Z2F n = S754_infinity false \/
  exists (m : positive) (e : Z),
    Z2F n = S754_finite false m e /\ Zpos (digits2_pos m) = 53 /\ 1 <= e <= 971.
Proof.
  intros H. destruct n as [|p|p]; try (pose proof (Z.pow_pos_nonneg 2 53); lia).
  assert (Hd : 54 <= Zdigits2 (Zpos p)) by (apply Zdigits2_ge; [exact H|lia]).
  unfold Z2F, binary_normalize.
  pose proof (binary_round_spec false p 0) as Hs.
  destruct (binary_round prec emax false p 0) as [s|s| |s m e].
  - lia.
  - left. f_equal. tauto.
  - contradiction.
  - right. exists m, e. destruct Hs as (-> & He & _ & Hm & _). repeat split; lia.
Qed.

Lemma Z2F_1024 : Z2F 1024 = S754_finite false 4503599627370496 (-42).
Proof. vm_compute. reflexivity. Qed.

Lemma pow2_52 : 2 ^ 52 = 4503599627370496.
Proof. vm_compute. reflexivity. Qed.

Lemma pow2_53 : 2 ^ 53 = 2 * 4503599627370496.
Proof. vm_compute. reflexivity. Qed.

Lemma fleb_1024 (m : positive) (e : Z) :
  Zpos (digits2_pos m) = 53 ->
  fleb (Z2F 1024) (S754_finite false m e) = (-42 <=? e).
Proof.
  intros Hd. rewrite Z2F_1024. unfold fleb, SFleb, SFcompare.
  destruct (Z.compare_spec (-42) e) as [E|E|E].
  - subst e. change (Pos.compare_cont Eq 4503599627370496 m)
      with (Pos.compare 4503599627370496 m).
    pose proof (Zdigits2_bounds (Zpos m) eq_refl) as [Hlo _].
    cbn [Zdigits2] in Hlo. rewrite Hd in Hlo.
    replace (53 - 1) with 52 in Hlo by reflexivity. rewrite pow2_52 in Hlo.
    destruct (Pos.compare_spec 4503599627370496 m) as [E|E|E]; try reflexivity.
    exfalso. apply Pos2Z.pos_lt_pos in E.
    apply (Z.lt_irrefl (Zpos m)). eapply Z.lt_le_trans; eassumption.
  - symmetry. apply Z.leb_le. apply Z.lt_le_incl. exact E.
  - symmetry. apply Z.leb_gt. exact E.
Qed.

Lemma div_eucl_eq (a b : Z) : Z.div_eucl a b = (a / b, a mod b).
Proof. unfold Z.div, Z.modulo. destruct (Z.div_eucl a b); reflexivity. Qed.

Lemma fdiv_1024 (m : positive) (e : Z) :
  Zpos (digits2_pos m) = 53 -> -1000 <= e <= 971 ->
  fdiv (S754_finite false m e) (Z2F 1024) = S754_finite false m (e - 10).
Proof.
  intros Hd He. rewrite Z2F_1024. unfold fdiv, SFdiv, SFdiv_core_binary.
  cbn [Zdigits2]. rewrite Hd. rewrite fexp_eq.
  change (Zpos (digits2_pos 4503599627370496)) with 53.
  replace (Z.min (Z.max (53 + e - (53 + -42) - 53) (-1074)) (e - -42))
    with (e - 11) by lia.
  replace (e - -42 - (e - 11)) with 53 by lia.
  rewrite div_eucl_eq.
  assert (Hq : Z.shiftl (Zpos m) 53 / 4503599627370496 = Zpos m~0).
  { rewrite Z.shiftl_mul_pow2 by lia. symmetry.
    apply Z.div_unique with (r := 0); [lia|].
    rewrite pow2_53. lia. }
  assert (Hr : Z.shiftl (Zpos m) 53 mod 4503599627370496 = 0).
  { rewrite Z.shiftl_mul_pow2 by lia. symmetry.
    apply Z.mod_unique with (q := Zpos m~0); [lia|].
    rewrite pow2_53. lia. }
  rewrite Hq, Hr. cbn [xorb].
  change (new_location 4503599627370496 0) with loc_Exact.
  unfold binary_round_aux, shr_fexp, shr. rewrite fexp_eq.
  cbn [Zdigits2 digits2_pos]. rewrite Pos2Z.inj_succ, Hd.
  replace (Z.max (Z.succ 53 + (e - 11) - 53) (-1074) - (e - 11)) with 1 by lia.
  cbn [iter_pos shr_record_of_loc shr_1 orb shr_m loc_of_shr_record
       round_nearest_even Zdigits2].
  rewrite fexp_eq, Hd.
  replace (e - 11 + 1) with (e - 10) by lia.
  replace (Z.max (53 + (e - 10) - 53) (-1074) - (e - 10)) with 0 by lia.
  cbn [shr_record_of_loc shr_m].
  replace (e - 10 <=? emax - prec) with true; [reflexivity|].
  symmetry. apply Z.leb_le. unfold emax, prec. lia.
Qed.

(** ** Floats of bounded magnitude

    None of the operations below leaves the finite floats as long as
    the magnitudes stay under 2^1022: the bound grows by at most two
    binary digits per operation. *)

Lemma below_weaken (k k' : Z) (x : float) : k <= k' -> below k x -> below k' x.
Proof. destruct x; cbn [below]; auto. intros; lia. Qed.

Lemma binary_round_aux_zero (s : bool) (ex : Z) (lx : location) :
  ex <= -1074 -> below 0 (binary_round_aux prec emax s 0 ex lx).
Proof.
  intros Hex. unfold binary_round_aux.
  pose proof (shr_fexp_spec prec emax 0 ex lx (Z.le_refl 0)) as [Hm' He'].
  destruct (shr_fexp prec emax 0 ex lx) as [mrs' e']. cbn [fst snd] in Hm', He'.
  rewrite fexp_eq in He'. cbn [Zdigits2] in He'.
  rewrite Z.div_0_l in Hm' by (apply Z.pow_nonzero; [lia|apply Z.le_max_l]).
  replace (ex + Z.max 0 (Z.max (0 + ex - 53) (-1074) - ex)) with (-1074) in He' by lia.
  subst e'. rewrite Hm'.
  pose proof (round_nearest_even_bounds 0 (loc_of_shr_record mrs')) as Hm1.
  set (m1 := round_nearest_even 0 (loc_of_shr_record mrs')) in *.
  assert (Hc : m1 = 0 \/ m1 = 1) by lia.
  destruct Hc as [-> | ->]; cbn; lia.
Qed.

Lemma binary_round_below (s : bool) (p : positive) (e k : Z) :
  Zdigits2 (Zpos p) + e <= k -> 0 <= k <= 1023 ->
  below (k + 1) (binary_round prec emax s p e).
Proof.
  intros Hd Hk. pose proof (binary_round_spec s p e) as Hs.
  destruct (binary_round prec emax s p e) as [s'|s'| |s' m e']; cbn [below].
  - exact I.
  - lia.
  - exact Hs.
  - destruct Hs as (_ & _ & Hm & _ & He).
    change (Zdigits2 (Zpos m)) with (Zpos (digits2_pos m)). lia.
Qed.

Lemma binary_normalize_below (m e k : Z) (s0 : bool) :
  Zdigits2 (Z.abs m) + e <= k -> 0 <= k <= 1023 ->
  below (k + 1) (binary_normalize prec emax m e s0).
Proof.
  intros Hd Hk. unfold binary_normalize.
  destruct m as [|p|p]; [exact I| |]; apply binary_round_below; assumption.
Qed.

Lemma shl_align_fst (m : positive) (e e' : Z) :
  e' <= e -> Zpos (fst (shl_align m e e')) = Zpos m * 2 ^ (e - e').
Proof.
  intros H. unfold shl_align.
  destruct (e' - e) as [|d|d] eqn:E; cbn [fst].
  - replace (e - e') with 0 by lia. simpl. lia.
  - lia.
  - rewrite iter_xO. f_equal. f_equal. lia.
Qed.

Lemma Zdigits2_abs_le (m k : Z) : 0 <= k -> Z.abs m < 2 ^ k -> Zdigits2 (Z.abs m) <= k.
Proof.
  intros Hk H. destruct (Z.eq_dec m 0) as [->|Hm]; [simpl; lia|].
  apply Zdigits2_le; lia.
Qed.

Lemma pos_lt_pow2_digits (m : positive) : Zpos m < 2 ^ Zdigits2 (Zpos m).
Proof. apply (Zdigits2_bounds (Zpos m)). reflexivity. Qed.

Lemma digits_pos (m : positive) : 0 < Zdigits2 (Zpos m).
Proof. simpl. lia. Qed.

(** The aligned mantissa of a float below [2^k]. *)
Lemma aligned_lt (m : positive) (e ez k : Z) :
  Zdigits2 (Zpos m) + e <= k -> ez <= e -> 
  Zpos m * 2 ^ (e - ez) < 2 ^ (k - ez).
Proof.
  intros Hd Hz. pose proof (pos_lt_pow2_digits m) as Hm.
  pose proof (digits_pos m) as Hp.
  assert (H1 : Zpos m * 2 ^ (e - ez) < 2 ^ Zdigits2 (Zpos m) * 2 ^ (e - ez)).
  { apply Z.mul_lt_mono_pos_r; [apply Z.pow_pos_nonneg; lia|exact Hm]. }
  rewrite <- Z.pow_add_r in H1 by lia.
  assert (H2 : 2 ^ (Zdigits2 (Zpos m) + (e - ez)) <= 2 ^ (k - ez))
    by (apply Z.pow_le_mono_r; lia).
  lia.
Qed.

Lemma sum_below (sx sy : bool) (mx my : positive) (ex ey k : Z) (sub : bool) :
  Zdigits2 (Zpos mx) + ex <= k -> Zdigits2 (Zpos my) + ey <= k -> 0 <= k <= 1022 ->
  let ez := Z.min ex ey in
  let a := cond_Zopp sx (Zpos (fst (shl_align mx ex ez))) in
  let b := cond_Zopp sy (Zpos (fst (shl_align my ey ez))) in
  below (k + 2) (binary_normalize prec emax (if sub then a - b else a + b) ez false).
Proof.
  intros Hx Hy Hk ez a b.
  replace (k + 2) with (k + 1 + 1) by lia.
  apply binary_normalize_below; [|lia].
  assert (Hzx : ez <= ex) by (unfold ez; lia).
  assert (Hzy : ez <= ey) by (unfold ez; lia).
  pose proof (aligned_lt mx ex ez k Hx Hzx) as Ha.
  pose proof (aligned_lt my ey ez k Hy Hzy) as Hb.
  rewrite <- shl_align_fst in Ha, Hb by assumption.
  assert (Hkz : 0 <= k + 1 - ez).
  { pose proof (digits_pos mx). lia. }
  assert (Hab : Z.abs (if sub then a - b else a + b) < 2 ^ (k + 1 - ez)).
  { replace (k + 1 - ez) with (1 + (k - ez)) by lia.
    pose proof (digits_pos mx).
    rewrite Z.pow_add_r by lia. change (2 ^ 1) with 2.
    unfold a, b, cond_Zopp. destruct sub, sx, sy; lia. }
  pose proof (Zdigits2_abs_le _ _ Hkz Hab). lia.
Qed.

Lemma fadd_below (k : Z) (x y : float) :
  0 <= k <= 1022 -> below k x -> below k y -> below (k + 2) (fadd x y).
Proof.
  intros Hk Hx Hy. unfold fadd, SFadd.
  destruct x as [sx|sx| |sx mx ex], y as [sy|sy| |sy my ey]; cbn [below] in *;
    try contradiction; try exact I; try lia.
  - destruct sx, sy; exact I.
  - exact (sum_below sx sy mx my ex ey k false Hx Hy Hk).
Qed.

Lemma fsub_below (k : Z) (x y : float) :
  0 <= k <= 1022 -> below k x -> below k y -> below (k + 2) (fsub x y).
Proof.
  intros Hk Hx Hy. unfold fsub, SFsub.
  destruct x as [sx|sx| |sx mx ex], y as [sy|sy| |sy my ey]; cbn [below] in *;
    try contradiction; try exact I; try lia.
  - destruct sx, sy; exact I.
  - exact (sum_below sx sy mx my ex ey k true Hx Hy Hk).
Qed.

Lemma div_core_mantissa (m s : Z) :
  0 <= s ->
  match s with
  | Zpos _ => Z.shiftl m s
  | Z0 => m
  | Zneg _ => 0
  end = m * 2 ^ s.
Proof.
  intros Hs. destruct s as [|p|p]; [simpl; lia| |lia].
  apply Z.shiftl_mul_pow2. lia.
Qed.

(** Dividing by a float that is at least 1 does not increase the bound. *)
Lemma fdiv_below (k : Z) (x : float) (sy : bool) (my : positive) (ey : Z) :
  0 <= k <= 1022 -> below k x -> 1 <= Zdigits2 (Zpos my) + ey ->
  below (k + 1) (fdiv x (S754_finite sy my ey)).
Proof.
  intros Hk Hx Hy. unfold fdiv, SFdiv.
  destruct x as [sx|sx| |sx mx ex]; cbn [below] in *; try contradiction; try exact I.
  unfold SFdiv_core_binary. rewrite fexp_eq.
  set (d1 := Zdigits2 (Zpos mx)) in *. set (d2 := Zdigits2 (Zpos my)) in *.
  set (e' := Z.min (Z.max (d1 + ex - (d2 + ey) - 53) (-1074)) (ex - ey)).
  assert (Hs : 0 <= ex - ey - e') by (unfold e'; lia).
  rewrite (div_core_mantissa (Zpos mx) (ex - ey - e') Hs).
  set (s := ex - ey - e') in *. rewrite div_eucl_eq.
  set (m' := Zpos mx * 2 ^ s).
  pose proof (Zdigits2_bounds (Zpos mx) eq_refl) as [Hxlo Hxhi]. fold d1 in Hxlo, Hxhi.
  pose proof (Zdigits2_bounds (Zpos my) eq_refl) as [Hylo Hyhi]. fold d2 in Hylo, Hyhi.
  assert (Hd1 : 0 < d1) by apply digits_pos.
  assert (Hd2 : 0 < d2) by apply digits_pos.
  assert (Hps : 0 < 2 ^ s) by (apply Z.pow_pos_nonneg; lia).
  assert (Hm'lo : 2 ^ (d1 - 1 + s) <= m').
  { rewrite Z.pow_add_r by lia. unfold m'. nia. }
  assert (Hm'hi : m' < 2 ^ (d1 + s)).
  { rewrite Z.pow_add_r by lia. unfold m'. nia. }
  set (q := m' / Zpos my).
  assert (Hq0 : 0 <= q) by (apply Z.div_pos; unfold m'; lia).
  assert (Hqhi : q < 2 ^ (Z.max 0 (d1 + s - d2 + 1))).
  { apply Z.div_lt_upper_bound; [lia|].
    apply Z.lt_le_trans with (2 ^ (d1 + s)); [exact Hm'hi|].
    apply Z.le_trans with (2 ^ (d2 - 1) * 2 ^ Z.max 0 (d1 + s - d2 + 1)).
    - rewrite <- Z.pow_add_r by lia. apply Z.pow_le_mono_r; lia.
    - apply Z.mul_le_mono_nonneg_r; [apply Z.pow_nonneg; lia|exact Hylo]. }
  destruct (Z.eq_dec q 0) as [Hz|Hnz].
  - rewrite Hz. apply (below_weaken 0); [lia|].
    apply binary_round_aux_zero.
    destruct (Z_le_gt_dec e' (-1074)) as [|Hgt]; [assumption|exfalso].
    assert (Hsb : d2 - d1 + 53 <= s) by (unfold s, e' in *; lia).
    assert (Hm'my : m' < Zpos my).
    { destruct (Z_lt_ge_dec m' (Zpos my)) as [|Hge]; [assumption|exfalso].
      assert (1 <= q) by (apply Z.div_le_lower_bound; lia). lia. }
    assert (2 ^ d2 <= 2 ^ (d1 - 1 + s)) by (apply Z.pow_le_mono_r; lia).
    lia.
  - assert (Hqpos : 0 < q) by lia.
    pose proof (binary_round_aux_spec (xorb sx sy) q e'
                  (new_location (Zpos my) (m' mod Zpos my)) Hqpos) as Hspec.
    assert (Hdq : Zdigits2 q <= Z.max 0 (d1 + s - d2 + 1)) by (apply Zdigits2_le; lia).
    assert (Hdq1 : 0 < Zdigits2 q) by (destruct q; simpl; lia).
    assert (Hpre : e' <= Z.max (Zdigits2 q + e' - 53) (-1074)).
    { destruct (Z_le_gt_dec e' (-1074)) as [|Hgt]; [lia|].
      assert (Hsb : d2 - d1 + 53 <= s) by (unfold s, e' in *; lia).
      assert (53 <= Zdigits2 q); [|lia].
      apply Zdigits2_ge; [|lia].
      apply Z.le_trans with (m' / 2 ^ d2).
      - apply div_pow2_ge; try lia.
        apply Z.le_trans with (2 ^ (d1 - 1 + s)); [|exact Hm'lo].
        apply Z.pow_le_mono_r; lia.
      - apply Z.div_le_compat_l; unfold m'; lia. }
    specialize (Hspec Hpre).
    assert (Hsum : Zdigits2 q + e' <= k) by (unfold s in *; lia).
    fold q.
    destruct (binary_round_aux prec emax (xorb sx sy) q e' _) as [s'|s'| |s' m e0];
      cbn [below].
    + exact I.
    + lia.
    + exact Hspec.
    + destruct Hspec as (_ & _ & Hm & _ & He).
      change (Zdigits2 (Zpos m)) with (Zpos (digits2_pos m)). lia.
Qed.

(** The remainder is below the divisor. *)
Lemma fmod_below (k kx : Z) (x : float) (sy : bool) (my : positive) (ey : Z) :
  0 <= k <= 1023 -> below kx x -> Zdigits2 (Zpos my) + ey <= k ->
  below (k + 1) (fmod x (S754_finite sy my ey)).
Proof.
  intros Hk Hx Hy. unfold fmod.
  destruct x as [sx|sx| |sx mx ex]; try contradiction; [exact I|].
  set (e0 := Z.min ex ey).
  set (X := Zpos mx * 2 ^ (ex - e0)). set (Y := Zpos my * 2 ^ (ey - e0)).
  assert (H0 : e0 <= ey) by (unfold e0; lia).
  assert (HY : 0 < Y).
  { unfold Y. apply Z.mul_pos_pos; [lia|apply Z.pow_pos_nonneg; lia]. }
  pose proof (Z.mod_pos_bound X Y HY) as HR.
  pose proof (aligned_lt my ey e0 k Hy H0) as HYk. fold Y in HYk.
  apply binary_normalize_below; [|lia].
  assert (Hkz : 0 <= k - e0) by (pose proof (digits_pos my); lia).
  assert (Hab : Z.abs (if sx then - (X mod Y) else X mod Y) < 2 ^ (k - e0))
    by (destruct sx; lia).
  pose proof (Zdigits2_abs_le _ _ Hkz Hab). lia.
Qed.

Lemma ffloor_below (k : Z) (x : float) :
  0 <= k <= 1022 -> below k x -> below (k + 2) (ffloor x).
Proof.
  intros Hk Hx. unfold ffloor.
  destruct x as [sx|sx| |sx mx ex]; cbn [below] in *; try contradiction; try exact I.
  destruct (0 <=? ex) eqn:E; [cbn [below]; lia|]. apply Z.leb_gt in E.
  replace (k + 2) with (k + 1 + 1) by lia.
  apply binary_normalize_below; [|lia].
  assert (Hp : 0 < 2 ^ (- ex)) by (apply Z.pow_pos_nonneg; lia).
  pose proof (pos_lt_pow2_digits mx) as Hm.
  assert (Hq : 0 <= Zpos mx / 2 ^ (- ex) < 2 ^ k).
  { split; [apply Z.div_pos; lia|].
    apply Z.div_lt_upper_bound; [lia|].
    rewrite <- Z.pow_add_r by lia.
    apply Z.lt_le_trans with (2 ^ Zdigits2 (Zpos mx)); [exact Hm|].
    apply Z.pow_le_mono_r; lia. }
  assert (Hn : - (Zpos mx / 2 ^ (- ex)) - 1 <= Zneg mx / 2 ^ (- ex) <= 0).
  { pose proof (Z.div_mod (Zpos mx) (2 ^ (- ex)) ltac:(lia)) as D1.
    pose proof (Z.mod_pos_bound (Zpos mx) (2 ^ (- ex)) Hp) as B1.
    pose proof (Z.div_mod (Zneg mx) (2 ^ (- ex)) ltac:(lia)) as D2.
    pose proof (Z.mod_pos_bound (Zneg mx) (2 ^ (- ex)) Hp) as B2.
    assert (Zneg mx = - Zpos mx) by reflexivity. nia. }
  assert (Hab : Z.abs ((if sx then Zneg mx else Zpos mx) / 2 ^ (- ex)) < 2 ^ (k + 1)).
  { rewrite Z.pow_add_r by lia. change (2 ^ 1) with 2.
    assert (0 < 2 ^ k) by (apply Z.pow_pos_nonneg; lia).
    destruct sx; lia. }
  pose proof (Zdigits2_abs_le _ (k + 1) ltac:(lia) Hab). lia.
Qed.

Lemma int_of_float_below (k : Z) (x : float) :
  0 <= k -> below k x -> exists z, int_of_float x = Ok z /\ Z.abs z < 2 ^ k.
Proof.
  intros Hk Hx. unfold int_of_float.
  destruct x as [sx|sx| |sx mx ex]; cbn [below] in *; try contradiction.
  - exists 0. split; [reflexivity|]. apply Z.pow_pos_nonneg; lia.
  - eexists. split; [reflexivity|].
    pose proof (pos_lt_pow2_digits mx) as Hm. pose proof (digits_pos mx) as Hd.
    assert (Ha : 0 <= (if 0 <=? ex then Zpos mx * 2 ^ ex else Zpos mx / 2 ^ (- ex)) < 2 ^ k).
    { destruct (0 <=? ex) eqn:E.
      - apply Z.leb_le in E. split; [apply Z.mul_nonneg_nonneg; [lia|apply Z.pow_nonneg; lia]|].
        replace ex with (ex - 0) at 1 by lia.
        replace k with (k - 0) by lia. apply aligned_lt; lia.
      - apply Z.leb_gt in E.
        assert (Hp : 0 < 2 ^ (- ex)) by (apply Z.pow_pos_nonneg; lia).
        split; [apply Z.div_pos; lia|].
        apply Z.div_lt_upper_bound; [lia|].
        rewrite <- Z.pow_add_r by lia.
        apply Z.lt_le_trans with (2 ^ Zdigits2 (Zpos mx)); [exact Hm|].
        apply Z.pow_le_mono_r; lia. }
    destruct sx; lia.
Qed.

Lemma float_rem_below (k kx : Z) (x : float) (my : positive) (ey : Z) :
  0 <= k <= 1019 -> below kx x -> Zdigits2 (Zpos my) + ey <= k ->
  below (k + 3) (float_rem x (S754_finite false my ey)).
Proof.
  intros Hk Hx Hy. unfold float_rem.
  pose proof (fmod_below k kx x false my ey ltac:(lia) Hx Hy) as Hmd.
  destruct (negb (is_zero (fmod x (S754_finite false my ey)))); [|exact I].
  destruct (negb _).
  - replace (k + 3) with (k + 1 + 2) by lia.
    apply fadd_below; [lia|exact Hmd|cbn [below]; lia].
  - apply (below_weaken (k + 1)); [lia|exact Hmd].
Qed.

Lemma fone_below : below 1 fone.
Proof. vm_compute. discriminate. Qed.

Lemma float_floor_div_below (k : Z) (x : float) (my : positive) (ey : Z) :
  1 <= k <= 1010 -> below k x ->
  1 <= Zdigits2 (Zpos my) + ey <= k - 1 ->
  below (k + 9) (float_floor_div x (S754_finite false my ey)).
Proof.
  intros Hk Hx Hy. unfold float_floor_div.
  set (y := S754_finite false my ey).
  pose proof (fmod_below (k - 1) k x false my ey ltac:(lia) Hx ltac:(lia)) as Hmd.
  replace (k - 1 + 1) with k in Hmd by lia. fold y in Hmd.
  pose proof (fsub_below k x (fmod x y) ltac:(lia) Hx Hmd) as Hsub.
  pose proof (fdiv_below (k + 2) _ false my ey ltac:(lia) Hsub ltac:(lia)) as Hdv.
  fold y in Hdv. replace (k + 2 + 1) with (k + 3) in Hdv by lia.
  set (dv0 := fdiv (fsub x (fmod x y)) y) in *.
  assert (Hdv1 : below (k + 5)
            (if negb (is_zero (fmod x y))
             then if negb (Bool.eqb (fltb y (Z2F 0)) (fltb (fmod x y) (Z2F 0)))
                  then fsub dv0 fone else dv0
             else dv0)).
  { assert (Hw : below (k + 5) dv0) by (apply (below_weaken (k + 3)); [lia|exact Hdv]).
    destruct (negb (is_zero (fmod x y))); [|exact Hw].
    destruct (negb _); [|exact Hw].
    replace (k + 5) with (k + 3 + 2) by lia.
    apply fsub_below; [lia|exact Hdv|].
    apply (below_weaken 1); [lia|exact fone_below]. }
  set (dv := if negb (is_zero (fmod x y)) then _ else _) in *.
  destruct (negb (is_zero dv)); [|exact I].
  pose proof (ffloor_below (k + 5) dv ltac:(lia) Hdv1) as Hfl.
  destruct (fltb fhalf (fsub dv (ffloor dv))).
  - replace (k + 9) with (k + 5 + 2 + 2) by lia.
    apply fadd_below; [lia|exact Hfl|].
    apply (below_weaken 1); [lia|exact fone_below].
  - apply (below_weaken (k + 5 + 2)); [lia|exact Hfl].
Qed.

(* ================================================================== *)
(** * format_size *)
(* ================================================================== *)

Lemma scale_step (fuel : nat) (m : positive) (e : Z) (i : nat) :
  Zpos (digits2_pos m) = 53 -> -1000 <= e <= 971 -> (i < 4)%nat ->
  scale (S fuel) (S754_finite false m e) i =
  if -42 <=? e then scale fuel (S754_finite false m (e - 10)) (S i)
  else (S754_finite false m e, i).
Proof.
  intros Hd He Hi. cbn [scale]. rewrite fleb_1024 by assumption.
  rewrite fdiv_1024 by assumption.
  replace (i <? List.length units - 1)%nat with true.
  - rewrite andb_true_r. reflexivity.
  - symmetry. apply Nat.ltb_lt. simpl. lia.
Qed.

Lemma scale_stop (fuel : nat) (x : float) :
  scale fuel x 4 = (x, 4%nat).
Proof.
  destruct fuel; [reflexivity|]. cbn [scale].
  replace (4 <? List.length units - 1)%nat with false by reflexivity.
  rewrite andb_false_r. reflexivity.
Qed.

Lemma scale_finite (m : positive) (e : Z) :
  Zpos (digits2_pos m) = 53 -> -900 <= e <= 971 ->
  let k := Z.min 4 (Z.max 0 ((e + 52) / 10)) in
  scale (List.length units) (S754_finite false m e) 0 =
  (S754_finite false m (e - 10 * k), Z.to_nat k).
Proof.
  intros Hd He k. change (List.length units) with 5%nat.
  pose proof (Z.div_mod (e + 52) 10 ltac:(lia)) as Hq.
  pose proof (Z.mod_pos_bound (e + 52) 10 ltac:(lia)) as Hr.
  rewrite scale_step by (try assumption; lia).
  destruct (Z.leb_spec (-42) e) as [H0|H0].
  2:{ assert (H : k = 0) by (unfold k; lia). rewrite H.
      replace (e - 10 * 0) with e by lia. reflexivity. }
  rewrite scale_step by (try assumption; lia).
  destruct (Z.leb_spec (-42) (e - 10)) as [H1|H1].
  2:{ assert (H : k = 1) by (unfold k; lia). rewrite H.
      replace (e - 10 * 1) with (e - 10) by lia. reflexivity. }
  rewrite scale_step by (try assumption; lia).
  destruct (Z.leb_spec (-42) (e - 10 - 10)) as [H2|H2].
  2:{ assert (H : k = 2) by (unfold k; lia). rewrite H.
      replace (e - 10 * 2) with (e - 10 - 10) by lia. reflexivity. }
  rewrite scale_step by (try assumption; lia).
  destruct (Z.leb_spec (-42) (e - 10 - 10 - 10)) as [H3|H3].
  2:{ assert (H : k = 3) by (unfold k; lia). rewrite H.
      replace (e - 10 * 3) with (e - 10 - 10 - 10) by lia. reflexivity. }
  rewrite scale_stop.
  assert (H : k = 4) by (unfold k; lia). rewrite H.
  replace (e - 10 * 4) with (e - 10 - 10 - 10 - 10) by lia. reflexivity.
Qed.

(** A positive int either overflows (it has at least 1024 bits) or
    converts to a normal double whose exponent follows its bit length. *)
Lemma Z2F_pos (n : Z) :
  0 < n ->
  (Z2F n = S754_infinity false /\ 2 ^ 1023 <= n) \/
  exists (m : positive) (e : Z),
    Z2F n = S754_finite false m e /\ Zpos (digits2_pos m) = 53 /\
    -52 <= e <= 971 /\
    Z.min 4 (Z.max 0 ((e + 52) / 10)) = Z.min 4 (Z.log2 n / 10).
Proof.
  intros Hn.
  destruct (Z_lt_ge_dec n (2 ^ 53)) as [Hs|Hl].
  - right. destruct (Z2F_exact n (conj Hn Hs)) as (m & Hm & Hd & _).
    exists m, (Zdigits2 n - 53).
    assert (Hb : 0 < Zdigits2 n <= 53).
    { split; [destruct n; simpl; lia|apply Zdigits2_le; lia]. }
    repeat split; try assumption; try lia.
    rewrite Zdigits2_log2 by assumption.
    replace (Z.log2 n + 1 - 53 + 52) with (Z.log2 n) by lia.
    pose proof (Z.log2_nonneg n).
    pose proof (Z.div_pos (Z.log2 n) 10 ltac:(lia) ltac:(lia)). lia.
  - destruct (Z2F_large n ltac:(lia)) as [Hinf|(m & e & Hm & Hd & He)].
    + left. split; [assumption|].
      destruct n as [|p|p]; try lia.
      pose proof (binary_round_spec false p 0) as Hs.
      unfold Z2F, binary_normalize in Hinf. rewrite Hinf in Hs.
      destruct Hs as [_ Hs].
      pose proof (Zdigits2_bounds (Zpos p) Hn) as [Hlo _].
      assert (2 ^ 1023 <= 2 ^ (Zdigits2 (Zpos p) - 1)) by (apply Z.pow_le_mono_r; lia).
      lia.
    + right. exists m, e. repeat split; try assumption; try lia.
      assert (H53 : 53 <= Z.log2 n).
      { apply Z.log2_le_pow2; lia. }
      pose proof (Z.div_mod (e + 52) 10 ltac:(lia)).
      pose proof (Z.mod_pos_bound (e + 52) 10 ltac:(lia)).
      pose proof (Z.div_mod (Z.log2 n) 10 ltac:(lia)).
      pose proof (Z.mod_pos_bound (Z.log2 n) 10 ltac:(lia)).
      lia.
Qed.

Lemma float_of_int_small (n : Z) :
  0 < n < 2 ^ 1023 -> exists x, float_of_int n = Ok x.
Proof.
  intros [Hn Hlt]. unfold float_of_int.
  destruct (Z2F_pos n Hn) as [[_ H]|(m & e & Hm & _)]; [lia|].
  rewrite Hm. eauto.
Qed.


Lemma format_size_pos_int (n : Z) (x : float) :
  0 < n -> float_of_int n = Ok x ->
  exists (m : positive) (e : Z) (u : string),
    let k := Z.min 4 (Z.log2 n / 10) in
    x = S754_finite false m e /\
    nth_error units (Z.to_nat k) = Some u /\
    format_size (VInt n) = Ok (format_1f (S754_finite false m (e - 10 * k)) ++ " " ++ u).
Proof.
  intros Hn Hx. unfold float_of_int in Hx.
  destruct (Z2F_pos n Hn) as [[Hinf _]|(m & e & Hm & Hd & He & Hk)].
  - rewrite Hinf in Hx. discriminate.
  - rewrite Hm in Hx. injection Hx as <-.
    assert (Hk4 : 0 <= Z.min 4 (Z.log2 n / 10) <= 4).
    { pose proof (Z.log2_nonneg n).
      pose proof (Z.div_pos (Z.log2 n) 10 ltac:(lia) ltac:(lia)). lia. }
    assert (Hu : exists u, nth_error units (Z.to_nat (Z.min 4 (Z.log2 n / 10))) = Some u).
    { assert (Hc : Z.min 4 (Z.log2 n / 10) = 0 \/ Z.min 4 (Z.log2 n / 10) = 1 \/
                   Z.min 4 (Z.log2 n / 10) = 2 \/ Z.min 4 (Z.log2 n / 10) = 3 \/
                   Z.min 4 (Z.log2 n / 10) = 4) by lia.
      destruct Hc as [H|[H|[H|[H|H]]]]; rewrite H; simpl; eauto. }
    destruct Hu as [u Hu]. exists m, e, u. cbn zeta.
    repeat split; try assumption.
    unfold format_size. cbn [as_number num_le_zero].
    replace (n <=? 0) with false by (symmetry; apply Z.leb_gt; lia).
    cbn [num_float]. unfold float_of_int. rewrite Hm. cbn [rbind].
    rewrite scale_finite by (try assumption; lia). rewrite Hk.
    unfold unit_at. rewrite Hu. reflexivity.
Qed.

Lemma unit_range (n : Z) :
  0 < n ->
  let k := Z.min 4 (Z.log2 n / 10) in
  0 <= k <= 4 /\ 1024 ^ k <= n /\ (k = 4 \/ n < 1024 ^ (k + 1)).
Proof.
  intros Hn k.
  pose proof (Z.log2_nonneg n) as Hl.
  pose proof (Z.log2_spec n Hn) as [Hlo Hhi].
  pose proof (Z.div_mod (Z.log2 n) 10 ltac:(lia)) as Hq.
  pose proof (Z.mod_pos_bound (Z.log2 n) 10 ltac:(lia)) as Hr.
  assert (Hk : 0 <= k <= 4) by (unfold k; lia).
  split; [exact Hk|]. split.
  - change 1024 with (2 ^ 10). rewrite <- Z.pow_mul_r by lia.
    assert (2 ^ (10 * k) <= 2 ^ Z.log2 n) by (apply Z.pow_le_mono_r; unfold k; lia).
    lia.
  - destruct (Z.eq_dec k 4) as [|Hne]; [left; assumption|right].
    change 1024 with (2 ^ 10). rewrite <- Z.pow_mul_r by lia.
    assert (2 ^ Z.succ (Z.log2 n) <= 2 ^ (10 * (k + 1)))
      by (apply Z.pow_le_mono_r; unfold k in *; lia).
    lia.
Qed.

Lemma format_size_not_number (v : value) :
  as_number v = None -> format_size v = Ok "N/A".
Proof. intros H. unfold format_size. rewrite H. reflexivity. Qed.

Lemma format_size_nonpositive (n : Z) : n <= 0 -> format_size (VInt n) = Ok "N/A".
Proof.
  intros H. unfold format_size. cbn [as_number num_le_zero].
  replace (n <=? 0) with true by (symmetry; apply Z.leb_le; lia). reflexivity.
Qed.

Lemma format_size_float_nonpositive (x : float) :
  fleb x (Z2F 0) = true -> format_size (VFloat x) = Ok "N/A".
Proof.
  intros H. unfold format_size. cbn [as_number num_le_zero]. rewrite H. reflexivity.
Qed.

(** C2, as the code has it: "N/A" for an absent, non-numeric or
    non-positive size; for a positive int that converts to a double
    (every int below 2^1023 does) the value is divided by 1024 exactly
    [k] times, where [k] is the largest index with [1024^k <= n], capped
    at the last unit, and rendered with one decimal and that unit. *)
Theorem format_size_spec :
  (forall v, as_number v = None -> format_size v = Ok "N/A") /\
  (forall n, n <= 0 -> format_size (VInt n) = Ok "N/A") /\
  (forall x, fleb x (Z2F 0) = true -> format_size (VFloat x) = Ok "N/A") /\
  (forall n x, 0 < n -> float_of_int n = Ok x ->
     exists (m : positive) (e : Z) (u : string),
       let k := Z.min 4 (Z.log2 n / 10) in
       x = S754_finite false m e /\
       nth_error units (Z.to_nat k) = Some u /\
       format_size (VInt n)
         = Ok (format_1f (S754_finite false m (e - 10 * k)) ++ " " ++ u) /\
       1024 ^ k <= n /\ (k = 4 \/ n < 1024 ^ (k + 1))) /\
  (forall n, 0 < n < 2 ^ 1023 -> exists x, float_of_int n = Ok x) /\
  format_size VNone = Ok "N/A" /\
  format_size (VInt 0) = Ok "N/A" /\
  format_size (VInt 1536) = Ok "1.5 KB" /\
  format_size (VInt 1073741824) = Ok "1.0 GB".
Proof.
  split; [exact format_size_not_number|].
  split; [exact format_size_nonpositive|].
  split; [exact format_size_float_nonpositive|].
  split.
  - intros n x Hn Hx.
    destruct (format_size_pos_int n x Hn Hx) as (m & e & u & Hxe & Hu & Hf).
    destruct (unit_range n Hn) as (_ & Hlo & Hhi).
    exists m, e, u. cbn zeta. repeat split; assumption.
  - split; [exact float_of_int_small|].
    repeat split; vm_compute; reflexivity.
Qed.

Lemma format_size_spec_witness :
  0 < 1536 /\ exists u, nth_error units 1 = Some u /\
  format_size (VInt 1536) = Ok (format_1f (S754_finite false 6755399441055744 (-42 - 10 * 1)) ++ " " ++ u).
Proof.
  split; [reflexivity|].
  destruct format_size_spec as (_ & _ & _ & H & _).
  destruct (H 1536 (S754_finite false 6755399441055744 (-42)) eq_refl eq_refl)
    as (m & e & u & Hx & Hu & Hf & _).
  exists u. injection Hx as <- <-. split; [exact Hu|exact Hf].
Defined.

(** The claim as stated fails on an int beyond the double range. *)
Lemma format_size_overflow :
  0 < 2 ^ 1024 /\ format_size (VInt (2 ^ 1024)) = Raise OverflowError /\
  ~ (exists s, format_size (VInt (2 ^ 1024)) = Ok s).
Proof.
  assert (H : format_size (VInt (2 ^ 1024)) = Raise OverflowError)
    by (vm_compute; reflexivity).
  split; [reflexivity|]. split; [exact H|].
  intros [s Hs]. rewrite H in Hs. discriminate.
Qed.





(** The claim as stated fails where [format_size] renders nothing: one
    byte gets the unit B, but 2^1024 bytes get no unit, because the
    conversion to a float raises. *)
Lemma no_unit_beyond_double_range :
  0 < 1 /\ 1 <= 2 ^ 1024 /\
  chosen_unit 1 = Some 0%nat /\
  format_size (VInt 1) = Ok "1.0 B" /\
  chosen_unit (2 ^ 1024) = None /\
  format_size (VInt (2 ^ 1024)) = Raise OverflowError /\
  ~ (exists i j : nat, chosen_unit 1 = Some i /\ chosen_unit (2 ^ 1024) = Some j
                       /\ (i <= j)%nat).
Proof.
  assert (H : chosen_unit (2 ^ 1024) = None) by (vm_compute; reflexivity).
  split; [reflexivity|]. split; [discriminate|].
  split; [vm_compute; reflexivity|]. split; [vm_compute; reflexivity|].
  split; [exact H|]. split; [vm_compute; reflexivity|].
  intros (i & j & _ & Hj & _). rewrite H in Hj. discriminate.
Qed.

(* ================================================================== *)
(** * format_duration *)
(* ================================================================== *)




(** ** The limit on the digits of an int *)

Lemma Z2F_3600 : Z2F 3600 = S754_finite false 7916483719987200 (-41).
Proof. vm_compute. reflexivity. Qed.

Lemma Z2F_60 : Z2F 60 = S754_finite false 8444249301319680 (-47).
Proof. vm_compute. reflexivity. Qed.

Lemma str_limit_large : 2 ^ 1024 <= str_limit.
Proof.
  unfold str_limit, max_str_digits.
  apply Z.le_trans with (10 ^ 1024).
  - apply Z.pow_le_mono_l. lia.
  - apply Z.pow_le_mono_r; lia.
Qed.

Lemma int_str_small (n : Z) : Z.abs n < str_limit -> int_str n = Ok (dec n).
Proof.
  intros H. unfold int_str.
  replace (Z.abs n <? str_limit) with true by (symmetry; apply Z.ltb_lt; exact H).
  reflexivity.
Qed.

Lemma int_str_large (n : Z) : str_limit <= Z.abs n -> int_str n = Raise ValueError.
Proof.
  intros H. unfold int_str.
  replace (Z.abs n <? str_limit) with false by (symmetry; apply Z.ltb_ge; exact H).
  reflexivity.
Qed.

Lemma py_format_02d_small (n : Z) :
  Z.abs n < str_limit -> py_format_02d n = Ok (format_02d n).
Proof. intros H. unfold py_format_02d. rewrite int_str_small by exact H. reflexivity. Qed.

Lemma pow2_le_limit (k : Z) (z : Z) : 0 <= k <= 1024 -> Z.abs z < 2 ^ k -> Z.abs z < str_limit.
Proof.
  intros Hk Hz. pose proof str_limit_large.
  assert (2 ^ k <= 2 ^ 1024) by (apply Z.pow_le_mono_r; lia). lia.
Qed.

(** [format_duration] renders every float that is not positive, and
    every positive finite float below 2^1000. *)
Lemma format_duration_float (x : float) :
  fleb x (Z2F 0) || moderate x = true -> exists s, format_duration (VFloat x) = Ok s.
Proof.
  intros H. unfold format_duration. cbn [as_number num_le_zero].
  destruct (fleb x (Z2F 0)); [eauto|]. cbn [orb] in H.
  assert (Hx : below 1000 x).
  { destruct x as [sx|sx| |sx mx ex]; cbn [moderate below] in *; try discriminate;
      [exact I|]. apply Z.leb_le in H. exact H. }
  cbn [num_floordiv num_mod num_int]. rewrite Z2F_3600, Z2F_60.
  pose proof (float_floor_div_below 1000 x 7916483719987200 (-41) ltac:(lia) Hx
                ltac:(change (Zdigits2 (Zpos 7916483719987200)) with 53; lia)) as Hh.
  pose proof (float_rem_below 12 1000 x 7916483719987200 (-41) ltac:(lia) Hx
                ltac:(change (Zdigits2 (Zpos 7916483719987200)) with 53; lia)) as Hr.
  pose proof (float_floor_div_below 15 _ 8444249301319680 (-47) ltac:(lia) Hr
                ltac:(change (Zdigits2 (Zpos 8444249301319680)) with 53; lia)) as Hm.
  pose proof (float_rem_below 6 1000 x 8444249301319680 (-47) ltac:(lia) Hx
                ltac:(change (Zdigits2 (Zpos 8444249301319680)) with 53; lia)) as Hs.
  destruct (int_of_float_below (1000 + 9) _ ltac:(lia) Hh) as (h & Eh & Bh).
  destruct (int_of_float_below (15 + 9) _ ltac:(lia) Hm) as (m & Em & Bm).
  destruct (int_of_float_below (6 + 3) _ ltac:(lia) Hs) as (s & Es & Bs).
  rewrite Eh, Em, Es. cbn [rbind].
  rewrite (py_format_02d_small h) by (apply (pow2_le_limit (1000 + 9)); [lia|exact Bh]).
  rewrite (py_format_02d_small m) by (apply (pow2_le_limit (15 + 9)); [lia|exact Bm]).
  rewrite (py_format_02d_small s) by (apply (pow2_le_limit (6 + 3)); [lia|exact Bs]).
  cbn [rbind]. destruct (0 <? h); eauto.
Qed.

Lemma format_duration_not_number (v : value) :
  as_number v = None -> format_duration v = Ok "N/A".
Proof. intros H. unfold format_duration. rewrite H. reflexivity. Qed.

Lemma format_duration_nonpositive (s : Z) :
  s <= 0 -> format_duration (VInt s) = Ok "N/A".
Proof.
  intros H. unfold format_duration. cbn [as_number num_le_zero].
  replace (s <=? 0) with true by (symmetry; apply Z.leb_le; lia). reflexivity.
Qed.

Lemma hms_decomposition (s : Z) :
  0 < s ->
  s = 3600 * (s / 3600) + 60 * (s mod 3600 / 60) + s mod 60 /\
  0 <= s / 3600 /\ 0 <= s mod 3600 / 60 < 60 /\ 0 <= s mod 60 < 60.
Proof.
  intros H.
  pose proof (Z.div_mod s 3600 ltac:(lia)).
  pose proof (Z.mod_pos_bound s 3600 ltac:(lia)).
  pose proof (Z.div_mod (s mod 3600) 60 ltac:(lia)).
  pose proof (Z.mod_pos_bound (s mod 3600) 60 ltac:(lia)).
  pose proof (Z.div_mod s 60 ltac:(lia)).
  pose proof (Z.mod_pos_bound s 60 ltac:(lia)).
  lia.
Qed.

Lemma field_below_limit (n : Z) : 0 <= n < 60 -> Z.abs n < str_limit.
Proof.
  intros H. apply (pow2_le_limit 6); [lia|]. change (2 ^ 6) with 64. lia.
Qed.

(** The hours of [s] seconds are below the digit limit exactly when [s]
    is below 3600 times the limit. *)
Lemma hours_below_limit (s : Z) : s / 3600 < str_limit <-> s < 3600 * str_limit.
Proof.
  split; intros H.
  - pose proof (Z.div_mod s 3600 ltac:(lia)).
    pose proof (Z.mod_pos_bound s 3600 ltac:(lia)). lia.
  - apply Z.div_lt_upper_bound; lia.
Qed.

Lemma format_duration_positive (s : Z) :
  0 < s -> s < 3600 * str_limit ->
  format_duration (VInt s) =
  Ok (if 0 <? s / 3600
      then format_02d (s / 3600) ++ ":" ++ format_02d (s mod 3600 / 60)
             ++ ":" ++ format_02d (s mod 60)
      else format_02d (s mod 3600 / 60) ++ ":" ++ format_02d (s mod 60)).
Proof.
  intros H Hlim. apply hours_below_limit in Hlim.
  destruct (hms_decomposition s H) as (_ & Hh & Hm & Hs).
  unfold format_duration. cbn [as_number num_le_zero].
  replace (s <=? 0) with false by (symmetry; apply Z.leb_gt; lia).
  cbn [num_floordiv num_mod num_int rbind].
  rewrite (py_format_02d_small (s mod 3600 / 60)) by (apply field_below_limit; exact Hm).
  rewrite (py_format_02d_small (s mod 60)) by (apply field_below_limit; exact Hs).
  rewrite (py_format_02d_small (s / 3600)) by lia.
  destruct (0 <? s / 3600); reflexivity.
Qed.

(** Beyond that, the hours cannot be converted to text. *)
Lemma format_duration_too_long (s : Z) :
  3600 * str_limit <= s -> format_duration (VInt s) = Raise ValueError.
Proof.
  intros Hlim.
  assert (Hpos : 0 < str_limit).
  { pose proof str_limit_large. assert (0 < 2 ^ 1024) by (apply Z.pow_pos_nonneg; lia). lia. }
  assert (Hh : str_limit <= s / 3600) by (apply Z.div_le_lower_bound; lia).
  unfold format_duration. cbn [as_number num_le_zero].
  replace (s <=? 0) with false by (symmetry; apply Z.leb_gt; lia).
  cbn [num_floordiv num_mod num_int rbind].
  replace (0 <? s / 3600) with true by (symmetry; apply Z.ltb_lt; lia).
  unfold py_format_02d at 1. rewrite int_str_large by lia. reflexivity.
Qed.

(** [format_duration] renders every value that [duration_ok] admits. *)
Lemma format_duration_ok (v : value) :
  duration_ok v = true -> exists s, format_duration v = Ok s.
Proof.
  destruct v as [|b|n|x|s|l|d]; cbn [duration_ok]; intros H;
    try (rewrite format_duration_not_number by reflexivity; eauto).
  - destruct b; vm_compute; eauto.
  - apply Z.ltb_lt in H. destruct (Z_le_gt_dec n 0) as [Hn|Hn].
    + rewrite format_duration_nonpositive by exact Hn. eauto.
    + rewrite format_duration_positive; [eauto|lia|apply hours_below_limit; exact H].
  - apply format_duration_float. exact H.
Qed.



(** The claim as stated fails on an int whose hours have 4301 digits:
    the text of the hours cannot be produced. *)
Lemma format_duration_digit_limit :
  0 < 3600 * 10 ^ 4300 /\
  format_duration (VInt (3600 * 10 ^ 4300)) = Raise ValueError /\
  ~ (exists s, format_duration (VInt (3600 * 10 ^ 4300)) = Ok s).
Proof.
  assert (H : format_duration (VInt (3600 * 10 ^ 4300)) = Raise ValueError)
    by (apply format_duration_too_long; apply Z.le_refl).
  split; [vm_compute; reflexivity|]. split; [exact H|].
  intros [s Hs]. rewrite H in Hs. discriminate.
Qed.

(* ================================================================== *)
(** * What never raises *)
(* ================================================================== *)

(** A non-zero int of fewer than 1024 bits converts to a finite,
    non-zero double. *)
Lemma Z2F_finite (n : Z) :
  n <> 0 -> Z.abs n < 2 ^ 1023 ->
  exists s m e, Z2F n = S754_finite s m e.
Proof.
  intros Hn Hb. unfold Z2F, binary_normalize.
  destruct n as [|p|p]; [contradiction| |].
  - pose proof (binary_round_spec false p 0) as Hs.
    assert (Hd : Zdigits2 (Zpos p) <= 1023) by (apply Zdigits2_le; lia).
    assert (0 < Zdigits2 (Zpos p)) by (simpl; lia).
    destruct (binary_round prec emax false p 0) as [s|s| |s m e];
      [lia|lia|contradiction|eauto].
  - pose proof (binary_round_spec true p 0) as Hs.
    assert (Hd : Zdigits2 (Zpos p) <= 1023) by (apply Zdigits2_le; lia).
    assert (0 < Zdigits2 (Zpos p)) by (simpl; lia).
    destruct (binary_round prec emax true p 0) as [s|s| |s m e];
      [lia|lia|contradiction|eauto].
Qed.

Lemma float_of_int_bounded (n : Z) :
  Z.abs n < 2 ^ 1023 ->
  exists x, float_of_int n = Ok x /\ (n <> 0 -> is_zero x = false).
Proof.
  intros Hb. unfold float_of_int.
  destruct (Z.eq_dec n 0) as [->|Hn].
  - exists (S754_zero false). split; [reflexivity|]. intros H; contradiction.
  - destruct (Z2F_finite n Hn Hb) as (s & m & e & H). rewrite H.
    exists (S754_finite s m e). split; reflexivity.
Qed.

Lemma scale_index_le (fuel : nat) : forall (x : float) (i : nat),
  (i <= 4)%nat -> (snd (scale fuel x i) <= 4)%nat.
Proof.
  induction fuel as [|fuel IH]; intros x i Hi; cbn [scale]; [exact Hi|].
  destruct (fleb (Z2F 1024) x); cbn [andb]; [|exact Hi].
  destruct (i <? List.length units - 1)%nat eqn:E; [|exact Hi].
  apply IH. apply Nat.ltb_lt in E. simpl in E. lia.
Qed.

Lemma unit_at_ok (i : nat) : (i <= 4)%nat -> exists u, unit_at i = Ok u.
Proof.
  intros H. unfold unit_at.
  destruct i as [|[|[|[|[|i]]]]]; simpl; eauto. lia.
Qed.

(** [format_size] never raises on a float. *)
Lemma format_size_float_total (x : float) : exists s, format_size (VFloat x) = Ok s.
Proof.
  unfold format_size. cbn [as_number].
  destruct (num_le_zero (NFloat x)); [eauto|].
  cbn [num_float rbind].
  pose proof (scale_index_le (List.length units) x 0 ltac:(lia)) as Hi.
  destruct (scale (List.length units) x 0) as [size i]. cbn [snd] in Hi.
  destruct (unit_at_ok i Hi) as [u Hu]. rewrite Hu. cbn [rbind]. eauto.
Qed.

Lemma format_size_int_total (n : Z) :
  Z.abs n < 2 ^ 1023 -> exists s, format_size (VInt n) = Ok s.
Proof.
  intros Hb. destruct (Z_le_gt_dec n 0) as [H|H].
  - rewrite format_size_nonpositive by assumption. eauto.
  - destruct (float_of_int_small n ltac:(lia)) as [x Hx].
    destruct (format_size_pos_int n x ltac:(lia) Hx) as (m & e & u & _ & _ & Hf).
    rewrite Hf. eauto.
Qed.


(** [format_size] renders every value that [size_ok] admits. *)
Lemma format_size_ok (v : value) :
  size_ok v = true -> exists s, format_size v = Ok s.
Proof.
  destruct v as [|b|n|x|s|l|d]; cbn [size_ok]; intros H;
    try (rewrite format_size_not_number by reflexivity; eauto).
  - destruct b; vm_compute; eauto.
  - apply Z.ltb_lt in H. destruct (Z_le_gt_dec n 0) as [Hn|Hn].
    + rewrite format_size_nonpositive by exact Hn. eauto.
    + apply format_size_int_total. lia.
  - apply format_size_float_total.
Qed.

Lemma amount_size_ok (v : value) : is_amount v = true -> size_ok v = true.
Proof.
  destruct v as [|b|n|x|s|l|d]; cbn [is_amount size_ok]; try discriminate; auto.
  intros H. apply Z.ltb_lt in H. apply Z.ltb_lt. lia.
Qed.

(** A falsy value is shown as "N/A". *)
Lemma falsy_size (v : value) : truthy v = false -> format_size v = Ok "N/A".
Proof.
  destruct v as [|b|n|x|s|l|d]; cbn [truthy]; intros H;
    try (apply format_size_not_number; reflexivity).
  - subst b. reflexivity.
  - apply negb_false_iff, Z.eqb_eq in H. subst n. reflexivity.
  - apply negb_false_iff in H. destruct x; try discriminate. reflexivity.
Qed.

Lemma div_eucl_bound (a b : Z) :
  0 <= a -> 0 < b -> 0 <= a / b <= a.
Proof.
  intros Ha Hb. split; [apply Z.div_pos; lia|].
  apply Z.div_le_upper_bound; nia.
Qed.

(** Dividing an int of fewer than 1024 bits by a non-zero int does not
    overflow. *)
Lemma div_int_int_ok (a b : Z) :
  b <> 0 -> Z.abs a < 2 ^ 1023 -> exists q, div_int_int a b = Ok q.
Proof.
  intros Hb Ha. unfold div_int_int.
  replace (b =? 0) with false by (symmetry; apply Z.eqb_neq; assumption).
  destruct (a =? 0) eqn:Ea; [eauto|]. apply Z.eqb_neq in Ea.
  set (k := Z.max 0 (55 + Zdigits2 (Z.abs b) - Zdigits2 (Z.abs a))).
  rewrite div_eucl_eq.
  set (q := Z.abs a * 2 ^ k / Z.abs b).
  set (r := Z.abs a * 2 ^ k mod Z.abs b).
  set (m := 2 * q + (if r =? 0 then 0 else 1)).
  assert (Hk : 0 <= k) by (unfold k; lia).
  assert (Hp : 0 < 2 ^ k) by (apply Z.pow_pos_nonneg; lia).
  assert (Hq : 0 <= q <= Z.abs a * 2 ^ k).
  { unfold q. apply div_eucl_bound; nia. }
  assert (Hm : 0 <= m < 2 ^ (1024 + k)).
  { assert (m <= 2 * q + 1) by (unfold m; destruct (r =? 0); lia).
    assert (0 <= m) by (unfold m; destruct (r =? 0); lia).
    assert (Z.abs a * 2 ^ k < 2 ^ 1023 * 2 ^ k) by nia.
    rewrite <- Z.pow_add_r in H1 by lia.
    replace (1024 + k) with (1 + (1023 + k)) by lia.
    rewrite (Z.pow_add_r 2 1 (1023 + k)) by lia. change (2 ^ 1) with 2. lia. }
  set (neg := xorb (a <? 0) (b <? 0)).
  assert (Hfin : forall s p, Zpos p = m ->
            exists x, match binary_round prec emax s p (- (k + 1)) with
                      | S754_infinity _ => Raise OverflowError
                      | y => Ok y
                      end = Ok x).
  { intros s p Hpm. pose proof (binary_round_spec s p (- (k + 1))) as Hs.
    assert (Hd : Zdigits2 (Zpos p) <= 1024 + k) by (apply Zdigits2_le; lia).
    destruct (binary_round prec emax s p (- (k + 1))) as [s'|s'| |s' m' e'];
      [eauto|lia|contradiction|eauto]. }
  unfold binary_normalize.
  destruct neg.
  - destruct m as [|p|p] eqn:Em; cbn [Z.opp]; [eauto| |lia].
    apply Hfin. reflexivity.
  - destruct m as [|p|p] eqn:Em; [eauto| |lia].
    apply Hfin. reflexivity.
Qed.

Lemma amount_number (v : value) :
  is_amount v = true ->
  exists n, as_number v = Some n /\
    match n with
    | NInt z => Z.abs z < 2 ^ 1023 /\ (truthy v = true -> z <> 0)
    | NFloat x => truthy v = true -> is_zero x = false
    end.
Proof.
  destruct v as [|b|n|x|s|l|d]; cbn [is_amount]; try discriminate; intros H.
  - exists (NInt (if b then 1 else 0)). split; [reflexivity|].
    destruct b; cbn [truthy]; split; try (vm_compute; reflexivity); try discriminate.
  - exists (NInt n). split; [reflexivity|]. split; [apply Z.ltb_lt; exact H|].
    cbn [truthy]. intros Ht E. subst n. discriminate.
  - exists (NFloat x). split; [reflexivity|]. cbn [truthy].
    intros Ht. destruct (is_zero x); [discriminate|reflexivity].
Qed.

(** True division of two well-formed amounts does not raise when the
    divisor is truthy. *)
Lemma py_truediv_ok (a b : value) :
  is_amount a = true -> is_amount b = true -> truthy b = true ->
  exists q, py_truediv a b = Ok q.
Proof.
  intros Ha Hb Ht.
  destruct (amount_number a Ha) as (na & Ea & Pa).
  destruct (amount_number b Hb) as (nb & Eb & Pb).
  unfold py_truediv. rewrite Ea, Eb.
  destruct na as [x|fx], nb as [y|fy].
  - destruct Pa as [Hx _], Pb as [_ Hy]. apply div_int_int_ok; auto.
  - destruct Pa as [Hx _]. cbn [num_float].
    destruct (float_of_int_bounded x Hx) as (fx & Efx & _). rewrite Efx. cbn [rbind].
    unfold div_float_float. rewrite (Pb Ht). eauto.
  - destruct Pb as [Hy Hy0]. cbn [num_float rbind].
    destruct (float_of_int_bounded y Hy) as (fy & Efy & Hz). rewrite Efy. cbn [rbind].
    unfold div_float_float. rewrite (Hz (Hy0 Ht)). eauto.
  - cbn [num_float rbind]. unfold div_float_float. rewrite (Pb Ht). eauto.
Qed.

Lemma app_assoc_string (a b c : string) : (a ++ b) ++ c = a ++ b ++ c.
Proof. induction a as [|x a IH]; simpl; [reflexivity|]. rewrite IH. reflexivity. Qed.

(** ** The prepared fields of the status line *)



Lemma speed_str_ok (v : value) : size_ok v = true -> exists s, speed_str v = Ok s.
Proof.
  intros H. unfold speed_str. destruct (truthy v); [|eauto].
  destruct (format_size_ok v H) as [s Hs]. rewrite Hs. cbn [rbind]. eauto.
Qed.



Lemma eta_str_ok (v : value) : duration_ok v = true -> exists s, eta_str v = Ok s.
Proof.
  intros H. unfold eta_str. destruct (truthy v); [|eauto].
  destruct (format_duration_ok v H) as [s Hs]. rewrite Hs. cbn [rbind]. eauto.
Qed.


Lemma percent_str_known (downloaded total : value) (q : float) :
  truthy total = true -> py_truediv downloaded total = Ok q ->
  percent_str downloaded total = Ok (format_5_1f (fmul q (Z2F 100)) ++ "%").
Proof. intros H Hq. unfold percent_str. rewrite H, Hq. reflexivity. Qed.

Lemma percent_str_ok (downloaded total : value) :
  (if truthy total then is_amount downloaded && is_amount total
   else size_ok downloaded) = true ->
  exists s, percent_str downloaded total = Ok s.
Proof.
  intros H. unfold percent_str. destruct (truthy total) eqn:E; [|eauto].
  apply andb_prop in H. destruct H as [Hd Ht].
  destruct (py_truediv_ok downloaded total Hd Ht E) as [q Hq].
  rewrite Hq. cbn [rbind]. eauto.
Qed.

(** ** Laws of the effect monad *)

Lemma run_eta {S A} (r : run S A) :
  {| final := final r; trace := trace r; outcome := outcome r |} = r.
Proof. destruct r; reflexivity. Qed.

Lemma bind_ret {S A B} (a : A) (k : A -> prog S B) (s : S) :
  bind (ret a) k s = k a s.
Proof. unfold bind, ret. cbn [outcome final trace app]. apply run_eta. Qed.

Lemma bind_lift_ok {S A B} (a : A) (k : A -> prog S B) (s : S) :
  bind (lift (Ok a)) k s = k a s.
Proof. unfold bind, lift. cbn [outcome final trace app]. apply run_eta. Qed.

Lemma bind_lift_raise {S A B} (e : exn) (k : A -> prog S B) (s : S) :
  bind (lift (Raise e)) k s = {| final := s; trace := []; outcome := Raise e |}.
Proof. reflexivity. Qed.

Lemma bind_get {S B} (k : S -> prog S B) (s : S) : bind get k s = k s s.
Proof. unfold bind, get. cbn [outcome final trace app]. apply run_eta. Qed.

Lemma bind_put {S B} (s' : S) (k : unit -> prog S B) (s : S) :
  bind (put s') k s = k tt s'.
Proof. unfold bind, put. cbn [outcome final trace app]. apply run_eta. Qed.

Lemma bind_emit {S B} (e : event) (k : unit -> prog S B) (s : S) :
  bind (emit e) k s =
  {| final := final (k tt s); trace := e :: trace (k tt s); outcome := outcome (k tt s) |}.
Proof. reflexivity. Qed.

Lemma bind_run {S A B} (m : prog S A) (k : A -> prog S B) (s s' : S)
    (t : list event) (a : A) :
  m s = {| final := s'; trace := t; outcome := Ok a |} ->
  bind m k s = {| final := final (k a s'); trace := t ++ trace (k a s');
                  outcome := outcome (k a s') |}.
Proof. intros H. unfold bind. rewrite H. reflexivity. Qed.

Lemma bind_run_raise {S A B} (m : prog S A) (k : A -> prog S B) (s s' : S)
    (t : list event) (e : exn) :
  m s = {| final := s'; trace := t; outcome := Raise e |} ->
  bind m k s = {| final := s'; trace := t; outcome := Raise e |}.
Proof. intros H. unfold bind. rewrite H. reflexivity. Qed.

Lemma bind_run_any {S A B} (m : prog S A) (k : A -> prog S B) (s s' : S)
    (t : list event) (o : result A) :
  m s = {| final := s'; trace := t; outcome := o |} ->
  bind m k s =
  match o with
  | Ok a => {| final := final (k a s'); trace := t ++ trace (k a s');
               outcome := outcome (k a s') |}
  | Raise e => {| final := s'; trace := t; outcome := Raise e |}
  end.
Proof. intros H. unfold bind. rewrite H. destruct o; reflexivity. Qed.

Lemma bind_print {S B} (text : string) (k : unit -> prog S B) (s : S) :
  bind (print text) k s =
  {| final := final (k tt s); trace := Print (text ++ newline) :: trace (k tt s);
     outcome := outcome (k tt s) |}.
Proof. reflexivity. Qed.

Lemma bind_print_run {S B} (text : string) (k : unit -> prog S B) (s f : S)
    (t : list event) (o : result B) :
  k tt s = {| final := f; trace := t; outcome := o |} ->
  bind (print text) k s =
  {| final := f; trace := Print (text ++ newline) :: t; outcome := o |}.
Proof. intros H. rewrite bind_print, H. reflexivity. Qed.






(* ================================================================== *)
(** * Path names and truncation *)
(* ================================================================== *)

Lemma split_slash_nonempty (s : string) : split_slash s <> [].
Proof.
  induction s as [|c s IH]; cbn [split_slash]; [discriminate|].
  destruct (Ascii.eqb c "/"); [discriminate|].
  destruct (split_slash s); discriminate.
Qed.

Lemma split_slash_app (a b : string) :
  split_slash (a ++ "/" ++ b) = (split_slash a ++ split_slash b)%list.
Proof.
  induction a as [|c a IH].
  - reflexivity.
  - change ((String c a) ++ "/" ++ b) with (String c (a ++ "/" ++ b)).
    cbn [split_slash]. destruct (Ascii.eqb c "/").
    + rewrite IH. reflexivity.
    + rewrite IH. pose proof (split_slash_nonempty a) as Hne.
      destruct (split_slash a) as [|w ws]; [contradiction|]. reflexivity.
Qed.

Lemma split_slash_single (f : string) :
  has_char "/" f = false -> split_slash f = [f].
Proof.
  induction f as [|c f IH]; cbn [has_char split_slash]; [reflexivity|].
  intros H. apply orb_false_iff in H. destruct H as [Hc Hf].
  rewrite Hc, (IH Hf). reflexivity.
Qed.

Lemma split_slash_parts (s : string) : forall w,
  In w (split_slash s) -> has_char "/" w = false.
Proof.
  induction s as [|c s IH]; cbn [split_slash]; intros w Hw.
  - destruct Hw as [<-|[]]. reflexivity.
  - destruct (Ascii.eqb c "/") eqn:Ec.
    + destruct Hw as [<-|Hw]; [reflexivity|apply IH; exact Hw].
    + pose proof (split_slash_nonempty s) as Hne.
      destruct (split_slash s) as [|w0 ws]; [contradiction|].
      destruct Hw as [<-|Hw].
      * cbn [has_char]. rewrite Ec. apply IH. left. reflexivity.
      * apply IH. right. exact Hw.
Qed.

Lemma last_default_or_in {A} (l : list A) (d : A) : last l d = d \/ In (last l d) l.
Proof.
  induction l as [|a l IH]; [left; reflexivity|].
  destruct l as [|b l']; [right; left; reflexivity|].
  change (last (a :: b :: l') d) with (last (b :: l') d).
  destruct IH as [IH|IH]; [|right; right; exact IH].
  right. right. rewrite IH.
  assert (H : forall (l : list A) (x : A), last (x :: l) d = d -> In d (x :: l)).
  { clear. intros l. induction l as [|y l IH]; intros x H.
    - left. exact H.
    - right. apply IH. exact H. }
  apply H. exact IH.
Qed.

Lemma is_path_part_proper (f : string) : f <> "" -> f <> "." -> is_path_part f = true.
Proof.
  intros H1 H2. unfold is_path_part.
  apply andb_true_iff. split; apply negb_true_iff, String.eqb_neq; assumption.
Qed.

Lemma path_name_no_slash (p : string) : has_char "/" (path_name p) = false.
Proof.
  unfold path_name.
  destruct (last_default_or_in (filter is_path_part (split_slash p)) "") as [H|H].
  - rewrite H. reflexivity.
  - apply filter_In in H. destruct H as [H _].
    apply (split_slash_parts p). exact H.
Qed.

(** The name of [dir/f] is [f]. *)
Lemma path_name_last (dir f : string) :
  has_char "/" f = false -> f <> "" -> f <> "." -> path_name (dir ++ "/" ++ f) = f.
Proof.
  intros Hf H1 H2. unfold path_name.
  rewrite split_slash_app, (split_slash_single f Hf), filter_app.
  cbn [filter]. rewrite (is_path_part_proper f H1 H2). apply last_last.
Qed.

Lemma path_name_bare (f : string) :
  has_char "/" f = false -> f <> "" -> f <> "." -> path_name f = f.
Proof.
  intros Hf H1 H2. unfold path_name.
  rewrite (split_slash_single f Hf). cbn [filter]. rewrite (is_path_part_proper f H1 H2).
  reflexivity.
Qed.

(** X3: [Path(p).name] is a single path component: it has no slash, and it
    is the text after the last slash whenever that text is neither
    empty nor a dot. *)
Theorem path_name_component :
  (forall p, has_char "/" (path_name p) = false) /\
  (forall dir f, has_char "/" f = false -> f <> "" -> f <> "." ->
                 path_name (dir ++ "/" ++ f) = f) /\
  (forall f, has_char "/" f = false -> f <> "" -> f <> "." -> path_name f = f).
Proof.
  split; [exact path_name_no_slash|]. split; [exact path_name_last|exact path_name_bare].
Qed.

Lemma take_chars_prefix (s : string) : forall n, exists rest, s = take_chars n s ++ rest.
Proof.
  induction s as [|c s IH]; intros n; cbn [take_chars]; [exists ""; reflexivity|].
  destruct (is_continuation c).
  - destruct (IH n) as [rest Hr]. exists rest. cbn [append]. rewrite <- Hr. reflexivity.
  - destruct n as [|k]; [exists (String c s); reflexivity|].
    destruct (IH k) as [rest Hr]. exists rest. cbn [append]. rewrite <- Hr. reflexivity.
Qed.

Lemma take_chars_code_points (s : string) : forall n,
  (code_points (take_chars n s) <= n)%nat.
Proof.
  induction s as [|c s IH]; intros n; cbn [take_chars]; [cbn; lia|].
  destruct (is_continuation c) eqn:Ec.
  - cbn [code_points]. rewrite Ec. apply IH.
  - destruct n as [|k]; [cbn; lia|]. cbn [code_points]. rewrite Ec.
    specialize (IH k). lia.
Qed.

Lemma take_chars_all (s : string) : forall n,
  (code_points s <= n)%nat -> take_chars n s = s.
Proof.
  induction s as [|c s IH]; intros n; cbn [take_chars code_points]; [reflexivity|].
  destruct (is_continuation c).
  - intros H. rewrite (IH n H). reflexivity.
  - intros H. destruct n as [|k]; [lia|]. rewrite (IH k); [reflexivity|lia].
Qed.



(* ================================================================== *)
(** * The progress hook *)
(* ================================================================== *)

Section Hook.
Context {RT : Runtime}.

(** A throttled [downloading] event changes nothing and prints nothing. *)
Lemma hook_call_throttled (now : float) (self : EnhancedProgressHook) (d : dict) :
  eq_str (dict_get d "status" VNone) "downloading" = true ->
  fltb (fsub now (last_update_time self)) fhalf = true ->
  hook_call now d self = {| final := self; trace := []; outcome := Ok tt |}.
Proof.
  intros Hs Ht. unfold hook_call. rewrite Hs. cbv beta iota.
  rewrite bind_get. rewrite Ht. reflexivity.
Qed.

Lemma status_exclusive (v : value) :
  eq_str v "finished" = true -> eq_str v "downloading" = false.
Proof.
  destruct v; cbn [eq_str]; try discriminate.
  intros H. apply String.eqb_eq in H. subst s. reflexivity.
Qed.

(** The completion line of a [finished] event whose path is [p]. *)
Lemma hook_call_finished (now : float) (self : EnhancedProgressHook)
    (d i : dict) (p : string) :
  eq_str (dict_get d "status" VNone) "finished" = true ->
  dict_get d "info_dict" (VDict []) = VDict i ->
  dict_get i "filepath" (VStr "file") = VStr p ->
  hook_call now d self =
  {| final := self;
     trace := [Print ((newline ++ GREEN C ++ "✅ " ++ current_video_info self
                        ++ "Completed: " ++ path_name p ++ END_ C) ++ newline)];
     outcome := Ok tt |}.
Proof.
  intros Hs Hi Hp. unfold hook_call.
  rewrite (status_exclusive _ Hs), Hs. cbv beta iota.
  rewrite Hi. cbn [py_get]. rewrite Hp.
  rewrite bind_lift_ok. cbn [py_path_name]. rewrite bind_lift_ok.
  rewrite bind_get. reflexivity.
Qed.

(** An event that is not [downloading] leaves the hook's state alone. *)
Lemma hook_call_frame (now : float) (self : EnhancedProgressHook) (d : dict) :
  eq_str (dict_get d "status" VNone) "downloading" = false ->
  final (hook_call now d self) = self.
Proof.
  intros Hs. unfold hook_call. rewrite Hs. cbv beta iota.
  destruct (eq_str (dict_get d "status" VNone) "finished").
  - destruct (py_get _ "filepath" _) as [fp|]; [|reflexivity].
    rewrite bind_lift_ok.
    destruct (py_path_name fp); [|reflexivity].
    rewrite bind_lift_ok, bind_get. reflexivity.
  - destruct (eq_str (dict_get d "status" VNone) "error"); reflexivity.
Qed.


(** The block that rebuilds the item label. *)
Lemma label_block (s : EnhancedProgressHook) (i : dict) :
  when (truthy (dict_get i "playlist_index" VNone)
        && truthy (dict_get i "playlist_count" VNone))
    (bind (lift (py_str py_repr (dict_get i "playlist_index" VNone)))
       (fun index_text =>
          bind (lift (py_str py_repr (dict_get i "playlist_count" VNone)))
            (fun count_text =>
               bind get
                 (fun self =>
                    put (set_current_video_info self
                           ("[" ++ index_text ++ "/" ++ count_text ++ "] ")))))) s
  = match next_label s i with
    | Ok label => {| final := {| last_update_time := last_update_time s;
                                 current_video_info := label |};
                     trace := []; outcome := Ok tt |}
    | Raise e => {| final := s; trace := []; outcome := Raise e |}
    end.
Proof.
  unfold next_label. cbv zeta.
  destruct (truthy _ && truthy _); cbn [when].
  - destruct (py_str py_repr (dict_get i "playlist_index" VNone)) as [a|e];
      [|reflexivity].
    rewrite bind_lift_ok.
    destruct (py_str py_repr (dict_get i "playlist_count" VNone)) as [b|e];
      [|reflexivity].
    rewrite bind_lift_ok. reflexivity.
  - destruct s. reflexivity.
Qed.




(** The whole run of a [downloading] event that passes the throttle and
    whose pieces are all produced. *)
Lemma hook_call_passed (now : float) (self : EnhancedProgressHook) (d i : dict)
    (label name speed_text percent_text eta_text size_done size_total : string) :
  eq_str (dict_get d "status" VNone) "downloading" = true ->
  fltb (fsub now (last_update_time self)) fhalf = false ->
  dict_get d "info_dict" (VDict []) = VDict i ->
  next_label self i = Ok label ->
  py_path_name (dict_get d "filename" (VStr "...")) = Ok name ->
  speed_str (dict_get d "speed" VNone) = Ok speed_text ->
  percent_str (dict_get d "downloaded_bytes" (VInt 0))
    (py_or (dict_get d "total_bytes" VNone) (dict_get d "total_bytes_estimate" VNone))
    = Ok percent_text ->
  eta_str (dict_get d "eta" (VInt 0)) = Ok eta_text ->
  format_size (dict_get d "downloaded_bytes" (VInt 0)) = Ok size_done ->
  format_size (py_or (dict_get d "total_bytes" VNone)
                     (dict_get d "total_bytes_estimate" VNone)) = Ok size_total ->
  hook_call now d self =
  {| final := {| last_update_time := now; current_video_info := label |};
     trace := [Print (carriage_return ++ CYAN C ++ label ++ "⬇️  "
                        ++ percent_text ++ " | "
                        ++ size_done ++ "/" ++ size_total ++ " @ " ++ speed_text ++ " | "
                        ++ eta_text ++ " | " ++ take_chars 40 name ++ END_ C)];
     outcome := Ok tt |}.
Proof.
  intros Hs Ht Hi Hl Hn Hsp Hpc Het Hsd Hst.
  unfold hook_call. rewrite Hs. cbv beta iota zeta.
  rewrite bind_get. cbv beta. rewrite Ht. rewrite bind_put.
  rewrite Hi. cbn [py_get]. rewrite !bind_lift_ok.
  assert (Hb := label_block (set_last_update_time self now) i).
  change (next_label (set_last_update_time self now) i) with (next_label self i) in Hb.
  rewrite Hl in Hb.
  rewrite (bind_run _ _ _ _ _ _ Hb).
  rewrite Hn, bind_lift_ok, Hsp, bind_lift_ok, Hpc, bind_lift_ok, Het, bind_lift_ok.
  rewrite bind_get, Hsd, bind_lift_ok, Hst, bind_lift_ok.
  reflexivity.
Qed.

Lemma label_ok_next (self : EnhancedProgressHook) (v : value) :
  label_ok v = true ->
  exists i label, v = VDict i /\ next_label self i = Ok label.
Proof.
  destruct v as [| | | | | |i]; cbn [label_ok]; try discriminate.
  intros H. exists i. unfold next_label. cbv zeta in *.
  destruct (truthy _ && truthy _); cbn [negb orb] in H; [|eauto].
  apply andb_prop in H. destruct H as [Ha Hb].
  destruct (py_str py_repr (dict_get i "playlist_index" VNone)) as [a|]; [|discriminate].
  destruct (py_str py_repr (dict_get i "playlist_count" VNone)) as [b|]; [|discriminate].
  cbn [rbind]. eauto.
Qed.


Lemma well_formed_status (d : dict) :
  well_formed_downloading d = true ->
  eq_str (dict_get d "status" VNone) "downloading" = true.
Proof.
  unfold well_formed_downloading. cbv zeta. intros H.
  repeat (apply andb_prop in H; destruct H as [H _]). exact H.
Qed.

(** The status line of a well-formed [downloading] event that is not
    throttled. *)
Lemma hook_call_downloading (now : float) (self : EnhancedProgressHook) (d : dict) :
  well_formed_downloading d = true ->
  fltb (fsub now (last_update_time self)) fhalf = false ->
  exists (i : dict) (label percent size_done size_total speed eta name : string),
    dict_get d "info_dict" (VDict []) = VDict i /\
    next_label self i = Ok label /\
    percent_str (dict_get d "downloaded_bytes" (VInt 0))
      (py_or (dict_get d "total_bytes" VNone) (dict_get d "total_bytes_estimate" VNone))
      = Ok percent /\
    format_size (dict_get d "downloaded_bytes" (VInt 0)) = Ok size_done /\
    format_size (py_or (dict_get d "total_bytes" VNone)
                       (dict_get d "total_bytes_estimate" VNone)) = Ok size_total /\
    speed_str (dict_get d "speed" VNone) = Ok speed /\
    eta_str (dict_get d "eta" (VInt 0)) = Ok eta /\
    py_path_name (dict_get d "filename" (VStr "...")) = Ok name /\
    hook_call now d self =
    {| final := {| last_update_time := now; current_video_info := label |};
       trace := [Print (carriage_return ++ CYAN C ++ label ++ "⬇️  "
                          ++ percent ++ " | "
                          ++ size_done ++ "/" ++ size_total ++ " @ " ++ speed ++ " | "
                          ++ eta ++ " | " ++ take_chars 40 name ++ END_ C)];
       outcome := Ok tt |}.
Proof.
  intros Hwf Ht. pose proof (well_formed_status d Hwf) as Hs.
  unfold well_formed_downloading in Hwf. cbv zeta in Hwf.
  repeat (apply andb_prop in Hwf; destruct Hwf as [Hwf ?]).
  rename H into Heta, H0 into Hspeed, H1 into Hnum, H2 into Hname, H3 into Hlabel.
  destruct (label_ok_next self _ Hlabel) as (i & label & Hi & Hl).
  set (downloaded := dict_get d "downloaded_bytes" (VInt 0)) in *.
  set (total := py_or (dict_get d "total_bytes" VNone)
                      (dict_get d "total_bytes_estimate" VNone)) in *.
  destruct (percent_str_ok downloaded total Hnum) as [pc Hpc].
  destruct (speed_str_ok _ Hspeed) as [sp Hsp].
  destruct (eta_str_ok _ Heta) as [et Het].
  assert (Hsd : exists sd, format_size downloaded = Ok sd).
  { apply format_size_ok. destruct (truthy total); [|exact Hnum].
    apply andb_prop in Hnum. apply amount_size_ok. apply Hnum. }
  assert (Hst : exists st, format_size total = Ok st).
  { destruct (truthy total) eqn:E.
    - apply format_size_ok. apply andb_prop in Hnum. apply amount_size_ok. apply Hnum.
    - rewrite (falsy_size total E). eauto. }
  destruct Hsd as [sd Hsd]. destruct Hst as [st Hst].
  assert (Hnm : exists name, py_path_name (dict_get d "filename" (VStr "...")) = Ok name).
  { destruct (dict_get d "filename" (VStr "...")); try discriminate.
    cbn [py_path_name]. eauto. }
  destruct Hnm as [name Hnm].
  exists i, label, pc, sd, st, sp, et, name.
  repeat (split; [assumption|]).
  exact (hook_call_passed now self d i label name sp pc et sd st
           Hs Ht Hi Hl Hnm Hsp Hpc Het Hsd Hst).
Qed.


Lemma dict_get_found (d : dict) (k : string) (v default : value) :
  lookup d k = Some v -> dict_get d k default = v.
Proof. intros H. unfold dict_get. rewrite H. reflexivity. Qed.

Lemma dict_get_absent (d : dict) (k : string) (default : value) :
  lookup d k = None -> dict_get d k default = default.
Proof. intros H. unfold dict_get. rewrite H. reflexivity. Qed.


(** C4: a [finished] event prints exactly one completion line, whatever
    the time since the last status line and whatever the state: the
    line shows the current item label followed by "Completed: " and the
    last component of the file path (the text after its last slash), or
    "file" when the event carries no path; for every path the line is
    printed and the name shown has no slash; the hook's state is
    untouched. *)
Theorem hook_finished :
  (forall (now : float) (self : EnhancedProgressHook) (d i : dict) (dir name : string),
     eq_str (dict_get d "status" VNone) "finished" = true ->
     lookup d "info_dict" = Some (VDict i) ->
     lookup i "filepath" = Some (VStr (dir ++ "/" ++ name)) ->
     has_char "/" name = false -> name <> "" -> name <> "." ->
     let line := (newline ++ GREEN C ++ "✅ " ++ current_video_info self
                    ++ "Completed: " ++ name ++ END_ C) ++ newline in
     hook_call now d self =
       {| final := self; trace := [Print line]; outcome := Ok tt |} /\
     contains line name /\
     contains line (current_video_info self) /\
     contains line (current_video_info self ++ "Completed: " ++ name)) /\
  (forall (now : float) (self : EnhancedProgressHook) (d i : dict) (name : string),
     eq_str (dict_get d "status" VNone) "finished" = true ->
     lookup d "info_dict" = Some (VDict i) ->
     lookup i "filepath" = Some (VStr name) ->
     has_char "/" name = false -> name <> "" -> name <> "." ->
     hook_call now d self =
       {| final := self;
          trace := [Print ((newline ++ GREEN C ++ "✅ " ++ current_video_info self
                              ++ "Completed: " ++ name ++ END_ C) ++ newline)];
          outcome := Ok tt |}) /\
  (forall (now : float) (self : EnhancedProgressHook) (d : dict),
     eq_str (dict_get d "status" VNone) "finished" = true ->
     (lookup d "info_dict" = None \/
      exists i, lookup d "info_dict" = Some (VDict i) /\ lookup i "filepath" = None) ->
     hook_call now d self =
       {| final := self;
          trace := [Print ((newline ++ GREEN C ++ "✅ " ++ current_video_info self
                              ++ "Completed: " ++ "file" ++ END_ C) ++ newline)];
          outcome := Ok tt |}) /\
  (forall (now : float) (self : EnhancedProgressHook) (d i : dict) (p : string),
     eq_str (dict_get d "status" VNone) "finished" = true ->
     lookup d "info_dict" = Some (VDict i) ->
     lookup i "filepath" = Some (VStr p) ->
     exists shown : string,
       has_char "/" shown = false /\
       hook_call now d self =
         {| final := self;
            trace := [Print ((newline ++ GREEN C ++ "✅ " ++ current_video_info self
                                ++ "Completed: " ++ shown ++ END_ C) ++ newline)];
            outcome := Ok tt |}).
Proof.
  split; [|split; [|split]]; cycle 3.
  - intros now self d i p Hs Hi Hp. exists (path_name p).
    split; [apply path_name_no_slash|].
    exact (hook_call_finished now self d i p Hs
             (dict_get_found _ _ _ _ Hi) (dict_get_found _ _ _ _ Hp)).
  - intros now self d i dir name Hs Hi Hp Hn H1 H2 line.
    assert (Hc : hook_call now d self =
                 {| final := self; trace := [Print line]; outcome := Ok tt |}).
    { rewrite (hook_call_finished now self d i (dir ++ "/" ++ name) Hs
                 (dict_get_found _ _ _ _ Hi) (dict_get_found _ _ _ _ Hp)).
      rewrite (path_name_last dir name Hn H1 H2). reflexivity. }
    split; [exact Hc|]. unfold line. repeat split.
    + exists (newline ++ GREEN C ++ "✅ " ++ current_video_info self ++ "Completed: "),
             (END_ C ++ newline).
      rewrite !app_assoc_string. reflexivity.
    + exists (newline ++ GREEN C ++ "✅ "),
             ("Completed: " ++ name ++ END_ C ++ newline).
      rewrite !app_assoc_string. reflexivity.
    + exists (newline ++ GREEN C ++ "✅ "), (END_ C ++ newline).
      rewrite !app_assoc_string. reflexivity.
  - intros now self d i name Hs Hi Hp Hn H1 H2.
    rewrite (hook_call_finished now self d i name Hs
               (dict_get_found _ _ _ _ Hi) (dict_get_found _ _ _ _ Hp)).
    rewrite (path_name_bare name Hn H1 H2). reflexivity.
  - intros now self d Hs [Hnone|(i & Hi & Hp)].
    + apply (hook_call_finished now self d [] "file" Hs).
      * apply dict_get_absent. exact Hnone.
      * reflexivity.
    + apply (hook_call_finished now self d i "file" Hs).
      * apply dict_get_found. exact Hi.
      * apply dict_get_absent. exact Hp.
Qed.

(** C9: an event that is not [downloading] (finished, error, anything
    else) leaves [last_update_time] and [current_video_info] as they
    were; the state changes only on a [downloading] event that the
    throttle lets through; hence a [finished] event does not move the
    0.5 s window of the next [downloading] event. *)
Theorem hook_frame :
  (forall (now : float) (self : EnhancedProgressHook) (d : dict),
     eq_str (dict_get d "status" VNone) "downloading" = false ->
     final (hook_call now d self) = self) /\
  (forall (now : float) (self : EnhancedProgressHook) (d : dict),
     final (hook_call now d self) <> self ->
     eq_str (dict_get d "status" VNone) "downloading" = true /\
     fltb (fsub now (last_update_time self)) fhalf = false) /\
  (forall (now1 now2 : float) (self : EnhancedProgressHook) (d1 d2 : dict),
     eq_str (dict_get d1 "status" VNone) "downloading" = false ->
     hook_call now2 d2 (final (hook_call now1 d1 self)) = hook_call now2 d2 self).
Proof.
  split; [exact hook_call_frame|]. split.
  - intros now self d Hne.
    destruct (eq_str (dict_get d "status" VNone) "downloading") eqn:Hs.
    + split; [reflexivity|].
      destruct (fltb (fsub now (last_update_time self)) fhalf) eqn:Ht; [|reflexivity].
      exfalso. apply Hne. rewrite hook_call_throttled by assumption. reflexivity.
    + exfalso. apply Hne. apply hook_call_frame. exact Hs.
  - intros now1 now2 self d1 d2 Hs. rewrite hook_call_frame by exact Hs. reflexivity.
Qed.


End Hook.

(* ================================================================== *)
(** * display_content_info *)
(* ================================================================== *)










Section Display.
Context {RT : Runtime}.

(** What [display_content_info] prints for a collection whose title and
    creator have a text. *)
Lemma display_collection (info : dict) (es : list value) (t u : string) :
  is_collection info = true ->
  lookup info "entries" = Some (VList es) ->
  py_str py_repr (dict_get info "title" (VStr "Unknown Playlist")) = Ok t ->
  py_str py_repr (dict_get info "uploader" (VStr "Unknown Creator")) = Ok u ->
  display_content_info info tt =
  {| final := tt;
     trace :=
       [Print ((newline ++ WHITE C ++ BOLD C ++ "📊 Content Information:" ++ END_ C) ++ newline);
        Print (("   📋 Type:    " ++ CYAN C ++ "Playlist" ++ END_ C) ++ newline);
        Print (("   📋 Title:   " ++ CYAN C ++ t ++ END_ C) ++ newline);
        Print (("   👤 Creator: " ++ GREEN C ++ u ++ END_ C) ++ newline);
        Print (("   🎬 Videos:  " ++ YELLOW C
                  ++ dec (Z.of_nat (List.length (filter truthy es))) ++ END_ C) ++ newline)];
     outcome := Ok tt |}.
Proof.
  unfold is_collection. intros Hc He Ht Hu. unfold display_content_info.
  cbv zeta. apply bind_print_run. rewrite Hc. cbv beta iota.
  replace (dict_get info "entries" (VList [])) with (VList es)
    by (unfold dict_get; rewrite He; reflexivity).
  cbn [py_iter]. rewrite bind_lift_ok.
  apply bind_print_run. rewrite Ht, bind_lift_ok.
  apply bind_print_run. rewrite Hu, bind_lift_ok.
  apply bind_print_run. reflexivity.
Qed.





End Display.
(* ================================================================== *)
(** * get_content_info and main *)
(* ================================================================== *)

Lemma is_empty_result_none : is_empty_result VNone = Ok true.
Proof. reflexivity. Qed.

Lemma is_empty_result_no_entries (d : dict) (e : value) :
  lookup d "entries" = Some e -> truthy e = false ->
  is_empty_result (VDict d) = Ok true.
Proof.
  intros He Ht. unfold is_empty_result.
  destruct d as [|kv d']; [discriminate|]. cbn [truthy negb].
  cbn [py_contains py_getitem]. rewrite He. cbn [rbind]. rewrite Ht. reflexivity.
Qed.

Section Probe.
Context {RT : Runtime}.

Lemma get_content_info_fails (url : string) (ck : option string)
    (extracted : result value) (e : exn) :
  probe_fails_with extracted e ->
  get_content_info url ck extracted tt =
  {| final := tt;
     trace := probe_prefix url ck ++ probe_failure_lines url e;
     outcome := Ok VNone |}.
Proof.
  intros [He Hcase]. unfold get_content_info, probe_prefix.
  apply bind_print_run.
  assert (Hinner :
    try_except_extraction
      (bind (emit (ExtractInfo url ck))
         (fun _ => bind (lift extracted)
            (fun info => bind (lift (is_empty_result info))
               (fun empty : bool =>
                  if empty then lift (Raise (ExtractorError no_valid_videos))
                  else ret info))))
      (fun e0 =>
         bind (print (RED C ++ "❌ Failed to extract info: " ++ exception_text e0 ++ END_ C))
           (fun _ => bind (emit (LogError ("ExtractorError for URL '" ++ url ++ "': "
                                             ++ exception_text e0)))
              (fun _ => ret VNone))) tt
    = {| final := tt;
         trace := ExtractInfo url ck :: probe_failure_lines url e;
         outcome := Ok VNone |}).
  { unfold try_except_extraction. rewrite bind_emit.
    destruct Hcase as [->|(info & -> & Hempty & ->)].
    - rewrite bind_lift_raise. cbn [outcome final trace].
      destruct e; try discriminate; reflexivity.
    - rewrite bind_lift_ok, Hempty, bind_lift_ok. reflexivity. }
  destruct (option_truthy ck); cbn [when].
  - apply bind_print_run. rewrite Hinner. reflexivity.
  - rewrite bind_ret. rewrite Hinner. reflexivity.
Qed.

Lemma check_dependencies_run (found : bool) :
  check_dependencies found tt =
  {| final := tt;
     trace :=
       [Print ((BLUE C ++ "🔎 Checking for dependencies..." ++ END_ C) ++ newline);
        Print ((if found
                then GREEN C ++ "   - FFmpeg found (required for audio conversion)." ++ END_ C
                else YELLOW C ++ "   - ⚠️ FFmpeg not found. Audio-only downloads (e.g., MP3) will fail." ++ END_ C)
               ++ newline)];
     outcome := Ok found |}.
Proof. destruct found; reflexivity. Qed.

(** When the probe returns [None], [main] exits with status 1 right
    after it. *)
Lemma main_probe_none (args : Args) (w : World) (t : list event) :
  get_content_info (url args) (cookies_from_browser args) (extracted w) tt
    = {| final := tt; trace := t; outcome := Ok VNone |} ->
  main args w tt =
  {| final := tt;
     trace :=
       Print ((BOLD C ++ BLUE C ++ "🎥 Welcome to the Enhanced YouTube Downloader" ++ END_ C)
                ++ newline)
       :: Print ((BLUE C ++ repeat_string "=" 50 ++ END_ C) ++ newline)
       :: trace (check_dependencies (ffmpeg_found w) tt) ++ t;
     outcome := Raise (SystemExit 1) |}.
Proof.
  intros H. unfold main. do 2 apply bind_print_run.
  rewrite (bind_run _ _ _ _ _ _ (check_dependencies_run (ffmpeg_found w))).
  rewrite (bind_run _ _ _ _ _ _ H).
  cbn [truthy negb when]. unfold sys_exit. rewrite bind_lift_raise.
  cbn [final trace outcome]. rewrite check_dependencies_run. cbn [trace].
  rewrite app_nil_r. reflexivity.
Qed.

Lemma script_probe_none (args : Args) (w : World) (t : list event) :
  get_content_info (url args) (cookies_from_browser args) (extracted w) tt
    = {| final := tt; trace := t; outcome := Ok VNone |} ->
  script args w =
  {| final := tt;
     trace :=
       Print ((BOLD C ++ BLUE C ++ "🎥 Welcome to the Enhanced YouTube Downloader" ++ END_ C)
                ++ newline)
       :: Print ((BLUE C ++ repeat_string "=" 50 ++ END_ C) ++ newline)
       :: trace (check_dependencies (ffmpeg_found w) tt) ++ t;
     outcome := Ok 1 |}.
Proof.
  intros H. unfold script. rewrite (main_probe_none args w t H). reflexivity.
Qed.

(** C7: the probe treats an empty result (no descriptor, or a collection
    whose entry list is empty) as an extraction error; whenever the probe
    fails, [get_content_info] returns [None], the failure is printed, and
    the session exits with status 1 before the format menu or any
    download is reached. *)
Theorem probe_failure_aborts :
  is_empty_result VNone = Ok true /\
  (forall d, lookup d "entries" = Some (VList []) ->
             is_empty_result (VDict d) = Ok true) /\
  (forall (args : Args) (w : World) (e : exn),
     probe_fails_with (extracted w) e ->
     outcome (get_content_info (url args) (cookies_from_browser args)
                (extracted w) tt) = Ok VNone /\
     outcome (script args w) = Ok 1 /\
     In (Print ((RED C ++ "❌ Failed to extract info: " ++ exception_text e ++ END_ C)
                  ++ newline))
        (trace (script args w)) /\
     forallb (fun ev => negb (after_probe ev)) (trace (script args w)) = true).
Proof.
  split; [exact is_empty_result_none|]. split.
  - intros d Hd. apply (is_empty_result_no_entries d (VList [])); [exact Hd|reflexivity].
  - intros args w e Hf.
    pose proof (get_content_info_fails (url args) (cookies_from_browser args)
                  (extracted w) e Hf) as Hg.
    rewrite Hg. split; [reflexivity|].
    rewrite (script_probe_none args w _ Hg). cbn [outcome trace].
    split; [reflexivity|]. rewrite check_dependencies_run. cbn [trace].
    unfold probe_prefix, probe_failure_lines. split.
    + do 4 right. apply in_or_app. right.
      apply in_or_app. right. left. reflexivity.
    + destruct (option_truthy (cookies_from_browser args)); reflexivity.
Qed.

End Probe.
(* ================================================================== *)
(** * More on format_size *)
(* ================================================================== *)

Lemma scale_guard_false (fuel : nat) : forall (x : float) (i : nat),
  (4 - i < fuel)%nat ->
  fleb (Z2F 1024) (fst (scale fuel x i))
  && (snd (scale fuel x i) <? List.length units - 1)%nat = false.
Proof.
  induction fuel as [|fuel IH]; intros x i Hf; [lia|]. cbn [scale].
  destruct (fleb (Z2F 1024) x && (i <? List.length units - 1)%nat) eqn:G.
  - apply IH. apply andb_prop in G. destruct G as [_ G].
    apply Nat.ltb_lt in G. simpl in G. lia.
  - cbn [fst snd]. exact G.
Qed.

(** X1: the loop of [format_size] ends within the fuel it is given, with the
    value below 1024 or the last unit reached, and [format_size] returns
    a string for every float: NaN and the infinities included. *)
Theorem format_size_float_loop (x : float) :
  let r := scale (List.length units) x 0 in
  (fleb (Z2F 1024) (fst r) = false \/ snd r = 4%nat) /\
  (snd r <= 4)%nat /\
  exists u, nth_error units (snd r) = Some u /\
    format_size (VFloat x) =
      Ok (if fleb x (Z2F 0) then "N/A" else format_1f (fst r) ++ " " ++ u).
Proof.
  intros r.
  pose proof (scale_guard_false (List.length units) x 0 ltac:(simpl; lia)) as G.
  pose proof (scale_index_le (List.length units) x 0 ltac:(lia)) as Hi.
  fold r in G, Hi.
  assert (Hexit : fleb (Z2F 1024) (fst r) = false \/ snd r = 4%nat).
  { apply andb_false_iff in G. destruct G as [G|G]; [left; exact G|right].
    apply Nat.ltb_ge in G. simpl in G. lia. }
  split; [exact Hexit|]. split; [exact Hi|].
  destruct (unit_at_ok (snd r) Hi) as [u Hu]. unfold unit_at in Hu.
  destruct (nth_error units (snd r)) as [u'|] eqn:E; [|discriminate].
  exists u'. split; [reflexivity|].
  unfold format_size. cbn [as_number num_le_zero].
  destruct (fleb x (Z2F 0)); [reflexivity|].
  cbn [num_float rbind]. fold r. destruct r as [size i]. cbn [fst snd] in *.
  unfold unit_at. rewrite E. reflexivity.
Qed.

Lemma round_half_even_exact (a b : Z) : 0 < b -> round_half_even (a * b) b = a.
Proof.
  intros Hb. unfold round_half_even.
  rewrite Z.div_mul by lia. rewrite Z.mod_mul by lia.
  assert (H : (2 * 0 ?= b) = Lt) by (apply Z.compare_lt_iff; lia).
  rewrite H. reflexivity.
Qed.

(** X2: a size below 1024 bytes is shown as the integer itself, with ".0"
    and the unit "B". *)
Theorem format_size_bytes (n : Z) :
  0 < n < 1024 -> format_size (VInt n) = Ok (dec n ++ ".0 B").
Proof.
  intros [Hn Hlt].
  assert (H53 : n < 2 ^ 53).
  { assert (2 ^ 10 <= 2 ^ 53) by (apply Z.pow_le_mono_r; lia).
    change (2 ^ 10) with 1024 in H. lia. }
  destruct (Z2F_exact n (conj Hn H53)) as (m & Hm & Hd & Hmn).
  assert (Hx : float_of_int n = Ok (S754_finite false m (Zdigits2 n - 53))).
  { unfold float_of_int. rewrite Hm. reflexivity. }
  destruct (format_size_pos_int n _ Hn Hx) as (m' & e' & u & Hxe & Hu & Hf).
  cbv zeta in Hu, Hf. injection Hxe as <- <-.
  assert (Hlog : Z.log2 n < 10).
  { apply Z.log2_lt_pow2; [lia|]. change (2 ^ 10) with 1024. lia. }
  pose proof (Z.log2_nonneg n) as Hl0.
  assert (Hk : Z.min 4 (Z.log2 n / 10) = 0).
  { rewrite Z.div_small by lia. reflexivity. }
  rewrite Hk in Hu, Hf. injection Hu as <-.
  rewrite Hf. f_equal.
  assert (Hdig : 0 < Zdigits2 n <= 10).
  { rewrite Zdigits2_log2 by lia. lia. }
  replace (Zdigits2 n - 53 - 10 * 0) with (Zdigits2 n - 53) by lia.
  unfold format_1f, tenths.
  replace (0 <=? Zdigits2 n - 53) with false by (symmetry; apply Z.leb_gt; lia).
  rewrite Hmn. replace (- (Zdigits2 n - 53)) with (53 - Zdigits2 n) by lia.
  rewrite Z.mul_assoc.
  rewrite round_half_even_exact by (apply Z.pow_pos_nonneg; lia).
  replace (10 * n / 10) with n by (rewrite Z.mul_comm, Z.div_mul; lia).
  replace (10 * n mod 10) with 0 by (rewrite Z.mul_comm, Z.mod_mul; lia).
  cbn [sign_string]. change (dec 0) with "0".
  rewrite !app_assoc_string. reflexivity.
Qed.

Lemma format_size_bytes_witness : format_size (VInt 1023) = Ok (dec 1023 ++ ".0 B").
Proof. apply format_size_bytes. split; reflexivity. Defined.

(* ================================================================== *)
(** * More on the progress hook *)
(* ================================================================== *)

Section HookMore.
Context {RT : Runtime}.




Lemma hook_run_dropped (t0 : float) (self : EnhancedProgressHook)
    (burst : list (float * dict)) :
  last_update_time self = t0 ->
  Forall (fun td => eq_str (dict_get (snd td) "status" VNone) "downloading" = true /\
                    fltb (fsub (fst td) t0) fhalf = true) burst ->
  hook_run burst self = {| final := self; trace := []; outcome := Ok tt |}.
Proof.
  intros Hl Hb. induction Hb as [|[t d] rest [Hs Ht] _ IH]; [reflexivity|].
  cbn [hook_run fst snd] in *.
  rewrite (bind_run _ _ _ _ _ _ (hook_call_throttled t self d Hs ltac:(rewrite Hl; exact Ht))).
  rewrite IH. reflexivity.
Qed.

(** A dropped burst followed by one more event is that event alone. *)
Lemma hook_run_dropped_then (t0 tf : float) (self : EnhancedProgressHook) (f : dict)
    (burst : list (float * dict)) :
  last_update_time self = t0 ->
  Forall (fun td => eq_str (dict_get (snd td) "status" VNone) "downloading" = true /\
                    fltb (fsub (fst td) t0) fhalf = true) burst ->
  hook_run (burst ++ [(tf, f)]) self = hook_call tf f self.
Proof.
  intros Hl Hb. induction Hb as [|[t d] rest [Hs Ht] _ IH].
  - cbn [app hook_run]. unfold bind.
    destruct (hook_call tf f self) as [s1 t1 [[]|e]]; cbn [outcome final trace ret];
      [rewrite app_nil_r|]; reflexivity.
  - cbn [app hook_run fst snd] in *.
    rewrite (bind_run _ _ _ _ _ _ (hook_call_throttled t self d Hs ltac:(rewrite Hl; exact Ht))).
    rewrite IH. cbn [app]. apply run_eta.
Qed.

(** X6: a burst of [downloading] events that all arrive within 0.5 s of a
    printed one is dropped whole, however long it is: the run prints the
    one status line of the first event, and a [finished] event that
    follows prints the one completion line, with the label the first
    event left. *)
Theorem hook_run_burst (t0 tf : float) (self : EnhancedProgressHook) (d0 f i : dict)
    (dir name : string) (burst : list (float * dict)) :
  well_formed_downloading d0 = true ->
  fltb (fsub t0 (last_update_time self)) fhalf = false ->
  Forall (fun td => eq_str (dict_get (snd td) "status" VNone) "downloading" = true /\
                    fltb (fsub (fst td) t0) fhalf = true) burst ->
  eq_str (dict_get f "status" VNone) "finished" = true ->
  lookup f "info_dict" = Some (VDict i) ->
  lookup i "filepath" = Some (VStr (dir ++ "/" ++ name)) ->
  has_char "/" name = false -> name <> "" -> name <> "." ->
  hook_run ((t0, d0) :: burst) self = hook_call t0 d0 self /\
  exists label percent size_done size_total speed eta file : string,
    let status_line :=
      carriage_return ++ CYAN C ++ label ++ "⬇️  "
        ++ percent ++ " | "
        ++ size_done ++ "/" ++ size_total ++ " @ " ++ speed ++ " | "
        ++ eta ++ " | " ++ take_chars 40 file ++ END_ C in
    let completion_line :=
      (newline ++ GREEN C ++ "✅ " ++ label ++ "Completed: " ++ name ++ END_ C)
        ++ newline in
    percent_str (dict_get d0 "downloaded_bytes" (VInt 0))
      (py_or (dict_get d0 "total_bytes" VNone)
             (dict_get d0 "total_bytes_estimate" VNone)) = Ok percent /\
    format_size (dict_get d0 "downloaded_bytes" (VInt 0)) = Ok size_done /\
    format_size (py_or (dict_get d0 "total_bytes" VNone)
                       (dict_get d0 "total_bytes_estimate" VNone)) = Ok size_total /\
    speed_str (dict_get d0 "speed" VNone) = Ok speed /\
    eta_str (dict_get d0 "eta" (VInt 0)) = Ok eta /\
    py_path_name (dict_get d0 "filename" (VStr "...")) = Ok file /\
    hook_run ((t0, d0) :: burst) self
      = {| final := {| last_update_time := t0; current_video_info := label |};
           trace := [Print status_line]; outcome := Ok tt |} /\
    hook_run ((t0, d0) :: burst ++ [(tf, f)]) self
      = {| final := {| last_update_time := t0; current_video_info := label |};
           trace := [Print status_line; Print completion_line]; outcome := Ok tt |}.
Proof.
  intros Hwf Ht Hb Hfs Hfi Hfp Hn H1 H2.
  destruct (hook_call_downloading t0 self d0 Hwf Ht)
    as (i0 & label & pc & sd & st & sp & et & nm & _ & _ & Hpc & Hsd & Hst
        & Hsp & Het & Hnm & Hc).
  set (s1 := {| last_update_time := t0; current_video_info := label |}) in *.
  assert (Hfin : hook_call tf f s1 =
                 {| final := s1;
                    trace := [Print ((newline ++ GREEN C ++ "✅ " ++ label
                                        ++ "Completed: " ++ name ++ END_ C) ++ newline)];
                    outcome := Ok tt |}).
  { rewrite (hook_call_finished tf s1 f i (dir ++ "/" ++ name) Hfs
               (dict_get_found _ _ _ _ Hfi) (dict_get_found _ _ _ _ Hfp)).
    rewrite (path_name_last dir name Hn H1 H2). reflexivity. }
  assert (Hrun : hook_run ((t0, d0) :: burst) self = hook_call t0 d0 self).
  { cbn [hook_run]. rewrite (bind_run _ _ _ _ _ _ Hc).
    rewrite (hook_run_dropped t0 s1 burst eq_refl Hb). cbn [final trace outcome].
    rewrite Hc, app_nil_r. reflexivity. }
  split; [exact Hrun|].
  exists label, pc, sd, st, sp, et, nm. cbv zeta.
  repeat (split; [assumption|]). split.
  - rewrite Hrun. exact Hc.
  - cbn [hook_run app]. rewrite (bind_run _ _ _ _ _ _ Hc).
    rewrite (hook_run_dropped_then t0 tf s1 f burst eq_refl Hb).
    rewrite Hfin. reflexivity.
Qed.

End HookMore.

(* ================================================================== *)
(** * More on the probe and the session *)
(* ================================================================== *)

Section ProbeMore.
Context {RT : Runtime}.

Lemma get_content_info_inner (url : string) (ck : option string)
    (extracted : result value) (o : result value) :
  (forall e, o = Raise e -> is_extraction_error e = false) ->
  o = match extracted with
      | Ok info => match is_empty_result info with
                   | Ok true => Raise (ExtractorError no_valid_videos)
                   | Ok false => Ok info
                   | Raise e => Raise e
                   end
      | Raise e => Raise e
      end ->
  get_content_info url ck extracted tt =
  {| final := tt; trace := probe_prefix url ck; outcome := o |}.
Proof.
  intros Hne Ho. unfold get_content_info, probe_prefix.
  apply bind_print_run.
  assert (Hinner : forall h,
    try_except_extraction
      (bind (emit (ExtractInfo url ck))
         (fun _ => bind (lift extracted)
            (fun info => bind (lift (is_empty_result info))
               (fun empty : bool =>
                  if empty then lift (Raise (ExtractorError no_valid_videos))
                  else ret info)))) h tt
    = {| final := tt; trace := [ExtractInfo url ck]; outcome := o |}).
  { intros h. unfold try_except_extraction. rewrite bind_emit.
    destruct extracted as [info|e].
    - rewrite bind_lift_ok. destruct (is_empty_result info) as [[|]|e].
      + specialize (Hne _ Ho). discriminate.
      + rewrite bind_lift_ok. subst o. reflexivity.
      + rewrite bind_lift_raise. cbn [outcome final trace]. subst o.
        specialize (Hne e eq_refl). destruct e; try discriminate; reflexivity.
    - rewrite bind_lift_raise. cbn [outcome final trace]. subst o.
      specialize (Hne e eq_refl). destruct e; try discriminate; reflexivity. }
  destruct (option_truthy ck); cbn [when].
  - apply bind_print_run. rewrite Hinner. reflexivity.
  - rewrite bind_ret. rewrite Hinner. reflexivity.
Qed.

Lemma get_content_info_returns (url : string) (ck : option string) (info : value) :
  is_empty_result info = Ok false ->
  get_content_info url ck (Ok info) tt =
  {| final := tt; trace := probe_prefix url ck; outcome := Ok info |}.
Proof.
  intros H. apply get_content_info_inner.
  - intros e He. discriminate.
  - rewrite H. reflexivity.
Qed.

Lemma get_content_info_uncaught (url : string) (ck : option string) (e : exn) :
  is_extraction_error e = false ->
  get_content_info url ck (Raise e) tt =
  {| final := tt; trace := probe_prefix url ck; outcome := Raise e |}.
Proof.
  intros H. apply get_content_info_inner.
  - intros e' He. injection He as <-. exact H.
  - reflexivity.
Qed.

(** X7: what [get_content_info] does besides failing: a non-empty result is
    returned as it is, with nothing printed after the probe; an exception
    other than [ExtractorError] and [DownloadError] is not caught. *)
Theorem get_content_info_outcomes (url : string) (ck : option string) :
  (forall info, is_empty_result info = Ok false ->
     get_content_info url ck (Ok info) tt =
     {| final := tt; trace := probe_prefix url ck; outcome := Ok info |}) /\
  (forall e, is_extraction_error e = false ->
     get_content_info url ck (Raise e) tt =
     {| final := tt; trace := probe_prefix url ck; outcome := Raise e |}) /\
  (forall info e, is_empty_result info = Raise e ->
     get_content_info url ck (Ok info) tt =
     {| final := tt; trace := probe_prefix url ck; outcome := Raise e |}).
Proof.
  split; [|split].
  - intros info H. apply get_content_info_returns. exact H.
  - intros e H. apply get_content_info_uncaught. exact H.
  - intros info e H. apply get_content_info_inner.
    + intros e' He. injection He as <-.
      unfold is_empty_result in H.
      destruct (negb (truthy info)); [discriminate|].
      destruct (py_contains "entries" info) as [[|]|e0] eqn:Ec; cbn [rbind] in H.
      * destruct (py_getitem info "entries") as [v|e1] eqn:Eg; cbn [rbind] in H;
          [discriminate|].
        injection H as <-. destruct info; cbn in Eg; try discriminate;
          try (injection Eg as <-; reflexivity).
        destruct (lookup d "entries"); [discriminate|]. injection Eg as <-. reflexivity.
      * discriminate.
      * injection H as <-. destruct info; cbn in Ec; try discriminate;
          injection Ec as <-; reflexivity.
    + rewrite H. reflexivity.
Qed.

(** [main] up to the probe: the banner, the dependency check, the probe. *)
Lemma main_probe_run (args : Args) (w : World) (t : list event) (o : result value)
    (k : bool -> value -> prog unit unit) :
  get_content_info (url args) (cookies_from_browser args) (extracted w) tt
    = {| final := tt; trace := t; outcome := o |} ->
  bind (print (BOLD C ++ BLUE C ++ "🎥 Welcome to the Enhanced YouTube Downloader" ++ END_ C))
    (fun _ => bind (print (BLUE C ++ repeat_string "=" 50 ++ END_ C))
       (fun _ => bind (check_dependencies (ffmpeg_found w))
          (fun has_ffmpeg =>
             bind (get_content_info (url args) (cookies_from_browser args) (extracted w))
               (k has_ffmpeg)))) tt =
  match o with
  | Ok info => {| final := final (k (ffmpeg_found w) info tt);
                  trace := session_prefix w ++ t ++ trace (k (ffmpeg_found w) info tt);
                  outcome := outcome (k (ffmpeg_found w) info tt) |}
  | Raise e => {| final := tt; trace := session_prefix w ++ t; outcome := Raise e |}
  end.
Proof.
  intros H. rewrite !bind_print.
  rewrite (bind_run _ _ _ _ _ _ (check_dependencies_run (ffmpeg_found w))).
  rewrite (bind_run_any _ _ _ _ _ _ H).
  destruct o; reflexivity.
Qed.

(** X8: an exception that escapes the probe ends the session without menu
    or download: a keyboard interrupt with exit status 0 and the goodbye
    line, any other exception with exit status 1, the fatal-error line
    and a critical log entry. *)
Theorem script_probe_exception (args : Args) (w : World) (e : exn) :
  extracted w = Raise e ->
  is_extraction_error e = false ->
  (e = KeyboardInterrupt ->
   script args w =
   {| final := tt;
      trace := (session_prefix w ++ probe_prefix (url args) (cookies_from_browser args))
               ++ [Print (newline ++ YELLOW C ++ "👋 Download cancelled by user. Goodbye!"
                            ++ END_ C ++ newline)];
      outcome := Ok 0 |}) /\
  ((forall code, e <> SystemExit code) -> e <> KeyboardInterrupt ->
   script args w =
   {| final := tt;
      trace := (session_prefix w ++ probe_prefix (url args) (cookies_from_browser args))
               ++ [Print (RED C ++ "❌ A fatal, unexpected error occurred: "
                            ++ exception_text e ++ END_ C ++ newline);
                   LogCritical ("Fatal error in main execution: " ++ exception_text e)];
      outcome := Ok 1 |}).
Proof.
  intros Hx He.
  assert (Hg : get_content_info (url args) (cookies_from_browser args) (extracted w) tt
               = {| final := tt;
                    trace := probe_prefix (url args) (cookies_from_browser args);
                    outcome := Raise e |}).
  { rewrite Hx. apply get_content_info_uncaught. exact He. }
  assert (Hm : main args w tt =
               {| final := tt;
                  trace := session_prefix w
                           ++ probe_prefix (url args) (cookies_from_browser args);
                  outcome := Raise e |}).
  { unfold main. rewrite (main_probe_run args w _ _ _ Hg). reflexivity. }
  split.
  - intros ->. unfold script. rewrite Hm. reflexivity.
  - intros Hse Hki. unfold script. rewrite Hm. cbn [outcome trace].
    destruct e; try reflexivity.
    + exfalso. apply Hki. reflexivity.
    + exfalso. apply (Hse code). reflexivity.
Qed.

(** X9: after a successful probe the session shows the summary, then the
    menu, then (only when a format was chosen) starts the download; with
    no format chosen it says so and exits with status 0 without
    downloading. *)
Theorem script_session (args : Args) (w : World) (d : dict) (shown : list event) :
  extracted w = Ok (VDict d) ->
  is_empty_result (VDict d) = Ok false ->
  display_content_info d tt = {| final := tt; trace := shown; outcome := Ok tt |} ->
  (forall f, selected w = Ok (Some f) -> f <> "" -> downloaded w = Ok tt ->
     script args w =
     {| final := tt;
        trace := session_prefix w
                 ++ probe_prefix (url args) (cookies_from_browser args)
                 ++ shown
                 ++ [SelectFormat (ffmpeg_found w); DownloadContent (url args) f];
        outcome := Ok 0 |}) /\
  (selected w = Ok None ->
     script args w =
     {| final := tt;
        trace := session_prefix w
                 ++ probe_prefix (url args) (cookies_from_browser args)
                 ++ shown
                 ++ [SelectFormat (ffmpeg_found w);
                     Print ((YELLOW C ++ "👋 No format selected. Exiting." ++ END_ C)
                              ++ newline)];
        outcome := Ok 0 |}).
Proof.
  intros Hx Hne Hshow.
  assert (Hg : get_content_info (url args) (cookies_from_browser args) (extracted w) tt
               = {| final := tt;
                    trace := probe_prefix (url args) (cookies_from_browser args);
                    outcome := Ok (VDict d) |}).
  { rewrite Hx. apply get_content_info_returns. exact Hne. }
  assert (Htruthy : truthy (VDict d) = true).
  { unfold is_empty_result in Hne. destruct (truthy (VDict d)); [reflexivity|discriminate]. }
  split.
  - intros f Hsel Hf Hdl. unfold script, main.
    rewrite (main_probe_run args w _ _ _ Hg).
    rewrite Htruthy. cbn [negb when]. rewrite bind_ret, bind_lift_ok.
    rewrite (bind_run _ _ _ _ _ _ Hshow). rewrite bind_emit. rewrite Hsel, bind_lift_ok.
    cbn [option_truthy]. replace (String.eqb f "") with false
      by (symmetry; apply String.eqb_neq; exact Hf).
    cbn [negb when]. rewrite bind_ret. rewrite bind_emit. rewrite Hdl.
    cbn [lift final trace outcome app]. reflexivity.
  - intros Hsel. unfold script, main.
    rewrite (main_probe_run args w _ _ _ Hg).
    rewrite Htruthy. cbn [negb when]. rewrite bind_ret, bind_lift_ok.
    rewrite (bind_run _ _ _ _ _ _ Hshow). rewrite bind_emit. rewrite Hsel, bind_lift_ok.
    cbn [option_truthy negb when].
    unfold sys_exit. rewrite (bind_run_raise _ _ tt tt
      [Print ((YELLOW C ++ "👋 No format selected. Exiting." ++ END_ C) ++ newline)]
      (SystemExit 0)); [reflexivity|].
    rewrite bind_print. reflexivity.
Qed.

(** X10: a collection whose entries are all [None] is not an empty result:
    the probe succeeds and, the title and the creator having a text, the
    summary shows 0 videos. *)
Theorem all_null_collection (url : string) (ck : option string) (d : dict)
    (es : list value) (t u : string) :
  is_collection d = true ->
  lookup d "entries" = Some (VList es) ->
  es <> [] ->
  Forall (fun e => e = VNone) es ->
  py_str py_repr (dict_get d "title" (VStr "Unknown Playlist")) = Ok t ->
  py_str py_repr (dict_get d "uploader" (VStr "Unknown Creator")) = Ok u ->
  outcome (get_content_info url ck (Ok (VDict d)) tt) = Ok (VDict d) /\
  nth_error (trace (display_content_info d tt)) 4
    = Some (Print (("   🎬 Videos:  " ++ YELLOW C ++ "0" ++ END_ C) ++ newline)).
Proof.
  intros Hc He Hne Hall Ht Hu. split.
  - assert (Hr : is_empty_result (VDict d) = Ok false).
    { unfold is_empty_result. destruct d as [|kv d']; [discriminate|].
      cbn [truthy negb py_contains py_getitem]. rewrite He. cbn [rbind truthy].
      destruct es; [contradiction|reflexivity]. }
    rewrite (get_content_info_returns url ck _ Hr). reflexivity.
  - rewrite (display_collection d es t u Hc He Ht Hu). cbn [trace nth_error].
    assert (Hf : filter truthy es = []).
    { clear -Hall. induction Hall as [|e es -> _ IH]; [reflexivity|].
      cbn [filter truthy]. exact IH. }
    rewrite Hf. reflexivity.
Qed.

End ProbeMore.

(* ================================================================== *)
(** * More on format_duration *)
(* ================================================================== *)

Lemma format_02d_two_digits (n : Z) :
  0 <= n < 100 -> String.length (format_02d n) = 2%nat.
Proof.
  intros Hn.
  assert (Hall : forallb (fun k => Nat.eqb (String.length (format_02d (Z.of_nat k))) 2)
                   (seq 0 100) = true) by (vm_compute; reflexivity).
  rewrite forallb_forall in Hall.
  specialize (Hall (Z.to_nat n)).
  rewrite Z2Nat.id in Hall by lia.
  apply Nat.eqb_eq. apply Hall. apply in_seq. lia.
Qed.

(** X14: below one hour the duration is exactly mm:ss, two digits each; from
    one hour up to a hundred hours it is exactly hh:mm:ss. *)
Theorem format_duration_shape (s : Z) :
  (0 < s < 3600 ->
   exists mm ss, format_duration (VInt s) = Ok (mm ++ ":" ++ ss) /\
                 String.length mm = 2%nat /\ String.length ss = 2%nat) /\
  (3600 <= s < 360000 ->
   exists hh mm ss, format_duration (VInt s) = Ok (hh ++ ":" ++ mm ++ ":" ++ ss) /\
                    String.length hh = 2%nat /\ String.length mm = 2%nat /\
                    String.length ss = 2%nat).
Proof.
  assert (Hlim : forall k, k < 360000 -> k < 3600 * str_limit).
  { intros k Hk. pose proof str_limit_large as L.
    assert (H10 : 2 ^ 10 <= 2 ^ 1024) by (apply Z.pow_le_mono_r; lia).
    change (2 ^ 10) with 1024 in H10. lia. }
  split; intros Hs.
  - destruct (hms_decomposition s ltac:(lia)) as (Hd & Hh & Hm & Hsec).
    rewrite format_duration_positive by (try apply Hlim; lia).
    assert (H0 : s / 3600 = 0) by (apply Z.div_small; lia).
    rewrite H0. cbn [Z.ltb Z.compare].
    exists (format_02d (s mod 3600 / 60)), (format_02d (s mod 60)).
    split; [reflexivity|]. split; apply format_02d_two_digits; lia.
  - destruct (hms_decomposition s ltac:(lia)) as (Hd & Hh & Hm & Hsec).
    rewrite format_duration_positive by (try apply Hlim; lia).
    assert (H1 : 1 <= s / 3600 < 100).
    { split; [apply Z.div_le_lower_bound; lia|apply Z.div_lt_upper_bound; lia]. }
    replace (0 <? s / 3600) with true by (symmetry; apply Z.ltb_lt; lia).
    exists (format_02d (s / 3600)), (format_02d (s mod 3600 / 60)), (format_02d (s mod 60)).
    split; [reflexivity|]. repeat split; apply format_02d_two_digits; lia.
Qed.


(** X15: on floats, [format_duration] returns "N/A" for every value that
    is not positive, a string for every positive finite value below
    2^1000, and raises [ValueError] on NaN and on the positive infinity,
    whose floor quotient is NaN; 12.5 seconds give "00:12". *)
Theorem format_duration_floats :
  (forall x : float, fleb x (Z2F 0) = true -> format_duration (VFloat x) = Ok "N/A") /\
  (forall x : float, moderate x = true -> exists s, format_duration (VFloat x) = Ok s) /\
  format_duration (VFloat S754_nan) = Raise ValueError /\
  format_duration (VFloat (S754_infinity false)) = Raise ValueError /\
  format_duration (VFloat (fdiv (Z2F 25) (Z2F 2))) = Ok "00:12".
Proof.
  split; [|split].
  - intros x H. unfold format_duration. cbn [as_number num_le_zero]. rewrite H. reflexivity.
  - intros x H. apply format_duration_float. rewrite H. apply orb_true_r.
  - repeat split; vm_compute; reflexivity.
Qed.

Lemma format_duration_floats_witness :
  exists s, format_duration (VFloat (fdiv (Z2F 7) (Z2F 2))) = Ok s.
Proof.
  apply (proj1 (proj2 format_duration_floats)). vm_compute. reflexivity.
Defined.
(* ================================================================== *)
(** * The collection directory and select_format *)
(* ================================================================== *)

Lemma has_char_app (c : ascii) (a b : string) :
  has_char c (a ++ b) = has_char c a || has_char c b.
Proof.
  induction a as [|x a IH]; cbn [append has_char]; [reflexivity|].
  rewrite IH. apply orb_assoc.
Qed.

Lemma has_char_take (c : ascii) (n : nat) (s : string) :
  has_char c s = false -> has_char c (take_chars n s) = false.
Proof.
  intros H. destruct (take_chars_prefix s n) as [rest Hr].
  rewrite Hr, has_char_app in H. apply orb_false_iff in H. tauto.
Qed.

Lemma replace_forbidden_clean (c : ascii) (s : string) :
  is_forbidden c = true -> has_char c (replace_forbidden s) = false.
Proof.
  intros Hc. induction s as [|x s IH]; cbn [replace_forbidden has_char]; [reflexivity|].
  rewrite IH, orb_false_r.
  destruct (is_forbidden x) eqn:Ex.
  - destruct (Ascii.eqb_spec "_"%char c) as [<-|]; [discriminate|reflexivity].
  - destruct (Ascii.eqb_spec x c) as [<-|]; [congruence|reflexivity].
Qed.

Lemma replace_forbidden_id (s : string) :
  (forall c, is_forbidden c = true -> has_char c s = false) ->
  replace_forbidden s = s.
Proof.
  induction s as [|x s IH]; intros H; cbn [replace_forbidden]; [reflexivity|].
  destruct (is_forbidden x) eqn:Ex.
  - specialize (H x Ex). cbn [has_char] in H. rewrite Ascii.eqb_refl in H. discriminate.
  - rewrite IH; [reflexivity|]. intros c Hc. specialize (H c Hc).
    cbn [has_char] in H. apply orb_false_iff in H. tauto.
Qed.

(** X11: the directory name of a collection contains none of the characters
    of the class (so no slash: it is a single path component), has at
    most 60 code points, and is left as it is when it is sanitized
    again; a title that is not a string raises [TypeError]. *)
Theorem playlist_title_safe (info : dict) (t : string) :
  playlist_title info = Ok t ->
  (forall c, is_forbidden c = true -> has_char c t = false) /\
  has_char "/" t = false /\
  (code_points t <= 60)%nat /\
  playlist_title [("title", VStr t)] = Ok t.
Proof.
  unfold playlist_title. destruct (dict_get info "title" _) as [| | | |s| |];
    try discriminate.
  intros H. injection H as <-.
  assert (Hclean : forall c, is_forbidden c = true ->
                     has_char c (take_chars 60 (replace_forbidden s)) = false).
  { intros c Hc. apply has_char_take. apply replace_forbidden_clean. exact Hc. }
  split; [exact Hclean|]. split; [apply Hclean; reflexivity|].
  split; [apply take_chars_code_points|].
  cbn [dict_get lookup String.eqb Ascii.eqb Bool.eqb].
  rewrite (replace_forbidden_id _ Hclean).
  rewrite take_chars_all; [reflexivity|apply take_chars_code_points].
Qed.

Section Select.
Context {RT : Runtime}.

Lemma find_option_in (options : list FormatOption) (key : string) (o : FormatOption) :
  find_option options key = Some o -> In o options /\ option_key o = key.
Proof.
  induction options as [|x rest IH]; cbn [find_option]; [discriminate|].
  destruct (String.eqb_spec (option_key x) key) as [E|E].
  - intros H. injection H as <-. split; [left; reflexivity|exact E].
  - intros H. destruct (IH H). split; [right; assumption|assumption].
Qed.

Lemma outcome_bind_print {B} (text : string) (k : unit -> prog unit B) :
  outcome (bind (print text) k tt) = outcome (k tt tt).
Proof. reflexivity. Qed.

Lemma outcome_bind_print_noend {B} (text : string) (k : unit -> prog unit B) :
  outcome (bind (print_noend text) k tt) = outcome (k tt tt).
Proof. reflexivity. Qed.

Lemma print_options_run (options : list FormatOption) :
  outcome (print_options options tt) = Ok tt /\ final (print_options options tt) = tt.
Proof.
  induction options as [|o rest IH]; cbn [print_options]; [split; reflexivity|].
  rewrite bind_print. cbn [outcome final]. exact IH.
Qed.

Lemma select_format_outcome (has_ffmpeg : bool) (inputs : list string) :
  outcome (select_format has_ffmpeg inputs tt)
  = outcome (choose_format (format_options has_ffmpeg) inputs tt).
Proof.
  unfold select_format. rewrite outcome_bind_print.
  destruct (print_options_run (format_options has_ffmpeg)) as [Ho Hf].
  unfold bind at 1. rewrite Ho. cbn [outcome]. rewrite Hf.
  destruct (choose_format _ inputs tt); reflexivity.
Qed.

(** One turn of the loop. *)
Lemma choose_format_step (options : list FormatOption) (line : string)
    (rest : list string) :
  outcome (choose_format options (line :: rest) tt) =
  if is_quit (py_strip line) then Ok None
  else match find_option options (py_strip line) with
       | Some o => Ok (Some (option_format o))
       | None => outcome (choose_format options rest tt)
       end.
Proof.
  cbn [choose_format]. rewrite outcome_bind_print_noend. cbv zeta.
  destruct (is_quit (py_strip line)); [reflexivity|].
  destruct (find_option options (py_strip line)) as [o|].
  - rewrite outcome_bind_print. reflexivity.
  - rewrite outcome_bind_print. destruct rest; reflexivity.
Qed.

Lemma choose_format_sound (options : list FormatOption) (inputs : list string)
    (f : string) :
  outcome (choose_format options inputs tt) = Ok (Some f) ->
  exists o, In o options /\ option_format o = f.
Proof.
  induction inputs as [|line rest IH].
  - cbn [choose_format]. rewrite outcome_bind_print_noend. discriminate.
  - rewrite choose_format_step.
    destruct (is_quit (py_strip line)); [discriminate|].
    destruct (find_option options (py_strip line)) as [o|] eqn:E.
    + intros H. injection H as <-. exists o.
      split; [apply (find_option_in _ _ _ E)|reflexivity].
    + exact IH.
Qed.

(** X12: whatever the user types, [select_format] returns only formats of its
    menu, and the audio-only format only when FFmpeg is available. *)
Theorem select_format_sound (has_ffmpeg : bool) (inputs : list string) (f : string) :
  outcome (select_format has_ffmpeg inputs tt) = Ok (Some f) ->
  In f (map option_format (format_options has_ffmpeg)) /\
  (f = "bestaudio/best" -> has_ffmpeg = true).
Proof.
  rewrite select_format_outcome. intros H.
  destruct (choose_format_sound _ _ _ H) as (o & Ho & <-).
  split; [apply in_map; exact Ho|].
  intros Hf. destruct has_ffmpeg; [reflexivity|exfalso].
  cbn [format_options app] in Ho.
  destruct Ho as [<-|[<-|[<-|[]]]]; cbn [option_format] in Hf; discriminate.
Qed.

(** X13: the turns of [select_format]: "q" or "quit" in any case, with any
    white space around it, gives [None]; a key of the menu gives its
    format; any other line is skipped and the next one is read; when the
    lines run out [input] raises [EOFError]; "4" is a key only with
    FFmpeg. *)
Theorem select_format_turns (has_ffmpeg : bool) (line : string) (rest : list string) :
  (is_quit (py_strip line) = true ->
   outcome (select_format has_ffmpeg (line :: rest) tt) = Ok None) /\
  (forall o, is_quit (py_strip line) = false ->
             find_option (format_options has_ffmpeg) (py_strip line) = Some o ->
             outcome (select_format has_ffmpeg (line :: rest) tt)
               = Ok (Some (option_format o))) /\
  (is_quit (py_strip line) = false ->
   find_option (format_options has_ffmpeg) (py_strip line) = None ->
   outcome (select_format has_ffmpeg (line :: rest) tt)
     = outcome (select_format has_ffmpeg rest tt)) /\
  outcome (select_format has_ffmpeg [] tt) = Raise EOFError /\
  (find_option (format_options has_ffmpeg) "4" = None <-> has_ffmpeg = false).
Proof.
  rewrite !select_format_outcome, choose_format_step.
  split; [intros ->; reflexivity|].
  split; [intros o -> ->; reflexivity|].
  split; [intros -> ->; reflexivity|].
  split; [reflexivity|].
  destruct has_ffmpeg; split; intros H; try reflexivity; discriminate.
Qed.

End Select.


(* ================================================================== *)
(** * The theorems at concrete inputs *)
(* ================================================================== *)


(** The claim as stated fails on an event whose ETA has an hour count
    of 4301 digits: the event arrives 0.5 s or more after the last line
    and its time is recorded, but no status line is written; the call
    raises [ValueError]. *)
Lemma hook_no_line_on_huge_eta :
  eq_str (dict_get sample_huge_eta "status" VNone) "downloading" = true /\
  fltb (fsub (tenths_of_second 17000000000) (last_update_time hook_init)) fhalf = false /\
  hook_call (RT := plain_runtime) (tenths_of_second 17000000000) sample_huge_eta hook_init
    = {| final := {| last_update_time := tenths_of_second 17000000000;
                     current_video_info := "" |};
         trace := []; outcome := Raise ValueError |}.
Proof. vm_compute. repeat split. Qed.

Lemma hook_finished_witness :
  hook_call (RT := plain_runtime) (tenths_of_second 17000000001) sample_finished
    sample_labelled
  = {| final := sample_labelled;
       trace := [Print (newline ++ "✅ [2/7] Completed: clip.mp4" ++ newline)];
       outcome := Ok tt |} /\
  contains (newline ++ "✅ [2/7] Completed: clip.mp4" ++ newline) "clip.mp4" /\
  contains (newline ++ "✅ [2/7] Completed: clip.mp4" ++ newline) "[2/7] ".
Proof.
  destruct (proj1 (hook_finished (RT := plain_runtime))
              (tenths_of_second 17000000001) sample_labelled sample_finished
              [("filepath", VStr "/tmp/dl/clip.mp4")] "/tmp/dl" "clip.mp4"
              eq_refl eq_refl eq_refl eq_refl
              ltac:(discriminate) ltac:(discriminate))
    as (Hc & Hn & Hl & _).
  split; [exact Hc|]. split; [exact Hn|exact Hl].
Defined.

Lemma hook_frame_witness :
  final (hook_call (RT := plain_runtime) (Z2F 0) sample_finished hook_init) = hook_init.
Proof.
  apply (proj1 (hook_frame (RT := plain_runtime))). reflexivity.
Defined.


(** The claim as stated fails on a speed beyond the double range: the
    conversion to a float raises inside [format_size], and the hook has
    no handler. *)
Lemma hook_raises_on_huge_speed :
  hook_call (RT := plain_runtime) (tenths_of_second 17000000000)
    sample_huge_speed hook_init
  = {| final := {| last_update_time := tenths_of_second 17000000000;
                   current_video_info := "" |};
       trace := []; outcome := Raise OverflowError |}.
Proof. vm_compute. reflexivity. Qed.



(** The claim as stated fails on a single item whose duration has an
    hour count of 4301 digits: four lines are printed, then the
    formatter raises [ValueError] and no duration is shown. *)
Lemma display_raises_on_huge_duration :
  is_collection sample_long_video = false /\
  outcome (display_content_info (RT := plain_runtime) sample_long_video tt)
    = Raise ValueError /\
  List.length (trace (display_content_info (RT := plain_runtime) sample_long_video tt))
    = 4%nat.
Proof. vm_compute. repeat split. Qed.


(** The claim as stated fails on a collection with an empty record
    among its entries: one entry is not [None], yet the count shown
    is 0. *)
Lemma display_counts_truthy_only :
  is_collection sample_empty_entry = true /\
  lookup sample_empty_entry "entries" = Some (VList [VDict []; VNone]) /\
  non_null_count [VDict []; VNone] = 1%nat /\
  nth_error (trace (display_content_info (RT := plain_runtime) sample_empty_entry tt)) 4
    = Some (Print ("   🎬 Videos:  " ++ "0" ++ newline)).
Proof. vm_compute. repeat split. Qed.

Lemma probe_failure_aborts_witness :
  probe_fails_with (extracted sample_world) (ExtractorError no_valid_videos) /\
  outcome (script (RT := plain_runtime) sample_args sample_world) = Ok 1.
Proof.
  assert (H : probe_fails_with (extracted sample_world) (ExtractorError no_valid_videos)).
  { split; [reflexivity|]. right. exists VNone. repeat split; reflexivity. }
  split; [exact H|].
  destruct (probe_failure_aborts (RT := plain_runtime)) as (_ & _ & G).
  exact (proj1 (proj2 (G sample_args sample_world _ H))).
Defined.

Lemma path_name_component_witness : path_name ("/tmp/dl" ++ "/" ++ "clip.mp4") = "clip.mp4".
Proof.
  apply (proj1 (proj2 path_name_component)); [reflexivity|discriminate|discriminate].
Defined.


Lemma get_content_info_outcomes_witness :
  get_content_info (RT := plain_runtime) "u" None (Raise TypeError) tt =
  {| final := tt; trace := probe_prefix (RT := plain_runtime) "u" None;
     outcome := Raise TypeError |}.
Proof.
  apply (proj1 (proj2 (get_content_info_outcomes (RT := plain_runtime) "u" None))).
  reflexivity.
Defined.

Lemma script_probe_exception_witness :
  outcome (script (RT := plain_runtime) sample_args sample_interrupted) = Ok 0.
Proof.
  rewrite (proj1 (script_probe_exception (RT := plain_runtime) sample_args
                    sample_interrupted KeyboardInterrupt eq_refl eq_refl) eq_refl).
  reflexivity.
Defined.

Lemma script_session_witness :
  exists shown,
    trace (script (RT := plain_runtime) sample_args sample_success) =
      (session_prefix (RT := plain_runtime) sample_success
       ++ probe_prefix (RT := plain_runtime) (url sample_args) (cookies_from_browser sample_args)
       ++ shown
       ++ [SelectFormat true;
           DownloadContent (url sample_args) "bestvideo+bestaudio/best"])%list.
Proof.
  exists (trace (display_content_info (RT := plain_runtime) sample_video tt)).
  rewrite (proj1 (script_session (RT := plain_runtime) sample_args sample_success
                    sample_video
                    (trace (display_content_info (RT := plain_runtime) sample_video tt))
                    eq_refl eq_refl eq_refl)
             "bestvideo+bestaudio/best" eq_refl ltac:(discriminate) eq_refl).
  reflexivity.
Defined.

Lemma all_null_collection_witness :
  outcome (get_content_info (RT := plain_runtime) "u" None
             (Ok (VDict [("_type", VStr "playlist"); ("entries", VList [VNone; VNone])])) tt)
  = Ok (VDict [("_type", VStr "playlist"); ("entries", VList [VNone; VNone])]) /\
  nth_error (trace (display_content_info (RT := plain_runtime)
                      [("_type", VStr "playlist"); ("entries", VList [VNone; VNone])] tt)) 4
  = Some (Print ("   🎬 Videos:  " ++ "0" ++ newline)).
Proof.
  apply (all_null_collection (RT := plain_runtime) "u" None
           [("_type", VStr "playlist"); ("entries", VList [VNone; VNone])]
           [VNone; VNone] "Unknown Playlist" "Unknown Creator");
    [reflexivity|reflexivity|discriminate| |reflexivity|reflexivity].
  repeat constructor.
Defined.

Lemma format_duration_shape_witness :
  exists mm ss, format_duration (VInt 125) = Ok (mm ++ ":" ++ ss) /\
                String.length mm = 2%nat /\ String.length ss = 2%nat.
Proof.
  apply (proj1 (format_duration_shape 125)). split; reflexivity.
Defined.

Lemma playlist_title_safe_witness :
  has_char "/" "a_b" = false /\ playlist_title [("title", VStr "a_b")] = Ok "a_b".
Proof.
  destruct (playlist_title_safe [("title", VStr "a/b")] "a_b" eq_refl)
    as (_ & H1 & _ & H2).
  split; [exact H1|exact H2].
Defined.

Lemma select_format_sound_witness :
  In "bestaudio/best" (map option_format (format_options true)).
Proof.
  apply (select_format_sound (RT := plain_runtime) true [" 4 "] "bestaudio/best").
  reflexivity.
Defined.

Lemma select_format_turns_witness :
  outcome (select_format (RT := plain_runtime) false [" Quit "; "1"] tt) = Ok None.
Proof.
  apply (proj1 (select_format_turns (RT := plain_runtime) false " Quit " ["1"])).
  reflexivity.
Defined.



Lemma hook_run_burst_witness :
  hook_run (RT := plain_runtime)
    [(tenths_of_second 17000000000, sample_downloading);
     (tenths_of_second 17000000001, sample_downloading);
     (tenths_of_second 17000000002, sample_downloading);
     (tenths_of_second 17000000003, sample_finished)] hook_init
  = {| final := {| last_update_time := tenths_of_second 17000000000;
                   current_video_info := "" |};
       trace := [Print (carriage_return ++ "⬇️   37.5% | 1.5 KB/4.0 KB @ N/A |  | ...");
                 Print (newline ++ "✅ Completed: clip.mp4" ++ newline)];
       outcome := Ok tt |} /\
  hook_run (RT := plain_runtime)
    [(tenths_of_second 17000000000, sample_downloading);
     (tenths_of_second 17000000001, sample_downloading);
     (tenths_of_second 17000000002, sample_downloading)] hook_init
  = hook_call (RT := plain_runtime) (tenths_of_second 17000000000)
      sample_downloading hook_init.
Proof.
  split; [vm_compute; reflexivity|].
  apply (proj1 (hook_run_burst (RT := plain_runtime)
                  (tenths_of_second 17000000000) (tenths_of_second 17000000003)
                  hook_init sample_downloading sample_finished
                  [("filepath", VStr "/tmp/dl/clip.mp4")] "/tmp/dl" "clip.mp4"
                  [(tenths_of_second 17000000001, sample_downloading);
                   (tenths_of_second 17000000002, sample_downloading)]
                  ltac:(vm_compute; reflexivity) ltac:(vm_compute; reflexivity)
                  ltac:(repeat constructor; vm_compute; reflexivity)
                  eq_refl eq_refl eq_refl eq_refl
                  ltac:(discriminate) ltac:(discriminate))).
Defined.
